(** * slimta application layer: rule helpers and component graph builder

    A shallow embedding of [slimta/app/helpers.py] and
    [slimta/app/state.py], with the properties of the specification that
    concern them.

    Conventions of the embedding:
    - a configuration section (a [config.Mapping], or a [dict]) is a finite
      map from keys to configuration values; [m !! k] is both [k in m]
      (through [is_Some]) and [m.get(k)];
    - a Python exception is a value of [exn]; a computation that may raise
      returns a [result];
    - the methods of [SlimtaState] thread the state of the object, so a
      raised exception keeps the mutations done before it. *)

From Stdlib Require Import ZArith Ascii String List Bool Lia.
From stdpp Require Import base option list gmap strings fin_maps.

Local Open Scope string_scope.
Local Open Scope Z_scope.
Local Set Warnings "-register-all".

(** ** Configuration values *)

(** The values a configuration tree holds: scalars, sequences and nested
    mappings. *)
Inductive value : Type :=
  | VNone
  | VBool (b : bool)
  | VInt (n : Z)
  | VStr (s : string)
  | VList (l : list value)
  | VMap (m : gmap string value).

(** A section of the configuration: [options], [rules], [policy], [retry]. *)
Abbreviation section := (gmap string value).

(** Python exceptions raised by the modelled code. [ConfigError] comes from
    the [config] package, [ConfigValidationError] from [slimta.app.validation];
    the others are builtin. *)
Inductive exn : Type :=
  | ConfigError (msg : string)
  | ConfigValidationError (msg : string)
  | AttributeError (name : string)
  | IndexError
  | TypeError
  | ValueError
  | SyntaxError
  | ReError (pattern : string).

Inductive result (A : Type) : Type :=
  | Ok (a : A)
  | Raise (e : exn).
Arguments Ok {A} a.
Arguments Raise {A} e.

Definition rbind {A B} (r : result A) (k : A -> result B) : result B :=
  match r with
  | Ok a => k a
  | Raise e => Raise e
  end.

Declare Scope result_scope.
Delimit Scope result_scope with result.
Notation "'let?' x := r 'in' k" := (rbind r (fun x => k))
  (at level 10, x name, r at level 100, k at level 200) : result_scope.
Local Open Scope result_scope.

(** Truth value of a configuration value, as [bool(v)] and [if v:] compute
    it. An empty mapping, like an empty [dict], is false. *)
Definition truthy (v : value) : bool :=
  match v with
  | VNone => false
  | VBool b => b
  | VInt n => negb (n =? 0)
  | VStr s => negb (String.eqb s "")
  | VList l => match l with [] => false | _ => true end
  | VMap m => negb (bool_decide (m = ∅))
  end.

(** [v == s] for a string literal [s]. *)
Definition is_str (v : value) (s : string) : bool :=
  match v with
  | VStr t => String.eqb t s
  | _ => false
  end.

(** [options.get(key, default)]; [options.get(key)] is
    [options.get(key, None)]. *)
Definition get_default (m : section) (key : string) (d : value) : value :=
  default d (m !! key).

(** [options.key], attribute access on a section: the value, or an
    [AttributeError] naming the key. *)
Definition getattr (m : section) (key : string) : result value :=
  match m !! key with
  | Some v => Ok v
  | None => Raise (AttributeError key)
  end.

(** ** [int(v)] *)

Definition is_space (c : ascii) : bool :=
  let n := nat_of_ascii c in
  ((9 <=? n) && (n <=? 13))%nat || (n =? 32)%nat.

Definition digit_of (c : ascii) : option Z :=
  let n := Z.of_nat (nat_of_ascii c) in
  if (48 <=? n) && (n <=? 57) then Some (n - 48) else None.

Fixpoint lstrip (s : string) : string :=
  match s with
  | String c r => if is_space c then lstrip r else s
  | EmptyString => s
  end.

(** The digits of a literal, read left to right into [acc]; a single
    underscore is allowed between two digits; trailing white space ends the
    literal. [after_digit] tells whether the previous character was a
    digit. *)
Fixpoint int_digits (acc : Z) (after_digit : bool) (s : string) : option Z :=
  match s with
  | EmptyString => if after_digit then Some acc else None
  | String c r =>
      match digit_of c with
      | Some d => int_digits (10 * acc + d) true r
      | None =>
          if Ascii.eqb c "_" then
            if after_digit then
              match r with
              | String c' _ =>
                  if digit_of c' is Some _ then int_digits acc false r else None
              | EmptyString => None
              end
            else None
          else if is_space c && after_digit then
            match lstrip r with EmptyString => Some acc | _ => None end
          else None
      end
  end.

(** [int(s)] on a string: optional white space, an optional sign, decimal
    digits. *)
Definition int_of_string (s : string) : option Z :=
  match lstrip s with
  | String "-" r => Z.opp <$> int_digits 0 false r
  | String "+" r => int_digits 0 false r
  | r => int_digits 0 false r
  end.

Definition py_int (v : value) : result Z :=
  match v with
  | VInt n => Ok n
  | VBool b => Ok (if b then 1 else 0)
  | VStr s => match int_of_string s with
              | Some n => Ok n
              | None => Raise ValueError
              end
  | _ => Raise TypeError
  end.

(** ** Lookup tables

    The lookup drivers of [slimta.lookup.drivers] this module builds, and
    the lookups of other drivers that [load_lookup] returns. None of these
    classes defines [__len__] or [__bool__]: a lookup object is always true,
    so that [if self.lookup_senders:] tests that the attribute is not
    [None]. *)

(** What a lookup returns for an address: a [dict] of attributes. *)
Abbreviation attrs := (gmap string value).

Inductive Lookup : Type :=
  | DictLookup (backend : gmap string attrs) (key_template : string)
  | RegexLookup (key_template : string) (regexes : list (string * attrs))
  | DriverLookup (lookup : string -> option string -> option attrs).

(** [key_template.format(address=address)], for templates whose only
    replacement field is [{address}]. *)
Fixpoint format_address (fuel : nat) (template address : string) : string :=
  match fuel with
  | O => ""
  | S fuel' =>
      match template with
      | EmptyString => ""
      | String c r =>
          if String.prefix "{address}" template
          then address ++
               format_address fuel'
                 (String.substring 9 (String.length template - 9) template)
                 address
          else String c (format_address fuel' r address)
      end
  end.

Definition format_key (template address : string) : string :=
  format_address (S (String.length template)) template address.

(** ** Integer delay expressions

    The delay of a retry section is the source text of a Python expression
    in [x]. The fragment below, integer literals, [x], unary and binary
    [+] and [-], [*] and parentheses, is the part of it whose value is
    computed here; on it, Python computes with unbounded integers. *)

Inductive token : Type :=
  | TNum (n : Z)
  | TX
  | TPlus
  | TMinus
  | TStar
  | TLParen
  | TRParen.

Definition is_ident_char (c : ascii) : bool :=
  let n := nat_of_ascii c in
  (((48 <=? n) && (n <=? 57)) || ((65 <=? n) && (n <=? 90))
   || ((97 <=? n) && (n <=? 122)) || (n =? 95))%nat.

(** The digits at the head of [s], read into [acc], and what follows. *)
Fixpoint lex_digits (acc : Z) (s : string) : Z * string :=
  match s with
  | String c r =>
      match digit_of c with
      | Some d => lex_digits (10 * acc + d) r
      | None => (acc, s)
      end
  | EmptyString => (acc, s)
  end.

Definition starts_ident (s : string) : bool :=
  match s with
  | String c _ => is_ident_char c || Ascii.eqb c "."
  | EmptyString => false
  end.

Fixpoint tokenize (fuel : nat) (s : string) : option (list token) :=
  match fuel with
  | O => None
  | S fuel' =>
      match s with
      | EmptyString => Some []
      | String c r =>
          if Ascii.eqb c " " then tokenize fuel' r
          else if Ascii.eqb c "+" then cons TPlus <$> tokenize fuel' r
          else if Ascii.eqb c "-" then cons TMinus <$> tokenize fuel' r
          else if Ascii.eqb c "*" then cons TStar <$> tokenize fuel' r
          else if Ascii.eqb c "(" then cons TLParen <$> tokenize fuel' r
          else if Ascii.eqb c ")" then cons TRParen <$> tokenize fuel' r
          else if Ascii.eqb c "x" then
            if starts_ident r then None else cons TX <$> tokenize fuel' r
          else
            match digit_of c with
            | Some d =>
                let '(n, r') := lex_digits d r in
                (* no letter after a literal, no leading zero *)
                if starts_ident r' then None
                else if (d =? 0) && negb (n =? 0) then None
                else cons (TNum n) <$> tokenize fuel' r'
            | None => None
            end
      end
  end.

Inductive arith : Type :=
  | ANum (n : Z)
  | AVar
  | ANeg (e : arith)
  | AAdd (e1 e2 : arith)
  | ASub (e1 e2 : arith)
  | AMul (e1 e2 : arith).

Fixpoint arith_eval (e : arith) (x : Z) : Z :=
  match e with
  | ANum n => n
  | AVar => x
  | ANeg e => - arith_eval e x
  | AAdd e1 e2 => arith_eval e1 x + arith_eval e2 x
  | ASub e1 e2 => arith_eval e1 x - arith_eval e2 x
  | AMul e1 e2 => arith_eval e1 x * arith_eval e2 x
  end.

(** Recursive descent with Python's precedences: a sum of products of
    signed atoms, the binary operators associating to the left. *)
Fixpoint parse_sum (fuel : nat) (ts : list token)
    : option (arith * list token) :=
  match fuel with
  | O => None
  | S fuel' =>
      '(e, r) ← parse_product fuel' ts;
      parse_sum_rest fuel' e r
  end
with parse_sum_rest (fuel : nat) (acc : arith) (ts : list token)
    : option (arith * list token) :=
  match fuel with
  | O => None
  | S fuel' =>
      match ts with
      | TPlus :: r =>
          '(e, r') ← parse_product fuel' r;
          parse_sum_rest fuel' (AAdd acc e) r'
      | TMinus :: r =>
          '(e, r') ← parse_product fuel' r;
          parse_sum_rest fuel' (ASub acc e) r'
      | _ => Some (acc, ts)
      end
  end
with parse_product (fuel : nat) (ts : list token)
    : option (arith * list token) :=
  match fuel with
  | O => None
  | S fuel' =>
      '(e, r) ← parse_signed fuel' ts;
      parse_product_rest fuel' e r
  end
with parse_product_rest (fuel : nat) (acc : arith) (ts : list token)
    : option (arith * list token) :=
  match fuel with
  | O => None
  | S fuel' =>
      match ts with
      | TStar :: r =>
          '(e, r') ← parse_signed fuel' r;
          parse_product_rest fuel' (AMul acc e) r'
      | _ => Some (acc, ts)
      end
  end
with parse_signed (fuel : nat) (ts : list token)
    : option (arith * list token) :=
  match fuel with
  | O => None
  | S fuel' =>
      match ts with
      | TMinus :: r => '(e, r') ← parse_signed fuel' r; Some (ANeg e, r')
      | TPlus :: r => parse_signed fuel' r
      | TNum n :: r => Some (ANum n, r)
      | TX :: r => Some (AVar, r)
      | TLParen :: r =>
          '(e, r') ← parse_sum fuel' r;
          match r' with
          | TRParen :: r'' => Some (e, r'')
          | _ => None
          end
      | _ => None
      end
  end.

Definition parse_arith (src : string) : option arith :=
  ts ← tokenize (S (String.length src)) src;
  '(e, r) ← parse_sum (4 * S (List.length ts)) ts;
  match r with
  | [] => Some e
  | _ => None
  end.

(** ** The spam scanner object *)

(** [slimta.policy.spamassassin.SpamAssassin((host, port))] *)
Record SpamAssassin : Type := {
  sa_host : value;
  sa_port : Z
}.

(** ** Collaborators to run the model with

    The functions of this development take the collaborators that are not
    part of the modelled files as parameters. The ones below are simple
    instances of them, on which the statements are run on concrete
    configurations. *)

(** A lookup loader: nothing for an empty fragment, a dictionary lookup
    over the [map] of the fragment otherwise. *)
Definition sample_load_lookup (v : value) : result (option Lookup) :=
  if negb (truthy v) then Ok None
  else
    match v with
    | VMap m =>
        match m !! "map" with
        | Some (VMap d) =>
            Ok (Some (DictLookup
                        ((fun a => match a with VMap a => a | _ => ∅ end) <$> d)
                        "{address}"))
        | _ => Raise (ConfigError "lookup section has no map")
        end
    | _ => Raise TypeError
    end.

(** Patterns that are literal prefixes. *)
Definition sample_re_valid (p : string) : bool := true.

Definition sample_re_match (p s : string) : bool := String.prefix p s.

(** A scanner that flags the messages starting with [SPAM]. *)
Definition sample_scan (sa : SpamAssassin) (data : string) : bool * value :=
  (String.prefix "SPAM" data, VNone).

Fixpoint strip_prefix (p s : string) : option string :=
  match p, s with
  | EmptyString, _ => Some s
  | String a p', String b s' =>
      if Ascii.eqb a b then strip_prefix p' s' else None
  | String _ _, EmptyString => None
  end.

(** An evaluator of [lambda x: e] for [e] in the integer fragment. *)
Definition arith_eval_lambda (src : string) : result (Z -> result value) :=
  match strip_prefix "lambda x: " src with
  | Some body =>
      match parse_arith body with
      | Some e => Ok (fun x => Ok (VInt (arith_eval e x)))
      | None => Raise SyntaxError
      end
  | None => Raise SyntaxError
  end.

(** A configuration with an [mx] relay, a celery queue that names it, a
    default queue, and an [smtp] edge on the default queue that gives
    neither interface nor port. *)
Definition sample_cfg : value :=
  VMap {[
    "relay" := VMap {[ "outbound" := VMap {[ "type" := VStr "mx" ]} ]};
    "queue" := VMap {[
      "inbound" := VMap ∅;
      "outbound" := VMap {[ "type" := VStr "celery";
                            "relay" := VStr "outbound" ]} ]};
    "edge" := VMap {[
      "inbound" := VMap {[ "type" := VStr "smtp";
                           "queue" := VStr "inbound";
                           "listeners" := VList [VMap ∅] ]} ]}
  ]}.

(** A rules section that gives the three sender keys at once. *)
Definition sample_rules : section :=
  {[ "lookup_senders" :=
       VMap {[ "map" := VMap {[ "postmaster@example.com" := VMap ∅ ]} ]};
     "only_senders" := VList [VStr "sales@example.com"];
     "regex_senders" := VList [VStr "info@"] ]}.

Section Slimta.

(** [slimta.app.lookup.load_lookup]: builds the lookup a configuration
    fragment describes, returns [None] for a fragment that describes none,
    and raises on a fragment it cannot build. Its source is not part of
    the modelled files; the functions below are stated for any such
    function. *)
Variable load_lookup : value -> result (option Lookup).

(** The [re] module: [re_valid p] when [re.compile(p)] succeeds,
    [re_match p s] when the compiled pattern matches at the start of [s]. *)
Variable re_valid : string -> bool.
Variable re_match : string -> string -> bool.

(** [lookup.lookup_address(address, authzid=authzid)]. *)
Definition lookup_address (l : Lookup) (address : string)
    (authzid : option string) : option attrs :=
  match l with
  | DictLookup backend key_template =>
      backend !! format_key key_template address
  | RegexLookup key_template regexes =>
      snd <$> List.find
                (fun '(p, _) => re_match p (format_key key_template address))
                regexes
  | DriverLookup lookup => lookup address authzid
  end.

(** The strings an iterable of the configuration yields: the items of a
    list, the characters of a string. Items that cannot be keys of a [dict]
    raise a [TypeError]; hashable items that are not strings are left out,
    since no formatted key, a string, is ever equal to one. *)
Fixpoint iter_strings (l : list value) : result (list string) :=
  match l with
  | [] => Ok []
  | VStr s :: r => let? k := iter_strings r in Ok (s :: k)
  | (VList _ | VMap _) :: _ => Raise TypeError
  | _ :: r => iter_strings r
  end.

Definition chars (s : string) : list string :=
  (fun c => String c EmptyString) <$> list_ascii_of_string s.

(** [dict.fromkeys(v, {})] *)
Definition dict_fromkeys (v : value) : result (gmap string attrs) :=
  match v with
  | VList l =>
      let? keys := iter_strings l in
      Ok (list_to_map ((fun k => (k, ∅)) <$> keys))
  | VStr s => Ok (list_to_map ((fun k => (k, ∅)) <$> chars s))
  | VMap m => Ok ((fun _ => ∅) <$> m)
  | _ => Raise TypeError
  end.

(** The loop [for item in rules[regex_section]: lookup.add_regex(item, {})]:
    the patterns in the order of the list, each compiled when it is
    added. *)
Fixpoint add_regexes (items : list value) (regexes : list (string * attrs))
    : result (list (string * attrs)) :=
  match items with
  | [] => Ok regexes
  | VStr p :: r =>
      if re_valid p then add_regexes r (regexes ++ [(p, ∅)])
      else Raise (ReError p)
  | _ :: _ => Raise TypeError
  end.

Definition regex_lookup (v : value) : result Lookup :=
  match v with
  | VList l =>
      let? regexes := add_regexes l [] in Ok (RegexLookup "{address}" regexes)
  | VStr s =>
      let? regexes := add_regexes (VStr <$> chars s) [] in
      Ok (RegexLookup "{address}" regexes)
  | VMap m =>
      let? regexes := add_regexes (VStr <$> (map_to_list m).*1) [] in
      Ok (RegexLookup "{address}" regexes)
  | _ => Raise TypeError
  end.

(** [RuleHelpers._get_lookup] *)
Definition _get_lookup (rules : section)
    (lookup_section list_section regex_section : string)
    : result (option Lookup) :=
  match rules !! lookup_section with
  | Some v => load_lookup v
  | None =>
      match rules !! list_section with
      | Some v =>
          let? map := dict_fromkeys v in Ok (Some (DictLookup map "{address}"))
      | None =>
          match rules !! regex_section with
          | Some v => let? lookup := regex_lookup v in Ok (Some lookup)
          | None => Ok None
          end
      end
  end.

(** *** Spam scanner *)

(** [scanner.scan(data)]: the verdict of the external scanner and the
    report that comes with it. *)
Variable scan : SpamAssassin -> string -> bool * value.

Definition _get_spamassassin_object (options : section) : result SpamAssassin :=
  let host := get_default options "host" (VStr "localhost") in
  let? port := py_int (get_default options "port" (VInt 783)) in
  Ok {| sa_host := host; sa_port := port |}.

(** [RuleHelpers._get_scanner] *)
Definition _get_scanner (options : option section)
    : result (option SpamAssassin) :=
  match options with
  | None => Ok None
  | Some options =>
      let type := get_default options "type" (VStr "spamassassin") in
      if is_str type "spamassassin"
      then let? sa := _get_spamassassin_object options in Ok (Some sa)
      else Ok None
  end.

(** *** Rule helpers *)

(** [pysasl.hashing.get_hash(passlib_config=...)] *)
Record PasswordHash : Type := {
  passlib_config : value
}.

(** [pysasl.identity.HashedIdentity(authcid, digest, hash=...)] *)
Record HashedIdentity : Type := {
  id_authcid : string;
  id_digest : value;
  id_hash : PasswordHash
}.

(** The credentials of an authentication attempt, with their
    [verify(identity)] method. *)
Record Credentials : Type := {
  authcid : string;
  authzid : option string;
  verify : HashedIdentity -> bool
}.

(** The validators object of a session; [session_auth] is
    [validators.session.auth], [None] until the session authenticates. *)
Record Validators : Type := {
  session_auth : value
}.

(** The attributes [RuleHelpers.__init__] sets. *)
Record RuleHelpers : Type := {
  banner : value;
  dnsbl : value;
  lookup_senders : option Lookup;
  lookup_rcpts : option Lookup;
  lookup_creds : option Lookup;
  password_hash : PasswordHash;
  reject_spf : value;
  scanner : option SpamAssassin
}.

(** [RuleHelpers.check_credentials] *)
Definition check_credentials (self : RuleHelpers) (creds : Credentials)
    : bool :=
  match lookup_creds self with
  | None => false
  | Some lookup =>
      match lookup_address lookup (authcid creds) (authzid creds) with
      | None => false
      | Some ret =>
          if negb (truthy (VMap ret)) then false
          else
            match ret !! "password" with
            | None => false
            | Some password =>
                let identity :=
                  {| id_authcid := authcid creds;
                     id_digest := password;
                     id_hash := password_hash self |} in
                if negb (verify creds identity) then false else true
            end
      end
  end.

(** [RuleHelpers.is_sender_ok] *)
Definition is_sender_ok (self : RuleHelpers) (validators : Validators)
    (sender : string) : bool :=
  match lookup_senders self with
  | Some lookup => bool_decide (is_Some (lookup_address lookup sender None))
  | None =>
      if bool_decide (is_Some (lookup_creds self))
         && negb (truthy (session_auth validators))
      then false
      else true
  end.

(** [RuleHelpers.is_recipient_ok] *)
Definition is_recipient_ok (self : RuleHelpers) (recipient : string) : bool :=
  match lookup_rcpts self with
  | Some lookup => bool_decide (is_Some (lookup_address lookup recipient None))
  | None => true
  end.

(** [RuleHelpers.reject_spam] *)
Definition reject_spam (self : RuleHelpers) (data : string) : bool :=
  match scanner self with
  | Some scanner => let '(is_spam, info) := scan scanner data in is_spam
  | None => false
  end.

(** *** Queue policies *)

(** The policy objects [add_queue_policies] hands to [queue.add_policy]. *)
Inductive Policy : Type :=
  | AddDateHeader
  | AddMessageIdHeader (hostname : value)
  | AddReceivedHeader
  | RecipientSplit
  | RecipientDomainSplit
  | LookupPolicy (lookup : Lookup) (on_sender on_rcpts : value)
  | Forward (mapping : list (value * value))
  | SpamAssassinPolicy (scanner : SpamAssassin)
  | AddDKIMHeader (dkim : value).

(** One item of an iterable handed to [dict(...)], a key and its value. *)
Definition dict_item (v : value) : result (value * value) :=
  match v with
  | VList [VList _; _] | VList [VMap _; _] => Raise TypeError
  | VList [k; w] => Ok (k, w)
  | VStr (String a (String b EmptyString)) =>
      Ok (VStr (String a EmptyString), VStr (String b EmptyString))
  | VList _ | VStr _ => Raise ValueError
  | _ => Raise TypeError
  end.

Fixpoint dict_items (l : list value) : result (list (value * value)) :=
  match l with
  | [] => Ok []
  | v :: r =>
      let? kv := dict_item v in
      let? kvs := dict_items r in
      Ok (kv :: kvs)
  end.

(** [list(dict(v).items())]: the items of a mapping, in the iteration order
    of the mapping. *)
Definition py_dict_items (v : value) : result (list (value * value)) :=
  match v with
  | VMap m => Ok ((fun '(k, w) => (VStr k, w)) <$> map_to_list m)
  | VList l => dict_items l
  | VStr s => dict_items (VStr <$> chars s)
  | _ => Raise TypeError
  end.

(** The body of the loop of [add_queue_policies] for one entry: the policy
    the entry adds to the queue, [None] when no branch of the [if]/[elif]
    chain takes the entry, or the exception the branch raises. *)
Definition policy_of_entry (policy : section) : result (option Policy) :=
  let? type := getattr policy "type" in
  if is_str type "add_date_header" then Ok (Some AddDateHeader)
  else if is_str type "add_messageid_header" then
    let? hostname := getattr policy "hostname" in
    Ok (Some (AddMessageIdHeader hostname))
  else if is_str type "add_received_header" then Ok (Some AddReceivedHeader)
  else if is_str type "recipient_split" then Ok (Some RecipientSplit)
  else if is_str type "recipient_domain_split" then
    Ok (Some RecipientDomainSplit)
  else if is_str type "lookup" then
    let? lookup := load_lookup (get_default policy "lookup" (VMap ∅)) in
    let on_sender := get_default policy "on_sender" (VBool false) in
    let on_rcpts := get_default policy "on_recipients" (VBool true) in
    match lookup with
    | Some lookup => Ok (Some (LookupPolicy lookup on_sender on_rcpts))
    | None => Raise (ConfigValidationError "Incomplete lookup policy section")
    end
  else if is_str type "forward" then
    let? mapping := py_dict_items (get_default policy "mapping" (VMap ∅)) in
    Ok (Some (Forward mapping))
  else if is_str type "spamassassin" then
    let? sa := _get_spamassassin_object policy in
    Ok (Some (SpamAssassinPolicy sa))
  else if is_str type "add_dkim_header" then
    Ok (Some (AddDKIMHeader (get_default policy "dkim" (VMap ∅))))
  else Ok None.

(** [add_queue_policies(queue, policy_options)]. The queue is the list of
    the policies added to it so far, [queue.add_policy(p)] appends [p].
    The result is the queue when the function returns or raises, and [Ok]
    or the exception raised. *)
Fixpoint add_queue_policies (queue : list Policy)
    (policy_options : list section) : list Policy * result unit :=
  match policy_options with
  | [] => (queue, Ok tt)
  | policy :: rest =>
      match policy_of_entry policy with
      | Ok (Some p) => add_queue_policies (queue ++ [p]) rest
      | Ok None => add_queue_policies queue rest
      | Raise e => (queue, Raise e)
      end
  end.

(** The policy type names the [if]/[elif] chain of [add_queue_policies]
    knows. *)
Definition known_policy_types : list string :=
  ["add_date_header"; "add_messageid_header"; "add_received_header";
   "recipient_split"; "recipient_domain_split"; "lookup"; "forward";
   "spamassassin"; "add_dkim_header"].

(** *** Backoff function *)

(** The objects a delay expression evaluates to, with [None] and the
    integers among them. *)
Variable pyobj : Type.
Variable py_None : pyobj.
Variable py_of_Z : Z -> pyobj.

(** [eval(source, math.__dict__)] for the source text of a [lambda] of one
    argument: the exception raised by the evaluation, or the function,
    whose calls may raise in turn. *)
Variable py_eval_lambda : string -> result (Z -> result pyobj).

(** The envelope handed to a backoff function, which does not read it. *)
Variable Envelope : Type.

(** [not retry]: no retry section, or an empty one. *)
Definition no_retry (retry : option section) : bool :=
  match retry with
  | None => true
  | Some m => negb (truthy (VMap m))
  end.

(** [build_backoff_function(retry)]. A returned function gives [py_None]
    to stop retrying, or the delay. *)
Definition build_backoff_function (retry : option section)
    : result (Envelope -> Z -> result pyobj) :=
  match retry with
  | Some m =>
      if negb (truthy (VMap m)) then
        Ok (fun envelope attempts => Ok py_None)
      else
        let? maximum := py_int (get_default m "maximum" (VInt 0)) in
        match get_default m "delay" (VStr "300") with
        | VStr delay =>
            let? delay_func := py_eval_lambda ("lambda x: " ++ delay) in
            Ok (fun envelope attempts =>
                  if attempts >? maximum then Ok py_None
                  else delay_func attempts)
        | _ => Raise TypeError
        end
  | None => Ok (fun envelope attempts => Ok py_None)
  end.

(** ** Component graph builder: [SlimtaState] *)

(** Attribute access and [get] on a value of the configuration, which is a
    mapping when the configuration is well formed. *)
Definition v_getattr (v : value) (key : string) : result value :=
  match v with
  | VMap m => getattr m key
  | _ => Raise (AttributeError key)
  end.

Definition v_get (v : value) (key : string) (d : value) : result value :=
  match v with
  | VMap m => Ok (get_default m key d)
  | _ => Raise (AttributeError "get")
  end.

(** [v[0]] *)
Definition py_index0 (v : value) : result value :=
  match v with
  | VList (x :: _) => Ok x
  | VList [] => Raise IndexError
  | VStr (String c _) => Ok (VStr (String c EmptyString))
  | VStr EmptyString => Raise IndexError
  | VMap _ => Raise (AttributeError "0")
  | _ => Raise TypeError
  end.

(** [prefix + v] for a string literal [prefix]. *)
Definition str_concat (prefix : string) (v : value) : result string :=
  match v with
  | VStr s => Ok (prefix ++ s)
  | _ => Raise TypeError
  end.

(** The relay classes [_start_relay] instantiates. *)
Inductive RelayClass : Type :=
  | MxSmtpRelay
  | StaticSmtpRelay (host port : value)
  | MaildropRelay (executable : value).

(** Objects carry the identity they get when they are constructed: two
    objects are the same instance when they are equal, identity included. *)
Record Relay : Type := {
  relay_id : nat;
  relay_class : RelayClass
}.

(** The application [get_celery_app(self.cfg)] returns. *)
Record CeleryApp : Type := {
  celery_id : nat
}.

(** [CeleryQueue(celery, relay, name)] *)
Record Queue : Type := {
  queue_id : nat;
  queue_celery : CeleryApp;
  queue_relay : Relay;
  queue_name : string
}.

(** [SmtpEdge((ip, port), queue)]; [edge_queue] is [None] for the default
    queue; [edge_started] is set by [start()]. *)
Record Edge : Type := {
  edge_id : nat;
  edge_ip : value;
  edge_port : Z;
  edge_queue : option Queue;
  edge_started : bool
}.

(** A call of a constructor of the toolkit, with the name of the section
    it is made for. *)
Inductive construction : Type :=
  | RelayBuilt (name : string)
  | CeleryBuilt
  | QueueBuilt (name : string)
  | EdgeBuilt (name : string).

(** The attributes of a [SlimtaState] the builders use. [constructed] is
    not an attribute of the class: it records the constructor calls made
    so far, in order, and the position of a call in it is the identity of
    the object the call returns. *)
Record SlimtaState : Type := {
  cfg : value;
  edges : gmap string Edge;
  queues : gmap string (option Queue);
  relays : gmap string Relay;
  _celery : option CeleryApp;
  constructed : list construction
}.

(** [SlimtaState()] once [load_config] has set [self.cfg]. *)
Definition initial_state (cfg : value) : SlimtaState :=
  {| cfg := cfg; edges := ∅; queues := ∅; relays := ∅; _celery := None;
     constructed := [] |}.

Definition set_edges (f : gmap string Edge -> gmap string Edge)
    (self : SlimtaState) : SlimtaState :=
  {| cfg := cfg self; edges := f (edges self); queues := queues self;
     relays := relays self; _celery := _celery self;
     constructed := constructed self |}.

Definition set_queues
    (f : gmap string (option Queue) -> gmap string (option Queue))
    (self : SlimtaState) : SlimtaState :=
  {| cfg := cfg self; edges := edges self; queues := f (queues self);
     relays := relays self; _celery := _celery self;
     constructed := constructed self |}.

Definition set_relays (f : gmap string Relay -> gmap string Relay)
    (self : SlimtaState) : SlimtaState :=
  {| cfg := cfg self; edges := edges self; queues := queues self;
     relays := f (relays self); _celery := _celery self;
     constructed := constructed self |}.

Definition set_celery (app : option CeleryApp) (self : SlimtaState)
    : SlimtaState :=
  {| cfg := cfg self; edges := edges self; queues := queues self;
     relays := relays self; _celery := app;
     constructed := constructed self |}.

(** A method of [SlimtaState]: from the state of the object, a result or an
    exception, and the state the call leaves. *)
Definition M (A : Type) : Type := SlimtaState -> result A * SlimtaState.

Definition ret {A} (a : A) : M A := fun self => (Ok a, self).

Definition raise {A} (e : exn) : M A := fun self => (Raise e, self).

Definition lift {A} (r : result A) : M A := fun self => (r, self).

Definition bind {A B} (m : M A) (k : A -> M B) : M B :=
  fun self =>
    match m self with
    | (Ok a, self') => k a self'
    | (Raise e, self') => (Raise e, self')
    end.

Definition gets {A} (f : SlimtaState -> A) : M A :=
  fun self => (Ok (f self), self).

Definition modify (f : SlimtaState -> SlimtaState) : M unit :=
  fun self => (Ok tt, f self).

(** A constructor call: logs the call and returns the identity of the new
    object. *)
Definition construct (c : construction) : M nat :=
  fun self =>
    (Ok (List.length (constructed self)),
     {| cfg := cfg self; edges := edges self; queues := queues self;
        relays := relays self; _celery := _celery self;
        constructed := constructed self ++ [c] |}).

Declare Scope state_scope.
Delimit Scope state_scope with state.
Notation "'do' x <- m ; k" := (bind m (fun x => k))
  (at level 10, x name, m at level 100, k at level 200) : state_scope.
Notation "'run' m ; k" := (bind m (fun _ => k))
  (at level 10, m at level 100, k at level 200) : state_scope.
Local Open Scope state_scope.

(** [getattr(self.cfg.<kind>, name)] *)
Definition cfg_section (kind name : string) : M value :=
  do c <- gets cfg;
  lift (let? sections := v_getattr c kind in v_getattr sections name).

(** [options] if it is given and not empty, the section of the
    configuration otherwise. *)
Definition options_or_section (kind name : string) (options : value)
    : M value :=
  if negb (truthy options) then cfg_section kind name else ret options.

(** [SlimtaState._start_relay] *)
Definition _start_relay (name : string) (options : value) : M Relay :=
  do memo <- gets (fun self => relays self !! name);
  match memo with
  | Some relay => ret relay
  | None =>
      do options <- options_or_section "relay" name options;
      do type <- lift (v_getattr options "type");
      do new_relay <-
        (if is_str type "mx" then
           do id <- construct (RelayBuilt name);
           ret {| relay_id := id; relay_class := MxSmtpRelay |}
         else if is_str type "static" then
           do host <- lift (v_getattr options "host");
           do port <- lift (v_get options "port" (VInt 25));
           do id <- construct (RelayBuilt name);
           ret {| relay_id := id; relay_class := StaticSmtpRelay host port |}
         else if is_str type "maildrop" then
           do executable <- lift (v_get options "executable" VNone);
           do id <- construct (RelayBuilt name);
           ret {| relay_id := id; relay_class := MaildropRelay executable |}
         else
           do msg <- lift (str_concat "relay type does not exist: " type);
           raise (ConfigError msg));
      run modify (set_relays <[name := new_relay]>);
      ret new_relay
  end.

(** The property [SlimtaState.celery] *)
Definition celery : M CeleryApp :=
  do memo <- gets _celery;
  match memo with
  | Some app => ret app
  | None =>
      do id <- construct CeleryBuilt;
      let app := {| celery_id := id |} in
      run modify (set_celery (Some app));
      ret app
  end.

(** A name read from the configuration and handed to the builder of the
    components of [kind]: the builder looks it up in its registry, which
    raises a [TypeError] for a value that cannot be hashed, then reads
    [self.cfg.<kind>] and the attribute of that name, which raises a
    [TypeError] for a name that is not a string. *)
Definition as_name (kind : string) (v : value) : M string :=
  match v with
  | VStr s => ret s
  | VList _ | VMap _ => raise TypeError
  | _ =>
      do c <- gets cfg;
      do sections <- lift (v_getattr c kind);
      raise TypeError
  end.

(** [SlimtaState._start_queue]; the default queue is [None]. *)
Definition _start_queue (name : string) (options : value)
    : M (option Queue) :=
  do memo <- gets (fun self => queues self !! name);
  match memo with
  | Some queue => ret queue
  | None =>
      do options <- options_or_section "queue" name options;
      do is_default <-
        (if negb (truthy options) then ret true
         else do type <- lift (v_get options "type" (VStr "default"));
              ret (is_str type "default"));
      do new_queue <-
        (if is_default : bool then ret None
         else
           do type <- lift (v_getattr options "type");
           if is_str type "celery" then
             do relay_name <- lift (v_get options "relay" VNone);
             if negb (truthy relay_name) then
               raise (ConfigError "queue sections must be given a relay name")
             else
               do relay_name <- as_name "relay" relay_name;
               do relay <- _start_relay relay_name VNone;
               do app <- celery;
               do id <- construct (QueueBuilt name);
               ret (Some {| queue_id := id; queue_celery := app;
                            queue_relay := relay; queue_name := name |})
           else
             do msg <- lift (str_concat "queue type does not exist: " type);
             raise (ConfigError msg));
      run modify (set_queues <[name := new_queue]>);
      ret new_queue
  end.

(** [SlimtaState._start_edge] *)
Definition _start_edge (name : string) (options : value) : M Edge :=
  do memo <- gets (fun self => edges self !! name);
  match memo with
  | Some edge => ret edge
  | None =>
      do options <- options_or_section "edge" name options;
      do type <- lift (v_getattr options "type");
      do new_edge <-
        (if is_str type "smtp" then
           do listeners <- lift (v_getattr options "listeners");
           do listener <- lift (py_index0 listeners);
           do ip <- lift (v_get listener "interface" (VStr "127.0.0.1"));
           do port <- lift (let? p := v_get listener "port" (VInt 25) in
                            py_int p);
           do queue_name <- lift (v_get options "queue" VNone);
           if negb (truthy queue_name) then
             raise (ConfigError "edge sections must be given a queue name")
           else
             do queue_name <- as_name "queue" queue_name;
             do queue <- _start_queue queue_name VNone;
             do id <- construct (EdgeBuilt name);
             ret {| edge_id := id; edge_ip := ip; edge_port := port;
                    edge_queue := queue; edge_started := true |}
         else
           do msg <- lift (str_concat "edge type does not exist: " type);
           raise (ConfigError msg));
      run modify (set_edges <[name := new_edge]>);
      ret new_edge
  end.

(** *** Observations on a state *)

Definition is_relay_built (name : string) (c : construction) : bool :=
  match c with
  | RelayBuilt n => String.eqb n name
  | _ => false
  end.

(** How many times a relay was constructed for the section [name]. *)
Definition relay_constructions (name : string) (self : SlimtaState) : nat :=
  List.length (List.filter (is_relay_built name) (constructed self)).

(** The invariant of the relay registry: a relay is constructed at most
    once for a name, and not at all for a name that is not registered. *)
Definition relays_built_once (self : SlimtaState) : Prop :=
  forall name,
    (relay_constructions name self <= 1)%nat /\
    (relays self !! name = None -> relay_constructions name self = 0%nat).

(** A method keeps the invariant, whether it returns or raises. *)
Definition preserves {A} (m : M A) : Prop :=
  forall self, relays_built_once self -> relays_built_once (snd (m self)).

(** A call of one of the three builders, with any arguments. *)
Inductive call : Type :=
  | StartRelay (name : string) (options : value)
  | StartQueue (name : string) (options : value)
  | StartEdge (name : string) (options : value).

(** The state a call leaves, whether it returns or raises. *)
Definition run_call (c : call) (self : SlimtaState) : SlimtaState :=
  match c with
  | StartRelay name options => snd (_start_relay name options self)
  | StartQueue name options => snd (_start_queue name options self)
  | StartEdge name options => snd (_start_edge name options self)
  end.

Definition run_calls (calls : list call) (self : SlimtaState) : SlimtaState :=
  fold_left (fun self c => run_call c self) calls self.

(** [needle in hay], on strings. *)
Fixpoint is_infix (needle hay : string) : bool :=
  String.prefix needle hay
  || match hay with
     | EmptyString => false
     | String _ r => is_infix needle r
     end.

(** *** Validators of the edges *)

(** The reply of an SMTP command, with the attributes the handlers
    assign. *)
Record Reply : Type := {
  reply_code : value;
  reply_message : value
}.

(** A handler of [SmtpValidators]: from its arguments other than the
    reply, and the reply, the reply when it returns. *)
Definition Handler (A : Type) : Type := A -> Reply -> Reply.

(** [RuleHelpers._noop_decorator] *)
Definition _noop_decorator {A} (f : Handler A) : Handler A :=
  fun args reply => f args reply.

(** [CustomValidators.handle_auth] of [build_smtpedge_validators], for the
    rule helpers [rules] of the edge. *)
Definition handle_auth (rules : RuleHelpers) : Handler Credentials :=
  fun creds reply =>
    if negb (check_credentials rules creds)
    then {| reply_code := VStr "535";
            reply_message :=
              VStr "5.7.8 Authentication credentials invalid" |}
    else reply.

(** [CustomValidators.handle_mail], under the decorator
    [rules.get_mail_decorator()] returned when the class was built. The
    arguments are the validators object, the sender and the parameters of
    the command. *)
Definition handle_mail (rules : RuleHelpers)
    (mail_decorator : Handler (Validators * string * value) ->
                      Handler (Validators * string * value))
    : Handler (Validators * string * value) :=
  mail_decorator
    (fun '(validators, sender, params) reply =>
       if negb (is_sender_ok rules validators sender)
       then {| reply_code := VStr "550";
               reply_message :=
                 VStr ("5.7.1 Sender <" ++ sender ++ "> Not allowed") |}
       else reply).

(** [CustomValidators.handle_rcpt] *)
Definition handle_rcpt (rules : RuleHelpers) : Handler string :=
  fun rcpt reply =>
    if negb (is_recipient_ok rules rcpt)
    then {| reply_code := VStr "550";
            reply_message :=
              VStr ("5.7.1 Recipient <" ++ rcpt ++ "> Not allowed") |}
    else reply.

(** [CustomValidators.handle_have_data] *)
Definition handle_have_data (rules : RuleHelpers) : Handler string :=
  fun data reply =>
    if reject_spam rules data
    then {| reply_code := VStr "554";
            reply_message := VStr "5.6.0 Message content rejected" |}
    else reply.

(** The exception [WsgiResponse(status, headers)]. *)
Record WsgiResponse : Type := {
  wsgi_status : string;
  wsgi_headers : list (string * string)
}.

(** The double quote character, as a string. *)
Definition dquote : string := String (ascii_of_nat 34) EmptyString.

(** ['{0}; message="{1}"'.format(smtp_code, smtp_message)] *)
Definition smtp_reply_header (smtp_code smtp_message : string) : string :=
  smtp_code ++ "; message=" ++ dquote ++ smtp_message ++ dquote.

(** [CustomValidators.validate_sender] of [build_wsgiedge_validators]:
    [None] when it returns, the response when it raises one. *)
Definition validate_sender (rules : RuleHelpers) (validators : Validators)
    (sender : string) : option WsgiResponse :=
  if negb (is_sender_ok rules validators sender) then
    let smtp_code := "550" in
    let smtp_message := "5.7.1 Sender <" ++ sender ++ "> Not allowed" in
    let reply := smtp_reply_header smtp_code smtp_message in
    Some {| wsgi_status := "403 Forbidden";
            wsgi_headers := [("X-Smtp-Reply", reply)] |}
  else None.

(** [CustomValidators.validate_recipient] *)
Definition validate_recipient (rules : RuleHelpers) (rcpt : string)
    : option WsgiResponse :=
  if negb (is_recipient_ok rules rcpt) then
    let smtp_code := "550" in
    let smtp_message := "5.7.1 Recipient <" ++ rcpt ++ "> Not allowed" in
    let reply := smtp_reply_header smtp_code smtp_message in
    Some {| wsgi_status := "403 Forbidden";
            wsgi_headers := [("X-Smtp-Reply", reply)] |}
  else None.

(** *** Starting all the components of a kind *)

(** The items of [dict(v).items()] for a section of sections [v], a mapping
    from names to options, in the order [map_to_list] gives them; the
    functions below that take the items are stated for the items in any
    order. A value that is not a mapping is not a section of sections: the
    model raises [TypeError] for it, as Python does for the values that
    cannot be iterated. *)
Definition section_items (v : value) : result (list (string * value)) :=
  match v with
  | VMap m => Ok (map_to_list m)
  | _ => Raise TypeError
  end.

(** The loop of [SlimtaState.start_celery_queues] over the items. *)
Fixpoint start_celery_queues_items (items : list (string * value))
    : M unit :=
  match items with
  | [] => ret tt
  | (name, options) :: rest =>
      do type <- lift (v_getattr options "type");
      do started <-
        (if is_str type "celery" then
           do queue <- _start_queue name options; ret tt
         else ret tt);
      start_celery_queues_items rest
  end.

(** [SlimtaState.start_celery_queues] *)
Definition start_celery_queues : M unit :=
  do c <- gets cfg;
  do items <- lift (let? queue := v_getattr c "queue" in section_items queue);
  start_celery_queues_items items.

(** The loop of [SlimtaState.start_edges] over the items. *)
Fixpoint start_edges_items (items : list (string * value)) : M unit :=
  match items with
  | [] => ret tt
  | (name, options) :: rest =>
      do edge <- _start_edge name options;
      start_edges_items rest
  end.

(** [SlimtaState.start_edges] *)
Definition start_edges : M unit :=
  do c <- gets cfg;
  do items <- lift (let? edge := v_getattr c "edge" in section_items edge);
  start_edges_items items.

(** *** Loading the configuration *)

Definition set_cfg (c : value) (self : SlimtaState) : SlimtaState :=
  {| cfg := c; edges := edges self; queues := queues self;
     relays := relays self; _celery := _celery self;
     constructed := constructed self |}.

Section ConfigFiles.

(** The file system and the [config] package: [os.path.expanduser], the
    content of the file [open(path, 'r')] gives, [None] when it raises
    [IOError], and [Config(f)], which raises on a content it cannot
    parse. *)
Variable expanduser : string -> string.
Variable file_content : Type.
Variable open_file : string -> option file_content.
Variable Config : file_content -> result value.

(** [SlimtaState._check_configs] *)
Fixpoint _check_configs (files : list string) : result value :=
  match files with
  | [] => Ok VNone
  | config_file :: rest =>
      match open_file (expanduser config_file) with
      | None => _check_configs rest
      | Some f => Config f
      end
  end.

(** [SlimtaState._global_config_files] *)
Definition _global_config_files : list string :=
  [expanduser "~/.slimta.conf"; "/etc/slimta.conf"].

(** [SlimtaState.load_config]; [config_file] is [None] or a path. *)
Definition load_config (config_file : option string) : M bool :=
  do c <- gets cfg;
  if truthy c then ret true
  else
    let files :=
      match config_file with
      | Some path => if negb (String.eqb path "") then [path]
                     else _global_config_files
      | None => _global_config_files
      end in
    do c <- lift (_check_configs files);
    run modify (set_cfg c);
    ret (truthy c).

End ConfigFiles.

(** *** Process lifecycle *)

(** The calls into [slimta.system] and [warnings] the lifecycle methods
    make. *)
Inductive system_call : Type :=
  | DropPrivileges (user group : value)
  | Warn (message : string)
  | RedirectStdio (stdout stderr stdin : value)
  | Daemonize.

(** [self.cfg.process.get(key, default)] *)
Definition process_get (self : SlimtaState) (key : string) (d : value)
    : result value :=
  let? process := v_getattr (cfg self) "process" in
  v_get process key d.

(** [SlimtaState.drop_privileges]: the calls it makes, for a process whose
    [os.getuid()] is [uid]. *)
Definition drop_privileges (uid : Z) (self : SlimtaState)
    : result (list system_call) :=
  if uid =? 0 then
    let? user := process_get self "user" VNone in
    let? group := process_get self "group" VNone in
    Ok [DropPrivileges user group]
  else Ok [Warn "Only superuser can drop privileges."].

(** [SlimtaState.redirect_streams], for an object whose [attached]
    attribute, which is not among the attributes of the record above, is
    [attached]. *)
Definition redirect_streams (attached : bool) (self : SlimtaState)
    : result (list system_call) :=
  let? flag := process_get self "daemon" (VBool false) in
  if truthy flag && negb attached then
    let? so := process_get self "stdout" VNone in
    let? se := process_get self "stderr" VNone in
    let? si := process_get self "stdin" VNone in
    Ok [RedirectStdio so se si]
  else Ok [].

(** [SlimtaState.daemonize] *)
Definition daemonize (attached : bool) (self : SlimtaState)
    : result (list system_call) :=
  let? flag := process_get self "daemon" (VBool false) in
  if truthy flag && negb attached then Ok [Daemonize] else Ok [].

(** *** Construction steps *)

Definition construction_eqb (c c' : construction) : bool :=
  match c, c' with
  | RelayBuilt n, RelayBuilt n' => String.eqb n n'
  | CeleryBuilt, CeleryBuilt => true
  | QueueBuilt n, QueueBuilt n' => String.eqb n n'
  | EdgeBuilt n, EdgeBuilt n' => String.eqb n n'
  | _, _ => false
  end.

(** How many times the constructor call [c] was made. *)
Definition times_built (c : construction) (self : SlimtaState) : nat :=
  List.length (List.filter (construction_eqb c) (constructed self)).

(** The component that the call [c] constructs has no entry in its
    registry. *)
Definition unregistered (c : construction) (self : SlimtaState) : Prop :=
  match c with
  | RelayBuilt name => relays self !! name = None
  | CeleryBuilt => _celery self = None
  | QueueBuilt name => queues self !! name = None
  | EdgeBuilt name => edges self !! name = None
  end.

(** A component is constructed at most once, and not at all while it has
    no entry in its registry. *)
Definition built_once (self : SlimtaState) : Prop :=
  forall c,
    (times_built c self <= 1)%nat /\
    (unregistered c self -> times_built c self = 0%nat).

(** The links between the registered components: a queue holds the
    application of the state and a registered relay and is registered under
    its name; an edge is started and bound to a registered queue. *)
Definition well_linked (self : SlimtaState) : Prop :=
  (forall name queue,
     queues self !! name = Some (Some queue) ->
     _celery self = Some (queue_celery queue) /\
     (exists relay_name,
        relays self !! relay_name = Some (queue_relay queue)) /\
     queue_name queue = name) /\
  (forall name edge,
     edges self !! name = Some edge ->
     edge_started edge = true /\
     exists queue_name, queues self !! queue_name = Some (edge_queue edge)).

(** One change of the state by a builder: a component is constructed and
    registered under a name that has no entry, or the default queue is
    registered. *)
Inductive build_step : SlimtaState -> SlimtaState -> Prop :=
  | step_relay (self : SlimtaState) (name : string) (relay : Relay) :
      relays self !! name = None ->
      build_step self
        (set_relays <[name := relay]>
           (snd (construct (RelayBuilt name) self)))
  | step_celery (self : SlimtaState) (app : CeleryApp) :
      _celery self = None ->
      build_step self
        (set_celery (Some app) (snd (construct CeleryBuilt self)))
  | step_default_queue (self : SlimtaState) (name : string) :
      queues self !! name = None ->
      build_step self (set_queues <[name := None]> self)
  | step_queue (self : SlimtaState) (name relay_name : string)
        (queue : Queue) :
      queues self !! name = None ->
      _celery self = Some (queue_celery queue) ->
      relays self !! relay_name = Some (queue_relay queue) ->
      queue_name queue = name ->
      build_step self
        (set_queues <[name := Some queue]>
           (snd (construct (QueueBuilt name) self)))
  | step_edge (self : SlimtaState) (name queue_name : string) (edge : Edge) :
      edges self !! name = None ->
      edge_started edge = true ->
      queues self !! queue_name = Some (edge_queue edge) ->
      build_step self
        (set_edges <[name := edge]> (snd (construct (EdgeBuilt name) self))).

(** Any number of steps. *)
Inductive builds : SlimtaState -> SlimtaState -> Prop :=
  | builds_refl (self : SlimtaState) : builds self self
  | builds_step (self self1 self2 : SlimtaState) :
      build_step self self1 -> builds self1 self2 -> builds self self2.

(** * Properties *)

(** ** Rule helpers *)

Lemma is_str_true (v : value) (s : string) :
  is_str v s = true <-> v = VStr s.
Proof.
  destruct v; simpl; try (split; [discriminate | congruence]).
  rewrite String.eqb_eq. split; congruence.
Qed.

Lemma is_str_false (v : value) (s : string) :
  is_str v s = false <-> v <> VStr s.
Proof.
  rewrite <- is_str_true. destruct (is_str v s); split; congruence.
Qed.

(** C2. With a sender lookup, the sender is accepted exactly when the lookup
    has an entry for it, whatever the session; without one but with a
    credential lookup, exactly when the session is authenticated; with
    neither, always. *)
Theorem is_sender_ok_spec (self : RuleHelpers) (validators : Validators)
    (sender : string) :
  is_sender_ok self validators sender = true <->
  match lookup_senders self with
  | Some lookup => is_Some (lookup_address lookup sender None)
  | None =>
      match lookup_creds self with
      | Some _ => truthy (session_auth validators) = true
      | None => True
      end
  end.
Proof.
  unfold is_sender_ok.
  destruct (lookup_senders self) as [lookup|].
  - apply bool_decide_eq_true.
  - destruct (lookup_creds self) as [creds|]; simpl.
    + destruct (truthy (session_auth validators)); simpl; split; congruence.
    + split; trivial.
Qed.

(** C5. No credential lookup, no entry for the identity, or an entry with no
    [password] attribute: the check fails. Otherwise its result is the
    result of verifying the credentials against the identity made of the
    stored digest and the configured hash. *)
Theorem check_credentials_spec (self : RuleHelpers) (creds : Credentials) :
  check_credentials self creds =
  match lookup_creds self with
  | None => false
  | Some lookup =>
      match lookup_address lookup (authcid creds) (authzid creds) with
      | None => false
      | Some ret =>
          match ret !! "password" with
          | None => false
          | Some password =>
              verify creds {| id_authcid := authcid creds;
                              id_digest := password;
                              id_hash := password_hash self |}
          end
      end
  end.
Proof.
  unfold check_credentials.
  destruct (lookup_creds self) as [lookup|]; [|reflexivity].
  destruct (lookup_address lookup (authcid creds) (authzid creds))
    as [ret|]; [|reflexivity].
  destruct (ret !! "password") as [password|] eqn:Hpw.
  - assert (ret <> ∅) as Hne.
    { intros ->. rewrite lookup_empty in Hpw. discriminate. }
    simpl. rewrite bool_decide_eq_false_2 by exact Hne. simpl.
    destruct (verify creds _); reflexivity.
  - destruct (negb (truthy (VMap ret))); reflexivity.
Qed.

(** C4. [_get_lookup] reads the first key that is present, in the order
    lookup section, list section, regex section: its result is the lookup
    built from that key alone, a later key changes nothing, and with no key
    there is no lookup. *)
Theorem get_lookup_first_present_key (rules : section)
    (lookup_section list_section regex_section : string) :
  (forall v, rules !! lookup_section = Some v ->
     _get_lookup rules lookup_section list_section regex_section
     = load_lookup v) /\
  (forall v, rules !! lookup_section = None ->
     rules !! list_section = Some v ->
     _get_lookup rules lookup_section list_section regex_section
     = (let? map := dict_fromkeys v in Ok (Some (DictLookup map "{address}"))))
  /\
  (forall v, rules !! lookup_section = None ->
     rules !! list_section = None ->
     rules !! regex_section = Some v ->
     _get_lookup rules lookup_section list_section regex_section
     = (let? lookup := regex_lookup v in Ok (Some lookup))) /\
  (rules !! lookup_section = None ->
   rules !! list_section = None ->
   rules !! regex_section = None ->
   _get_lookup rules lookup_section list_section regex_section = Ok None) /\
  (forall rules' : section,
     is_Some (rules !! lookup_section) ->
     rules' !! lookup_section = rules !! lookup_section ->
     _get_lookup rules' lookup_section list_section regex_section
     = _get_lookup rules lookup_section list_section regex_section) /\
  (forall rules' : section,
     rules !! lookup_section = None ->
     is_Some (rules !! list_section) ->
     rules' !! lookup_section = None ->
     rules' !! list_section = rules !! list_section ->
     _get_lookup rules' lookup_section list_section regex_section
     = _get_lookup rules lookup_section list_section regex_section).
Proof.
  unfold _get_lookup.
  repeat split.
  - intros v ->. reflexivity.
  - intros v -> ->. reflexivity.
  - intros v -> -> ->. reflexivity.
  - intros -> -> ->. reflexivity.
  - intros rules' [v Hv] ->. rewrite Hv. reflexivity.
  - intros rules' Hl [v Hv] -> ->. rewrite Hl, Hv. reflexivity.
Qed.

(** C10. A [reject_spam] section whose type is not [spamassassin] builds no
    scanner and raises nothing, and a rule set whose scanner comes from it
    rejects no message. *)
Theorem unknown_scanner_type_disables_spam_rejection
    (options : section) (type : value) (self : RuleHelpers) (data : string) :
  options !! "type" = Some type ->
  type <> VStr "spamassassin" ->
  Ok (scanner self) = _get_scanner (Some options) ->
  _get_scanner (Some options) = Ok None /\
  scanner self = None /\
  reject_spam self data = false.
Proof.
  intros Htype Hne Hself.
  assert (_get_scanner (Some options) = Ok None) as Hnone.
  { unfold _get_scanner, get_default. rewrite Htype. simpl.
    apply is_str_false in Hne. rewrite Hne. reflexivity. }
  rewrite Hnone in Hself. injection Hself as Hsc.
  repeat split; [exact Hnone | exact Hsc |].
  unfold reject_spam. rewrite Hsc. reflexivity.
Qed.

(** ** Queue policies *)

(** The loop over a concatenation: the entries of the first list, then,
    unless one of them raised, the entries of the second. *)
Lemma add_queue_policies_app (queue : list Policy) (l1 l2 : list section) :
  add_queue_policies queue (l1 ++ l2) =
  match add_queue_policies queue l1 with
  | (queue', Ok _) => add_queue_policies queue' l2
  | (queue', Raise e) => (queue', Raise e)
  end.
Proof.
  revert queue. induction l1 as [|policy l1 IH]; intros queue; simpl.
  - reflexivity.
  - destruct (policy_of_entry policy) as [[p|]|e]; auto.
Qed.

(** An entry whose type is none of the known names falls through the whole
    [if]/[elif] chain. *)
Lemma policy_of_entry_unknown (policy : section) (type : value) :
  policy !! "type" = Some type ->
  (forall t, In t known_policy_types -> type <> VStr t) ->
  policy_of_entry policy = Ok None.
Proof.
  intros Htype Hunknown.
  unfold policy_of_entry, getattr. rewrite Htype. simpl.
  repeat match goal with
  | |- context [is_str type ?t] =>
      replace (is_str type t) with false
        by (symmetry; apply is_str_false, Hunknown; simpl; tauto)
  end.
  reflexivity.
Qed.

(** C6, as the code has it. An entry whose type is none of the known policy
    types raises nothing and adds no policy: the list is processed as if
    the entry were not in it. *)
Theorem unknown_policy_type_is_skipped (queue : list Policy)
    (before after : list section) (policy : section) (type : value) :
  policy !! "type" = Some type ->
  (forall t, In t known_policy_types -> type <> VStr t) ->
  policy_of_entry policy = Ok None /\
  add_queue_policies queue (before ++ policy :: after)
  = add_queue_policies queue (before ++ after).
Proof.
  intros Htype Hunknown.
  pose proof (policy_of_entry_unknown policy type Htype Hunknown) as Hskip.
  split; [exact Hskip|].
  rewrite !add_queue_policies_app.
  destruct (add_queue_policies queue before) as [queue' [u|e]]; [|reflexivity].
  simpl. rewrite Hskip. reflexivity.
Qed.

(** The branch of a [lookup] entry whose lookup section loads no lookup. *)
Lemma policy_of_entry_incomplete_lookup (policy : section) :
  policy !! "type" = Some (VStr "lookup") ->
  load_lookup (get_default policy "lookup" (VMap ∅)) = Ok None ->
  policy_of_entry policy
  = Raise (ConfigValidationError "Incomplete lookup policy section").
Proof.
  intros Htype Hload.
  unfold policy_of_entry, getattr. rewrite Htype. simpl.
  rewrite Hload. reflexivity.
Qed.

(** C7. A policy list with a [lookup] entry whose lookup section loads no
    lookup never comes through [add_queue_policies]: the call raises, and
    when the entries before that one are processed without an exception
    it raises [ConfigValidationError] at that entry, with the queue as
    those entries left it and whatever the entries after it are. *)
Theorem incomplete_lookup_policy_raises (queue : list Policy)
    (before after : list section) (policy : section) :
  policy !! "type" = Some (VStr "lookup") ->
  load_lookup (get_default policy "lookup" (VMap ∅)) = Ok None ->
  (exists queue' e,
     add_queue_policies queue (before ++ policy :: after)
     = (queue', Raise e)) /\
  (forall queue',
     add_queue_policies queue before = (queue', Ok tt) ->
     add_queue_policies queue (before ++ policy :: after)
     = (queue',
        Raise (ConfigValidationError "Incomplete lookup policy section"))).
Proof.
  intros Htype Hload.
  pose proof (policy_of_entry_incomplete_lookup policy Htype Hload) as Hraise.
  split.
  - rewrite add_queue_policies_app.
    destruct (add_queue_policies queue before) as [queue' [u|e]].
    + simpl. rewrite Hraise. eauto.
    + eauto.
  - intros queue' Hbefore.
    rewrite add_queue_policies_app, Hbefore. simpl.
    rewrite Hraise. reflexivity.
Qed.

(** ** Backoff function *)

(** On the integer fragment, evaluating [lambda x: e] gives the function
    that computes [e] on unbounded integers. *)
Hypothesis py_eval_lambda_arith : forall (src : string) (e : arith),
  parse_arith src = Some e ->
  py_eval_lambda ("lambda x: " ++ src)
  = Ok (fun x => Ok (py_of_Z (arith_eval e x))).

Lemma build_backoff_function_no_retry (retry : option section) :
  no_retry retry = true ->
  exists backoff,
    build_backoff_function retry = Ok backoff /\
    forall envelope attempts, backoff envelope attempts = Ok py_None.
Proof.
  destruct retry as [retry|]; intros Hno.
  - change (negb (truthy (VMap retry)) = true) in Hno.
    unfold build_backoff_function. rewrite Hno. eauto.
  - simpl. eauto.
Qed.

Lemma build_backoff_function_retry (retry : section) (maximum : Z)
    (delay : string) (delay_func : Z -> result pyobj) :
  no_retry (Some retry) = false ->
  py_int (get_default retry "maximum" (VInt 0)) = Ok maximum ->
  get_default retry "delay" (VStr "300") = VStr delay ->
  py_eval_lambda ("lambda x: " ++ delay) = Ok delay_func ->
  exists backoff,
    build_backoff_function (Some retry) = Ok backoff /\
    forall envelope attempts,
      backoff envelope attempts
      = if attempts >? maximum then Ok py_None else delay_func attempts.
Proof.
  intros Hno Hmax Hdelay Heval.
  change (negb (truthy (VMap retry)) = false) in Hno.
  unfold build_backoff_function. rewrite Hno, Hmax. simpl.
  rewrite Hdelay, Heval. eauto.
Qed.

(** C3. Without a retry section, or with an empty one, the backoff function
    stops at every number of attempts. With one, whose [maximum] (0 when
    absent) converts to an integer and whose [delay] (["300"] when absent)
    evaluates to a function, it stops when the attempts exceed the maximum
    and gives the delay computed from the attempts otherwise. For a maximum
    of 3 and the delay [x*2] it gives 4 at 2 attempts and stops at 4. *)
Theorem build_backoff_function_spec :
  (forall retry : option section,
     no_retry retry = true ->
     exists backoff,
       build_backoff_function retry = Ok backoff /\
       forall envelope attempts,
         0 <= attempts -> backoff envelope attempts = Ok py_None) /\
  (forall (retry : section) (maximum : Z) (delay : string)
          (delay_func : Z -> result pyobj),
     no_retry (Some retry) = false ->
     py_int (get_default retry "maximum" (VInt 0)) = Ok maximum ->
     get_default retry "delay" (VStr "300") = VStr delay ->
     py_eval_lambda ("lambda x: " ++ delay) = Ok delay_func ->
     exists backoff,
       build_backoff_function (Some retry) = Ok backoff /\
       forall envelope attempts,
         backoff envelope attempts
         = if attempts >? maximum then Ok py_None else delay_func attempts) /\
  (exists backoff,
     build_backoff_function
       (Some {[ "maximum" := VInt 3; "delay" := VStr "x*2" ]})
     = Ok backoff /\
     forall envelope,
       backoff envelope 2 = Ok (py_of_Z 4) /\
       backoff envelope 4 = Ok py_None).
Proof.
  split; [|split].
  - intros retry Hno.
    destruct (build_backoff_function_no_retry retry Hno) as (b & Hb & Hstop).
    eauto.
  - apply build_backoff_function_retry.
  - destruct (build_backoff_function_retry
                {[ "maximum" := VInt 3; "delay" := VStr "x*2" ]} 3 "x*2"
                (fun x => Ok (py_of_Z (arith_eval (AMul AVar (ANum 2)) x))))
      as (backoff & Hbuild & Hcall).
    + reflexivity.
    + reflexivity.
    + reflexivity.
    + apply py_eval_lambda_arith. reflexivity.
    + exists backoff. split; [exact Hbuild|].
      intros envelope. rewrite !Hcall. split; reflexivity.
Qed.

(** ** Component graph builder *)

Lemma bind_ok_inv {A B} (m : M A) (k : A -> M B) (self self' : SlimtaState)
    (b : B) :
  bind m k self = (Ok b, self') ->
  exists a self1, m self = (Ok a, self1) /\ k a self1 = (Ok b, self').
Proof.
  unfold bind. destruct (m self) as [[a|e] self1]; [eauto | discriminate].
Qed.

Lemma bind_ok {A B} (m : M A) (k : A -> M B) (self self1 : SlimtaState)
    (a : A) :
  m self = (Ok a, self1) -> bind m k self = k a self1.
Proof. unfold bind. intros ->. reflexivity. Qed.

Lemma bind_raise {A B} (m : M A) (k : A -> M B) (self self1 : SlimtaState)
    (e : exn) :
  m self = (Raise e, self1) -> bind m k self = (Raise e, self1).
Proof. unfold bind. intros ->. reflexivity. Qed.

(** Reading the options of a section leaves the state as it is. *)
Lemma options_or_section_state (kind name : string) (options : value)
    (self : SlimtaState) :
  snd (options_or_section kind name options self) = self.
Proof.
  unfold options_or_section, cfg_section, bind, gets, lift, ret.
  destruct (negb (truthy options)); reflexivity.
Qed.

Lemma v_getattr_truthy (v w : value) (key : string) :
  v_getattr v key = Ok w -> truthy v = true.
Proof.
  destruct v as [| | | | |m]; simpl; try discriminate.
  unfold getattr. destruct (m !! key) eqn:Hkey; [|discriminate].
  intros _. apply negb_true_iff, bool_decide_eq_false.
  intros ->. rewrite lookup_empty in Hkey. discriminate.
Qed.

Lemma prefix_refl (s : string) : String.prefix s s = true.
Proof.
  induction s as [|a s IH]; simpl; [reflexivity|].
  destruct (ascii_dec a a); [exact IH | congruence].
Qed.

Lemma is_infix_app (p t : string) : is_infix t (p ++ t) = true.
Proof.
  induction p as [|a p IH].
  - change ("" ++ t) with t.
    destruct t; cbn [is_infix]; rewrite prefix_refl; reflexivity.
  - change (String a p ++ t) with (String a (p ++ t)).
    cbn [is_infix]. rewrite IH. apply orb_true_r.
Qed.

Lemma is_str_VStr_ne (t s : string) : t <> s -> is_str (VStr t) s = false.
Proof. intros Hne. apply is_str_false. congruence. Qed.

(** C8, as the code has it. For a name that is not built yet and a section
    whose type is a string that is none of the types of its kind, the
    builder raises [ConfigError] and leaves the state as it was; the message
    is the kind of the component and [ type does not exist: ] followed by
    the type, so it includes the type. (It does not include the name of the
    section.) *)
Theorem unknown_type_raises_config_error (self : SlimtaState)
    (name : string) (options opts : value) (t : string) :
  (relays self !! name = None ->
   options_or_section "relay" name options self = (Ok opts, self) ->
   v_getattr opts "type" = Ok (VStr t) ->
   ~ In t ["mx"; "static"; "maildrop"] ->
   _start_relay name options self
   = (Raise (ConfigError ("relay type does not exist: " ++ t)), self)) /\
  (queues self !! name = None ->
   options_or_section "queue" name options self = (Ok opts, self) ->
   v_getattr opts "type" = Ok (VStr t) ->
   ~ In t ["default"; "celery"] ->
   _start_queue name options self
   = (Raise (ConfigError ("queue type does not exist: " ++ t)), self)) /\
  (edges self !! name = None ->
   options_or_section "edge" name options self = (Ok opts, self) ->
   v_getattr opts "type" = Ok (VStr t) ->
   t <> "smtp" ->
   _start_edge name options self
   = (Raise (ConfigError ("edge type does not exist: " ++ t)), self)) /\
  (forall prefix : string, is_infix t (prefix ++ t) = true).
Proof.
  repeat split.
  - intros Hmemo Hopts Htype Hunknown. simpl in Hunknown.
    unfold _start_relay.
    rewrite (bind_ok _ _ self self None) by (unfold gets; rewrite Hmemo; done).
    rewrite (bind_ok _ _ _ _ _ Hopts).
    rewrite (bind_ok _ _ self self (VStr t)) by (unfold lift; rewrite Htype; done).
    rewrite !is_str_VStr_ne by (intros ->; apply Hunknown; auto).
    reflexivity.
  - intros Hmemo Hopts Htype Hunknown. simpl in Hunknown.
    pose proof (v_getattr_truthy _ _ _ Htype) as Htruthy.
    assert (v_get opts "type" (VStr "default") = Ok (VStr t)) as Hget.
    { destruct opts; try discriminate. simpl in *. unfold getattr in Htype.
      unfold get_default. destruct (_ !! "type"); simplify_eq. done. }
    unfold _start_queue.
    rewrite (bind_ok _ _ self self None) by (unfold gets; rewrite Hmemo; done).
    rewrite (bind_ok _ _ _ _ _ Hopts).
    rewrite Htruthy. simpl.
    rewrite (bind_ok _ _ self self false).
    2:{ unfold bind, lift, ret. rewrite Hget.
        rewrite is_str_VStr_ne by (intros ->; apply Hunknown; auto). done. }
    rewrite (bind_raise _ _ self self
               (ConfigError ("queue type does not exist: " ++ t))); [done|].
    rewrite (bind_ok _ _ self self (VStr t)) by (unfold lift; rewrite Htype; done).
    rewrite is_str_VStr_ne by (intros ->; apply Hunknown; auto).
    reflexivity.
  - intros Hmemo Hopts Htype Hunknown.
    unfold _start_edge.
    rewrite (bind_ok _ _ self self None) by (unfold gets; rewrite Hmemo; done).
    rewrite (bind_ok _ _ _ _ _ Hopts).
    rewrite (bind_ok _ _ self self (VStr t)) by (unfold lift; rewrite Htype; done).
    rewrite is_str_VStr_ne by (intros ->; apply Hunknown; auto).
    reflexivity.
  - intros prefix. apply is_infix_app.
Qed.

(** A name that is built is returned as it is, and nothing changes. *)
Lemma start_edge_memoized (self : SlimtaState) (name : string)
    (options : value) (edge : Edge) :
  edges self !! name = Some edge ->
  _start_edge name options self = (Ok edge, self).
Proof.
  intros Hmemo. unfold _start_edge.
  rewrite (bind_ok _ _ self self (Some edge))
    by (unfold gets; rewrite Hmemo; done).
  reflexivity.
Qed.

Lemma start_queue_memoized (self : SlimtaState) (name : string)
    (options : value) (queue : option Queue) :
  queues self !! name = Some queue ->
  _start_queue name options self = (Ok queue, self).
Proof.
  intros Hmemo. unfold _start_queue.
  rewrite (bind_ok _ _ self self (Some queue))
    by (unfold gets; rewrite Hmemo; done).
  reflexivity.
Qed.

Lemma start_relay_memoized (self : SlimtaState) (name : string)
    (options : value) (relay : Relay) :
  relays self !! name = Some relay ->
  _start_relay name options self = (Ok relay, self).
Proof.
  intros Hmemo. unfold _start_relay.
  rewrite (bind_ok _ _ self self (Some relay))
    by (unfold gets; rewrite Hmemo; done).
  reflexivity.
Qed.

(** An edge section with no queue name never gives an edge. *)
Lemma start_edge_no_queue_name (self : SlimtaState) (name : string)
    (options opts : value) :
  edges self !! name = None ->
  options_or_section "edge" name options self = (Ok opts, self) ->
  (forall queue_name,
     v_get opts "queue" VNone = Ok queue_name -> truthy queue_name = false) ->
  exists e, _start_edge name options self = (Raise e, self).
Proof.
  intros Hmemo Hopts Hnoqueue.
  unfold _start_edge.
  rewrite (bind_ok _ _ self self None) by (unfold gets; rewrite Hmemo; done).
  rewrite (bind_ok _ _ _ _ _ Hopts).
  unfold bind, lift, raise, ret.
  destruct (v_getattr opts "type") as [type|e]; [|eauto].
  destruct (is_str type "smtp").
  - destruct (v_getattr opts "listeners") as [listeners|e]; [|eauto].
    destruct (py_index0 listeners) as [listener|e]; [|eauto].
    destruct (v_get listener "interface" _) as [ip|e]; [|eauto].
    destruct (v_get listener "port" _) as [p|e]; simpl; [|eauto].
    destruct (py_int p) as [port|e]; [|eauto].
    destruct (v_get opts "queue" VNone) as [queue_name|e] eqn:Hq; [|eauto].
    rewrite (Hnoqueue queue_name eq_refl). simpl. eauto.
  - destruct (str_concat _ type) as [msg|e]; eauto.
Qed.

(** C9. For an edge that is not built yet: a section that gives no queue
    name raises, with [ConfigError] when the section is an [smtp] edge with
    a first listener; with a queue name, the edge is bound to the queue
    [_start_queue] returns for that name and to the interface and port of
    the first listener, [127.0.0.1] and [25] when absent, it is started,
    registered under its name and returned, and a later call with the same
    name returns it again and changes nothing. *)
Theorem start_edge_spec (self : SlimtaState) (name : string)
    (options opts : value) :
  edges self !! name = None ->
  options_or_section "edge" name options self = (Ok opts, self) ->
  ((forall queue_name,
      v_get opts "queue" VNone = Ok queue_name -> truthy queue_name = false) ->
   exists e, _start_edge name options self = (Raise e, self)) /\
  (forall (listener : section) (rest : list value) (port : Z),
     v_getattr opts "type" = Ok (VStr "smtp") ->
     v_getattr opts "listeners" = Ok (VList (VMap listener :: rest)) ->
     py_int (get_default listener "port" (VInt 25)) = Ok port ->
     (forall queue_name,
        v_get opts "queue" VNone = Ok queue_name ->
        truthy queue_name = false ->
        _start_edge name options self
        = (Raise (ConfigError "edge sections must be given a queue name"),
           self)) /\
     (forall (queue_name : string) (queue : option Queue)
             (self1 : SlimtaState),
        v_get opts "queue" VNone = Ok (VStr queue_name) ->
        queue_name <> "" ->
        _start_queue queue_name VNone self = (Ok queue, self1) ->
        let edge :=
          {| edge_id := List.length (constructed self1);
             edge_ip := get_default listener "interface" (VStr "127.0.0.1");
             edge_port := port;
             edge_queue := queue;
             edge_started := true |} in
        let self2 :=
          set_edges <[name := edge]>
            (snd (construct (EdgeBuilt name) self1)) in
        _start_edge name options self = (Ok edge, self2) /\
        edges self2 !! name = Some edge /\
        forall options', _start_edge name options' self2 = (Ok edge, self2))
     /\
     (listener !! "interface" = None ->
      get_default listener "interface" (VStr "127.0.0.1") = VStr "127.0.0.1")
     /\
     (listener !! "port" = None -> port = 25)).
Proof.
  intros Hmemo Hopts. split.
  { apply start_edge_no_queue_name; assumption. }
  intros listener rest port Htype Hlisteners Hport.
  assert (forall A (k : Z -> M A),
            bind (lift (let? p := v_get (VMap listener) "port" (VInt 25) in
                        py_int p)) k self = k port self) as Hportk.
  { intros A k. unfold bind, lift. simpl. rewrite Hport. reflexivity. }
  assert (forall A (k : Edge -> M A),
    _start_edge name options self
    = bind
        (do queue_name <- lift (v_get opts "queue" VNone);
         if negb (truthy queue_name) then
           raise (ConfigError "edge sections must be given a queue name")
         else
           do queue_name <- as_name "queue" queue_name;
           do queue <- _start_queue queue_name VNone;
           do id <- construct (EdgeBuilt name);
           ret {| edge_id := id;
                  edge_ip := get_default listener "interface"
                               (VStr "127.0.0.1");
                  edge_port := port;
                  edge_queue := queue; edge_started := true |})
        (fun new_edge =>
           run modify (set_edges <[name := new_edge]>); ret new_edge) self)
    as Hstart.
  { intros _ _. unfold _start_edge.
    rewrite (bind_ok _ _ self self None)
      by (unfold gets; rewrite Hmemo; done).
    rewrite (bind_ok _ _ _ _ _ Hopts).
    rewrite (bind_ok _ _ self self (VStr "smtp"))
      by (unfold lift; rewrite Htype; done).
    simpl is_str. cbv iota.
    unfold bind at 1.
    rewrite (bind_ok _ _ self self (VList (VMap listener :: rest)))
      by (unfold lift; rewrite Hlisteners; done).
    rewrite (bind_ok _ _ self self (VMap listener)) by reflexivity.
    rewrite (bind_ok _ _ self self
               (get_default listener "interface" (VStr "127.0.0.1")))
      by reflexivity.
    rewrite Hportk. reflexivity. }
  specialize (Hstart unit (fun _ => ret tt)).
  split; [|split; [|split]].
  - intros queue_name Hq Hfalsy. rewrite Hstart.
    unfold bind at 1 2. unfold lift. rewrite Hq, Hfalsy. reflexivity.
  - intros queue_name queue self1 Hq Hne Hqueue edge self2.
    assert (edges self2 !! name = Some edge) as Hedge.
    { unfold self2, set_edges. simpl. apply lookup_insert_eq. }
    split; [|split; [exact Hedge|]].
    + rewrite Hstart.
      assert (truthy (VStr queue_name) = true) as Htruthy.
      { simpl. apply negb_true_iff, String.eqb_neq. assumption. }
      unfold bind at 1.
      rewrite (bind_ok _ _ self self (VStr queue_name))
        by (unfold lift; rewrite Hq; done).
      rewrite Htruthy. cbv beta iota delta [negb].
      rewrite (bind_ok _ _ self self queue_name) by reflexivity.
      rewrite (bind_ok _ _ _ _ _ Hqueue).
      reflexivity.
    + intros options'. apply start_edge_memoized. exact Hedge.
  - intros Hnone. unfold get_default. rewrite Hnone. reflexivity.
  - intros Hnone. unfold get_default in Hport. rewrite Hnone in Hport.
    simpl in Hport. congruence.
Qed.

(** *** Memoization *)

(** A queue that [_start_queue] returns is registered under its name. *)
Lemma start_queue_registers (self self' : SlimtaState) (name : string)
    (options : value) (queue : option Queue) :
  _start_queue name options self = (Ok queue, self') ->
  queues self' !! name = Some queue.
Proof.
  unfold _start_queue. intros H.
  apply bind_ok_inv in H as (memo & s0 & Hmemo & H).
  unfold gets in Hmemo. injection Hmemo as <- <-.
  destruct (queues self !! name) as [memo|] eqn:Hq.
  - unfold ret in H. injection H as <- <-. exact Hq.
  - apply bind_ok_inv in H as (opts & s1 & _ & H).
    apply bind_ok_inv in H as (is_default & s2 & _ & H).
    apply bind_ok_inv in H as (new_queue & s3 & _ & H).
    unfold bind, modify, ret in H. injection H as <- <-.
    unfold set_queues. simpl. apply lookup_insert_eq.
Qed.

(** *** Relays are constructed at most once *)

Lemma preserves_ret {A} (a : A) : preserves (ret a).
Proof. intros self H. exact H. Qed.

Lemma preserves_raise {A} (e : exn) : preserves (@raise A e).
Proof. intros self H. exact H. Qed.

Lemma preserves_lift {A} (r : result A) : preserves (lift r).
Proof. intros self H. exact H. Qed.

Lemma preserves_gets {A} (f : SlimtaState -> A) : preserves (gets f).
Proof. intros self H. exact H. Qed.

Lemma preserves_bind {A B} (m : M A) (k : A -> M B) :
  preserves m -> (forall a, preserves (k a)) -> preserves (bind m k).
Proof.
  intros Hm Hk self H. specialize (Hm self H).
  unfold bind. destruct (m self) as [[a|e] self1]; simpl in *.
  - apply Hk, Hm.
  - exact Hm.
Qed.

(** A change of the state that touches neither the relays nor the record
    of the relays constructed. *)
Lemma relays_built_once_frame (self self' : SlimtaState) :
  relays self' = relays self ->
  (forall name,
     relay_constructions name self' = relay_constructions name self) ->
  relays_built_once self -> relays_built_once self'.
Proof.
  intros Hrelays Hcount H name. rewrite Hrelays, Hcount. apply H.
Qed.

Lemma relay_constructions_app (name : string) (self self' : SlimtaState)
    (c : construction) :
  constructed self' = (constructed self ++ [c])%list ->
  relay_constructions name self'
  = (relay_constructions name self
     + if is_relay_built name c then 1 else 0)%nat.
Proof.
  intros Happ. unfold relay_constructions. rewrite Happ.
  rewrite List.filter_app, List.length_app. simpl.
  destruct (is_relay_built name c); reflexivity.
Qed.

Lemma preserves_construct (c : construction) :
  (forall name, is_relay_built name c = false) -> preserves (construct c).
Proof.
  intros Hc self H.
  apply (relays_built_once_frame self); [reflexivity| |exact H].
  intros name.
  rewrite (relay_constructions_app name self _ c) by reflexivity.
  rewrite Hc. lia.
Qed.

Lemma preserves_modify (f : SlimtaState -> SlimtaState) :
  (forall self, relays (f self) = relays self) ->
  (forall self, constructed (f self) = constructed self) ->
  preserves (modify f).
Proof.
  intros Hrelays Hconstructed self H.
  apply (relays_built_once_frame self); [apply Hrelays| |exact H].
  intros name. unfold relay_constructions. simpl.
  rewrite Hconstructed. reflexivity.
Qed.

Lemma preserves_options_or_section (kind name : string) (options : value) :
  preserves (options_or_section kind name options).
Proof.
  intros self H. rewrite options_or_section_state. exact H.
Qed.

(** Constructing a relay for a name that is not registered and registering
    it keeps the invariant. *)
Lemma relays_built_once_register (self : SlimtaState) (name : string)
    (relay : Relay) :
  relays self !! name = None ->
  relays_built_once self ->
  relays_built_once
    (set_relays <[name := relay]> (snd (construct (RelayBuilt name) self))).
Proof.
  intros Hfree H n.
  rewrite (relay_constructions_app n self _ (RelayBuilt name))
    by reflexivity.
  destruct (H n) as [Hle Hzero]. simpl.
  destruct (String.eqb name n) eqn:Heq.
  - apply String.eqb_eq in Heq as <-.
    rewrite (Hzero Hfree), lookup_insert_eq. split; [lia | discriminate].
  - apply String.eqb_neq in Heq.
    rewrite lookup_insert_ne by exact Heq. split; [lia|].
    intros Hn. rewrite (Hzero Hn). reflexivity.
Qed.

Lemma preserves_start_relay (name : string) (options : value) :
  preserves (_start_relay name options).
Proof.
  intros self H. unfold _start_relay.
  unfold bind at 1. unfold gets at 1.
  destruct (relays self !! name) as [memo|] eqn:Hfree; [exact H|].
  unfold bind at 1.
  pose proof (options_or_section_state "relay" name options self) as Hstate.
  destruct (options_or_section "relay" name options self) as [[opts|e] s1];
    simpl in Hstate; subst s1; [|exact H].
  unfold bind at 1. unfold lift at 1.
  destruct (v_getattr opts "type") as [type|e]; [|exact H].
  destruct (is_str type "mx").
  { apply relays_built_once_register; assumption. }
  destruct (is_str type "static").
  { unfold bind, lift.
    destruct (v_getattr opts "host") as [host|e]; [|exact H].
    destruct (v_get opts "port" (VInt 25)) as [port|e]; [|exact H].
    apply relays_built_once_register; assumption. }
  destruct (is_str type "maildrop").
  { unfold bind, lift.
    destruct (v_get opts "executable" VNone) as [executable|e]; [|exact H].
    apply relays_built_once_register; assumption. }
  unfold bind, lift, raise.
  destruct (str_concat _ type); exact H.
Qed.

Ltac preserves_step :=
  match goal with
  | |- preserves (bind _ _) => apply preserves_bind; [|intros ?]
  | |- preserves (ret _) => apply preserves_ret
  | |- preserves (raise _) => apply preserves_raise
  | |- preserves (lift _) => apply preserves_lift
  | |- preserves (gets _) => apply preserves_gets
  | |- preserves (as_name _ ?v) => destruct v; unfold as_name
  | |- preserves (options_or_section _ _ _) =>
      apply preserves_options_or_section
  | |- preserves (_start_relay _ _) => apply preserves_start_relay
  | |- preserves (construct _) =>
      apply preserves_construct; intros ?; reflexivity
  | |- preserves (modify _) =>
      apply preserves_modify; intros ?; reflexivity
  | |- preserves (if ?b then _ else _) => destruct b
  | |- preserves (match ?x with _ => _ end) => destruct x
  end.

Lemma preserves_celery : preserves celery.
Proof. unfold celery. repeat preserves_step. Qed.

Lemma preserves_start_queue (name : string) (options : value) :
  preserves (_start_queue name options).
Proof.
  unfold _start_queue.
  repeat first [apply preserves_celery | preserves_step].
Qed.

Lemma preserves_start_edge (name : string) (options : value) :
  preserves (_start_edge name options).
Proof.
  unfold _start_edge.
  repeat first [apply preserves_start_queue | preserves_step].
Qed.

Lemma relays_built_once_initial (cfg : value) :
  relays_built_once (initial_state cfg).
Proof.
  intros name. unfold relay_constructions. simpl.
  split; [lia | reflexivity].
Qed.

Lemma relays_built_once_run_calls (calls : list call) (self : SlimtaState) :
  relays_built_once self -> relays_built_once (run_calls calls self).
Proof.
  revert self. induction calls as [|c calls IH]; intros self H; simpl.
  - exact H.
  - apply IH. destruct c; simpl.
    + apply preserves_start_relay, H.
    + apply preserves_start_queue, H.
    + apply preserves_start_edge, H.
Qed.

(** C1. When [_start_queue] returns a queue for a name, a second call with
    that name, whatever its options, returns the same queue and leaves the
    state, the record of the constructor calls included, as it is. And
    after any sequence of calls of the builders on a fresh state, no
    relay section has had its relay constructed more than once. *)
Theorem start_queue_idempotent :
  (forall (self self' : SlimtaState) (name : string) (options options' : value)
          (queue : option Queue),
     _start_queue name options self = (Ok queue, self') ->
     _start_queue name options' self' = (Ok queue, self')) /\
  (forall (cfg : value) (calls : list call) (relay_name : string),
     (relay_constructions relay_name (run_calls calls (initial_state cfg))
      <= 1)%nat).
Proof.
  split.
  - intros self self' name options options' queue Hfirst.
    apply start_queue_memoized.
    exact (start_queue_registers _ _ _ _ _ Hfirst).
  - intros cfg calls relay_name.
    apply (relays_built_once_run_calls calls (initial_state cfg)
             (relays_built_once_initial cfg)).
Qed.

(** ** The builders, step by step *)

(** What a call of [_start_relay] does: it returns the registered relay, or
    raises and changes nothing, or constructs a relay and registers it. *)
Lemma start_relay_cases (name : string) (options : value)
    (self : SlimtaState) :
  (exists relay,
     relays self !! name = Some relay /\
     _start_relay name options self = (Ok relay, self)) \/
  (relays self !! name = None /\
   exists e, _start_relay name options self = (Raise e, self)) \/
  (relays self !! name = None /\
   exists class,
     let relay := {| relay_id := List.length (constructed self);
                     relay_class := class |} in
     _start_relay name options self
     = (Ok relay,
        set_relays <[name := relay]>
          (snd (construct (RelayBuilt name) self)))).
Proof.
  destruct (relays self !! name) as [memo|] eqn:Hfree.
  { left. exists memo. split; [reflexivity|].
    apply start_relay_memoized, Hfree. }
  right.
  remember (_start_relay name options self) as out eqn:Hrun.
  unfold _start_relay in Hrun.
  rewrite (bind_ok _ _ self self None) in Hrun
    by (unfold gets; rewrite Hfree; done).
  unfold bind at 1 in Hrun.
  pose proof (options_or_section_state "relay" name options self) as Hstate.
  destruct (options_or_section "relay" name options self) as [[opts|e] s1];
    simpl in Hstate; subst s1; [|left; eauto].
  unfold bind at 1 in Hrun. unfold lift at 1 in Hrun.
  destruct (v_getattr opts "type") as [type|e]; [|left; eauto].
  destruct (is_str type "mx").
  { right. split; [reflexivity|]. subst out. exists MxSmtpRelay.
    reflexivity. }
  destruct (is_str type "static").
  { unfold bind, lift in Hrun.
    destruct (v_getattr opts "host") as [host|e]; [|left; eauto].
    destruct (v_get opts "port" (VInt 25)) as [port|e]; [|left; eauto].
    right. split; [reflexivity|]. subst out.
    exists (StaticSmtpRelay host port). reflexivity. }
  destruct (is_str type "maildrop").
  { unfold bind, lift in Hrun.
    destruct (v_get opts "executable" VNone) as [executable|e];
      [|left; eauto].
    right. split; [reflexivity|]. subst out.
    exists (MaildropRelay executable). reflexivity. }
  left. split; [reflexivity|].
  unfold bind, lift, raise in Hrun.
  destruct (str_concat _ type); eauto.
Qed.

(** The property [celery] returns the application of the state, which it
    constructs when there is none. *)
Lemma celery_cases (self : SlimtaState) :
  (exists app, _celery self = Some app /\ celery self = (Ok app, self)) \/
  (_celery self = None /\
   let app := {| celery_id := List.length (constructed self) |} in
   celery self
   = (Ok app, set_celery (Some app) (snd (construct CeleryBuilt self)))).
Proof.
  unfold celery, bind, gets.
  destruct (_celery self) as [app|] eqn:Happ.
  - left. eauto.
  - right. split; reflexivity.
Qed.

Lemma as_name_cases (kind : string) (v : value) (self : SlimtaState) :
  (exists s, v = VStr s /\ as_name kind v self = (Ok s, self)) \/
  (exists e, as_name kind v self = (Raise e, self)).
Proof.
  destruct v; simpl; unfold bind, gets, lift, raise, ret; eauto;
    destruct (v_getattr (cfg self) kind); eauto.
Qed.

(** What a call of [_start_queue] does: it returns the registered queue, or
    raises and changes nothing, or registers the default queue, or gets the
    relay and the application, constructs a queue and registers it. *)
Lemma start_queue_cases (name : string) (options : value)
    (self : SlimtaState) :
  (exists queue,
     queues self !! name = Some queue /\
     _start_queue name options self = (Ok queue, self)) \/
  (queues self !! name = None /\
   exists e, _start_queue name options self = (Raise e, self)) \/
  (queues self !! name = None /\
   _start_queue name options self
   = (Ok None, set_queues <[name := None]> self)) \/
  (queues self !! name = None /\
   exists relay_name relay self1 app self2,
     _start_relay relay_name VNone self = (Ok relay, self1) /\
     celery self1 = (Ok app, self2) /\
     let queue := {| queue_id := List.length (constructed self2);
                     queue_celery := app; queue_relay := relay;
                     queue_name := name |} in
     _start_queue name options self
     = (Ok (Some queue),
        set_queues <[name := Some queue]>
          (snd (construct (QueueBuilt name) self2)))).
Proof.
  destruct (queues self !! name) as [memo|] eqn:Hfree.
  { left. exists memo. split; [reflexivity|].
    apply start_queue_memoized, Hfree. }
  right.
  remember (_start_queue name options self) as out eqn:Hrun.
  unfold _start_queue in Hrun.
  rewrite (bind_ok _ _ self self None) in Hrun
    by (unfold gets; rewrite Hfree; done).
  unfold bind at 1 in Hrun.
  pose proof (options_or_section_state "queue" name options self) as Hstate.
  destruct (options_or_section "queue" name options self) as [[opts|e] s1];
    simpl in Hstate; subst s1; [|left; eauto].
  destruct (negb (truthy opts)) eqn:Htruthy.
  { right; left. subst out. split; reflexivity. }
  unfold bind at 1 in Hrun. unfold bind at 1 in Hrun.
  unfold lift at 1 in Hrun.
  destruct (v_get opts "type" (VStr "default")) as [type0|e]; [|left; eauto].
  unfold ret at 1 in Hrun.
  destruct (is_str type0 "default").
  { right; left. subst out. split; reflexivity. }
  unfold bind at 1 in Hrun. unfold bind at 1 in Hrun.
  unfold lift at 1 in Hrun.
  destruct (v_getattr opts "type") as [type|e]; [|left; eauto].
  destruct (is_str type "celery").
  2:{ left. split; [reflexivity|]. unfold bind, lift, raise in Hrun.
      destruct (str_concat _ type); eauto. }
  unfold bind at 1 in Hrun. unfold lift at 1 in Hrun.
  destruct (v_get opts "relay" VNone) as [relay_name|e]; [|left; eauto].
  destruct (negb (truthy relay_name)).
  { left. split; [reflexivity|]. subst out. eexists. reflexivity. }
  unfold bind at 1 in Hrun.
  destruct (as_name_cases "relay" relay_name self)
    as [(rn & -> & Hname)|(e & Hname)]; rewrite Hname in Hrun;
    [|left; eauto].
  unfold bind at 1 in Hrun.
  assert (exists relay self1,
            _start_relay rn VNone self = (Ok relay, self1)
            \/ exists e, _start_relay rn VNone self = (Raise e, self))
    as (relay & self1 & Hrelay).
  { destruct (start_relay_cases rn VNone self)
      as [(relay & _ & H)|[(_ & e & H)|(_ & class & H)]].
    - exists relay, self. left. exact H.
    - exists {| relay_id := 0; relay_class := MxSmtpRelay |}, self.
      right. exists e. exact H.
    - eexists _, _. left. exact H. }
  destruct Hrelay as [Hrelay|(e & Hrelay)]; rewrite Hrelay in Hrun;
    [|left; eauto].
  right; right. split; [reflexivity|].
  unfold bind at 1 in Hrun.
  destruct (celery_cases self1) as [(app & _ & Happ)|(_ & Happ)];
    cbv zeta in Happ; rewrite Happ in Hrun; subst out.
  - exists rn, relay, self1, app, self1. auto.
  - eexists rn, relay, self1, _, _. split; [exact Hrelay|].
    split; [exact Happ|]. reflexivity.
Qed.


(** What a call of [_start_edge] does: it returns the registered edge, or
    raises and changes nothing, or gets the queue, constructs and starts an
    edge and registers it. *)
Lemma start_edge_cases (name : string) (options : value)
    (self : SlimtaState) :
  (exists edge,
     edges self !! name = Some edge /\
     _start_edge name options self = (Ok edge, self)) \/
  (edges self !! name = None /\
   exists e, _start_edge name options self = (Raise e, self)) \/
  (edges self !! name = None /\
   exists queue_name queue self1 ip port,
     _start_queue queue_name VNone self = (Ok queue, self1) /\
     let edge := {| edge_id := List.length (constructed self1);
                    edge_ip := ip; edge_port := port;
                    edge_queue := queue; edge_started := true |} in
     _start_edge name options self
     = (Ok edge,
        set_edges <[name := edge]>
          (snd (construct (EdgeBuilt name) self1)))).
Proof.
  destruct (edges self !! name) as [memo|] eqn:Hfree.
  { left. exists memo. split; [reflexivity|].
    apply start_edge_memoized, Hfree. }
  right.
  remember (_start_edge name options self) as out eqn:Hrun.
  unfold _start_edge in Hrun.
  rewrite (bind_ok _ _ self self None) in Hrun
    by (unfold gets; rewrite Hfree; done).
  unfold bind at 1 in Hrun.
  pose proof (options_or_section_state "edge" name options self) as Hstate.
  destruct (options_or_section "edge" name options self) as [[opts|e] s1];
    simpl in Hstate; subst s1; [|left; eauto].
  unfold bind at 1 in Hrun. unfold lift at 1 in Hrun.
  destruct (v_getattr opts "type") as [type|e]; [|left; eauto].
  destruct (is_str type "smtp").
  2:{ left. split; [reflexivity|]. unfold bind, lift, raise in Hrun.
      destruct (str_concat _ type); eauto. }
  unfold bind at 1 in Hrun. unfold bind at 1 in Hrun.
  unfold lift at 1 in Hrun.
  destruct (v_getattr opts "listeners") as [listeners|e]; [|left; eauto].
  unfold bind at 1 in Hrun. unfold lift at 1 in Hrun.
  destruct (py_index0 listeners) as [listener|e]; [|left; eauto].
  unfold bind at 1 in Hrun. unfold lift at 1 in Hrun.
  destruct (v_get listener "interface" (VStr "127.0.0.1")) as [ip|e];
    [|left; eauto].
  unfold bind at 1 in Hrun. unfold lift at 1 in Hrun.
  destruct (let? p := v_get listener "port" (VInt 25) in py_int p)
    as [port|e]; [|left; eauto].
  unfold bind at 1 in Hrun. unfold lift at 1 in Hrun.
  destruct (v_get opts "queue" VNone) as [queue_name|e]; [|left; eauto].
  destruct (negb (truthy queue_name)).
  { left. split; [reflexivity|]. subst out. eexists. reflexivity. }
  unfold bind at 1 in Hrun.
  destruct (as_name_cases "queue" queue_name self)
    as [(qn & -> & Hname)|(e & Hname)]; rewrite Hname in Hrun;
    [|left; eauto].
  unfold bind at 1 in Hrun.
  assert (exists queue self1,
            _start_queue qn VNone self = (Ok queue, self1)
            \/ exists e, _start_queue qn VNone self = (Raise e, self))
    as (queue & self1 & Hqueue).
  { destruct (start_queue_cases qn VNone self)
      as [(queue & _ & H)|[(_ & e & H)|[(_ & H)|(_ & H)]]].
    - exists queue, self. left. exact H.
    - exists None, self. right. exists e. exact H.
    - eexists _, _. left. exact H.
    - destruct H as (rn & relay & s1 & app & s2 & _ & _ & H).
      eexists _, _. left. exact H. }
  destruct Hqueue as [Hqueue|(e & Hqueue)]; rewrite Hqueue in Hrun;
    [|left; eauto].
  right. split; [reflexivity|]. subst out.
  exists qn, queue, self1, ip, port. split; [exact Hqueue|]. reflexivity.
Qed.

(** *** A builder that raises changes nothing *)

Lemma start_relay_raises (name : string) (options : value)
    (self self' : SlimtaState) (e : exn) :
  _start_relay name options self = (Raise e, self') -> self' = self.
Proof.
  destruct (start_relay_cases name options self)
    as [(relay & _ & H)|[(_ & e' & H)|(_ & class & H)]];
    cbv zeta in H; rewrite H; congruence.
Qed.

Lemma start_queue_raises (name : string) (options : value)
    (self self' : SlimtaState) (e : exn) :
  _start_queue name options self = (Raise e, self') -> self' = self.
Proof.
  destruct (start_queue_cases name options self)
    as [(queue & _ & H)|[(_ & e' & H)|[(_ & H)|(_ & H)]]].
  - rewrite H. congruence.
  - rewrite H. congruence.
  - rewrite H. congruence.
  - destruct H as (rn & relay & s1 & app & s2 & _ & _ & H).
    cbv zeta in H. rewrite H. congruence.
Qed.

Lemma start_edge_raises (name : string) (options : value)
    (self self' : SlimtaState) (e : exn) :
  _start_edge name options self = (Raise e, self') -> self' = self.
Proof.
  destruct (start_edge_cases name options self)
    as [(edge & _ & H)|[(_ & e' & H)|(_ & H)]].
  - rewrite H. congruence.
  - rewrite H. congruence.
  - destruct H as (qn & queue & s1 & ip & port & _ & H).
    cbv zeta in H. rewrite H. congruence.
Qed.

(** X1. A builder that raises leaves the state as it was: no registry is
    changed and no component has been constructed. *)
Theorem failed_builder_changes_nothing (name : string) (options : value)
    (self self' : SlimtaState) (e : exn) :
  (_start_relay name options self = (Raise e, self') -> self' = self) /\
  (_start_queue name options self = (Raise e, self') -> self' = self) /\
  (_start_edge name options self = (Raise e, self') -> self' = self).
Proof.
  split; [|split].
  - apply start_relay_raises.
  - apply start_queue_raises.
  - apply start_edge_raises.
Qed.

(** *** The builders proceed by construction steps *)

Lemma builds_trans (self self1 self2 : SlimtaState) :
  builds self self1 -> builds self1 self2 -> builds self self2.
Proof.
  induction 1 as [|s s1 s1' Hstep _ IH]; intros H2; [exact H2|].
  eapply builds_step; [exact Hstep | apply IH, H2].
Qed.

Lemma builds_one (self self' : SlimtaState) :
  build_step self self' -> builds self self'.
Proof. intros H. eapply builds_step; [exact H | apply builds_refl]. Qed.

(** What a returned relay tells about the state. *)
Lemma start_relay_returns (name : string) (options : value)
    (self self' : SlimtaState) (relay : Relay) :
  _start_relay name options self = (Ok relay, self') ->
  relays self' !! name = Some relay /\
  queues self' = queues self /\
  edges self' = edges self /\
  _celery self' = _celery self /\
  builds self self'.
Proof.
  intros Hrun.
  destruct (start_relay_cases name options self)
    as [(memo & Hreg & H)|[(_ & e' & H)|(Hfree & class & H)]];
    cbv zeta in H; rewrite H in Hrun; simplify_eq.
  - repeat split; try done. apply builds_refl.
  - repeat split; try done.
    + simpl. apply lookup_insert_eq.
    + apply builds_one, step_relay, Hfree.
Qed.

Lemma celery_returns (self self' : SlimtaState) (app : CeleryApp) :
  celery self = (Ok app, self') ->
  _celery self' = Some app /\
  relays self' = relays self /\
  queues self' = queues self /\
  edges self' = edges self /\
  builds self self'.
Proof.
  intros Hrun.
  destruct (celery_cases self) as [(memo & Hreg & H)|(Hfree & H)];
    cbv zeta in H; rewrite H in Hrun; simplify_eq.
  - repeat split; try done. apply builds_refl.
  - repeat split; try done. apply builds_one, step_celery, Hfree.
Qed.

Lemma start_queue_returns (name : string) (options : value)
    (self self' : SlimtaState) (queue : option Queue) :
  _start_queue name options self = (Ok queue, self') ->
  queues self' !! name = Some queue /\
  edges self' = edges self /\
  builds self self'.
Proof.
  intros Hrun.
  split; [exact (start_queue_registers _ _ _ _ _ Hrun)|].
  destruct (start_queue_cases name options self)
    as [(memo & Hreg & H)|[(_ & e' & H)|[(Hfree & H)|(Hfree & H)]]].
  - rewrite H in Hrun. simplify_eq. split; [done | apply builds_refl].
  - rewrite H in Hrun. simplify_eq.
  - rewrite H in Hrun. simplify_eq.
    split; [done|]. apply builds_one, step_default_queue, Hfree.
  - destruct H as (rn & relay & s1 & app & s2 & Hrelay & Happ & H).
    cbv zeta in H. rewrite H in Hrun. simplify_eq.
    apply start_relay_returns in Hrelay
      as (Hreg & Hq1 & He1 & Hc1 & Hb1).
    apply celery_returns in Happ as (Hcel & Hr2 & Hq2 & He2 & Hb2).
    split; [simpl; congruence|].
    eapply builds_trans; [exact Hb1|].
    eapply builds_trans; [exact Hb2|].
    apply builds_one.
    apply (step_queue s2 name rn
             {| queue_id := List.length (constructed s2);
                queue_celery := app; queue_relay := relay;
                queue_name := name |}); simpl.
    + congruence.
    + exact Hcel.
    + congruence.
    + reflexivity.
Qed.

Lemma start_edge_returns (name : string) (options : value)
    (self self' : SlimtaState) (edge : Edge) :
  _start_edge name options self = (Ok edge, self') ->
  edges self' !! name = Some edge /\ builds self self'.
Proof.
  intros Hrun.
  destruct (start_edge_cases name options self)
    as [(memo & Hreg & H)|[(_ & e' & H)|(Hfree & H)]].
  - rewrite H in Hrun. simplify_eq. split; [done | apply builds_refl].
  - rewrite H in Hrun. simplify_eq.
  - destruct H as (qn & queue & s1 & ip & port & Hqueue & H).
    cbv zeta in H. rewrite H in Hrun. simplify_eq.
    apply start_queue_returns in Hqueue as (Hreg & He1 & Hb1).
    split; [simpl; apply lookup_insert_eq|].
    eapply builds_trans; [exact Hb1|].
    apply builds_one.
    apply (step_edge s1 name qn
             {| edge_id := List.length (constructed s1); edge_ip := ip;
                edge_port := port; edge_queue := queue;
                edge_started := true |}); simpl.
    + congruence.
    + reflexivity.
    + exact Hreg.
Qed.

(** Whether it returns or raises, a call of a builder proceeds by
    construction steps. *)
Lemma run_call_builds (c : call) (self : SlimtaState) :
  builds self (run_call c self).
Proof.
  destruct c as [name options|name options|name options]; simpl.
  - destruct (_start_relay name options self) as [[relay|e] self'] eqn:H.
    + apply start_relay_returns in H. apply H.
    + apply start_relay_raises in H as ->. apply builds_refl.
  - destruct (_start_queue name options self) as [[queue|e] self'] eqn:H.
    + apply start_queue_returns in H. apply H.
    + apply start_queue_raises in H as ->. apply builds_refl.
  - destruct (_start_edge name options self) as [[edge|e] self'] eqn:H.
    + apply start_edge_returns in H. apply H.
    + apply start_edge_raises in H as ->. apply builds_refl.
Qed.

Lemma run_calls_builds (calls : list call) (self : SlimtaState) :
  builds self (run_calls calls self).
Proof.
  revert self. induction calls as [|c calls IH]; intros self; simpl.
  - apply builds_refl.
  - eapply builds_trans; [apply run_call_builds | apply IH].
Qed.

(** *** Invariants of the construction steps *)

Lemma construction_eqb_eq (c c' : construction) :
  construction_eqb c c' = true <-> c = c'.
Proof.
  destruct c, c'; simpl; rewrite ?String.eqb_eq;
    split; intros H; try discriminate; try reflexivity; congruence.
Qed.

Lemma times_built_construct (c c' : construction) (self : SlimtaState) :
  times_built c (snd (construct c' self))
  = (times_built c self + if construction_eqb c c' then 1 else 0)%nat.
Proof.
  unfold times_built. simpl.
  rewrite List.filter_app, List.length_app. simpl.
  destruct (construction_eqb c c'); reflexivity.
Qed.

(** Constructing the component of [c'], which has no entry, and giving it
    one keeps [built_once], when the other registries are as they were. *)
Lemma built_once_register (c' : construction) (self self' : SlimtaState) :
  built_once self ->
  unregistered c' self ->
  (forall c, times_built c self'
             = (times_built c self
                + if construction_eqb c c' then 1 else 0)%nat) ->
  (forall c, c <> c' -> unregistered c self' -> unregistered c self) ->
  ~ unregistered c' self' ->
  built_once self'.
Proof.
  intros Hinv Hfree Htimes Hother Hreg c.
  destruct (Hinv c) as [Hle Hzero]. rewrite Htimes.
  destruct (construction_eqb c c') eqn:Heq.
  - apply construction_eqb_eq in Heq as ->.
    rewrite (Hzero Hfree). split; [lia | intros H; contradiction].
  - assert (c <> c') as Hne.
    { intros ->.
      rewrite (proj2 (construction_eqb_eq c' c') eq_refl) in Heq.
      discriminate. }
    split; [lia|]. intros H. rewrite (Hzero (Hother c Hne H)). lia.
Qed.

Lemma build_step_built_once (self self' : SlimtaState) :
  build_step self self' -> built_once self -> built_once self'.
Proof.
  intros Hstep Hinv.
  destruct Hstep as [s n relay Hfree|s app Hfree|s n Hfree
                    |s n rn queue Hfree _ _ _|s n qn edge Hfree _ _].
  - apply (built_once_register (RelayBuilt n) s); try assumption.
    + intros c. apply (times_built_construct c (RelayBuilt n) s).
    + intros [m| |m|m] Hne; simpl; try done.
      destruct (decide (n = m)) as [->|Hnm]; [congruence|].
      rewrite lookup_insert_ne by exact Hnm. done.
    + simpl. rewrite lookup_insert_eq. discriminate.
  - apply (built_once_register CeleryBuilt s); try assumption.
    + intros c. apply (times_built_construct c CeleryBuilt s).
    + intros [m| |m|m] Hne; simpl; try done.
    + simpl. discriminate.
  - intros c. destruct (Hinv c) as [Hle Hzero].
    split; [exact Hle|]. intros H. apply Hzero.
    destruct c as [m| |m|m]; simpl in *; try done.
    destruct (decide (n = m)) as [->|Hnm].
    + rewrite lookup_insert_eq in H. discriminate.
    + rewrite lookup_insert_ne in H by exact Hnm. exact H.
  - apply (built_once_register (QueueBuilt n) s); try assumption.
    + intros c. apply (times_built_construct c (QueueBuilt n) s).
    + intros [m| |m|m] Hne; simpl; try done.
      destruct (decide (n = m)) as [->|Hnm]; [congruence|].
      rewrite lookup_insert_ne by exact Hnm. done.
    + simpl. rewrite lookup_insert_eq. discriminate.
  - apply (built_once_register (EdgeBuilt n) s); try assumption.
    + intros c. apply (times_built_construct c (EdgeBuilt n) s).
    + intros [m| |m|m] Hne; simpl; try done.
      destruct (decide (n = m)) as [->|Hnm]; [congruence|].
      rewrite lookup_insert_ne by exact Hnm. done.
    + simpl. rewrite lookup_insert_eq. discriminate.
Qed.

Lemma builds_built_once (self self' : SlimtaState) :
  builds self self' -> built_once self -> built_once self'.
Proof.
  induction 1 as [|s s1 s2 Hstep _ IH]; intros Hinv; [exact Hinv|].
  apply IH, (build_step_built_once s s1 Hstep Hinv).
Qed.

Lemma built_once_initial (c : value) : built_once (initial_state c).
Proof.
  intros [m| |m|m]; unfold times_built; simpl; split; (lia || reflexivity).
Qed.

(** X2. After any sequence of calls of the builders on a fresh state, no
    constructor was called more than once for the same component: each
    relay, queue and edge section gets at most one instance, and there is
    at most one celery application. *)
Theorem components_built_at_most_once (c : value) (calls : list call)
    (component : construction) :
  (times_built component (run_calls calls (initial_state c)) <= 1)%nat.
Proof.
  apply (builds_built_once (initial_state c)).
  - apply run_calls_builds.
  - apply built_once_initial.
Qed.

Lemma build_step_well_linked (self self' : SlimtaState) :
  build_step self self' -> well_linked self -> well_linked self'.
Proof.
  intros Hstep [Hqueues Hedges].
  destruct Hstep as [s n relay Hfree|s app Hfree|s n Hfree
                    |s n rn queue Hfree Happ Hrelay Hname
                    |s n qn edge Hfree Hstarted Hqueue]; split; simpl.
  - intros m q Hq. destruct (Hqueues m q Hq) as (Hc & (r & Hr) & Hn).
    split; [exact Hc|]. split; [|exact Hn].
    exists r. rewrite lookup_insert_ne; [exact Hr|]. congruence.
  - exact Hedges.
  - intros m q Hq. destruct (Hqueues m q Hq) as (Hc & _). congruence.
  - exact Hedges.
  - intros m q Hq. apply Hqueues.
    destruct (decide (n = m)) as [->|Hnm].
    + rewrite lookup_insert_eq in Hq. discriminate.
    + rewrite lookup_insert_ne in Hq by exact Hnm. exact Hq.
  - intros m e He. destruct (Hedges m e He) as (Hs & q & Hq).
    split; [exact Hs|]. exists q.
    rewrite lookup_insert_ne; [exact Hq|]. congruence.
  - intros m q Hq.
    destruct (decide (n = m)) as [->|Hnm].
    + rewrite lookup_insert_eq in Hq. simplify_eq. eauto.
    + rewrite lookup_insert_ne in Hq by exact Hnm. exact (Hqueues m q Hq).
  - intros m e He. destruct (Hedges m e He) as (Hs & q & Hq).
    split; [exact Hs|]. exists q.
    rewrite lookup_insert_ne; [exact Hq|]. congruence.
  - exact Hqueues.
  - intros m e He.
    destruct (decide (n = m)) as [->|Hnm].
    + rewrite lookup_insert_eq in He. simplify_eq. eauto.
    + rewrite lookup_insert_ne in He by exact Hnm. exact (Hedges m e He).
Qed.

Lemma builds_well_linked (self self' : SlimtaState) :
  builds self self' -> well_linked self -> well_linked self'.
Proof.
  induction 1 as [|s s1 s2 Hstep _ IH]; intros Hinv; [exact Hinv|].
  apply IH, (build_step_well_linked s s1 Hstep Hinv).
Qed.

Lemma well_linked_initial (c : value) : well_linked (initial_state c).
Proof. split; intros name x H; simpl in H; discriminate. Qed.

(** X3. After any sequence of calls of the builders on a fresh state, every
    registered queue holds the celery application of the state and a
    registered relay, every registered edge is started and bound to a
    registered queue, and so any two registered queues share one
    application. *)
Theorem registered_components_are_linked (c : value) (calls : list call) :
  let self := run_calls calls (initial_state c) in
  well_linked self /\
  (forall name name' queue queue',
     queues self !! name = Some (Some queue) ->
     queues self !! name' = Some (Some queue') ->
     queue_celery queue = queue_celery queue').
Proof.
  intros self.
  assert (well_linked self) as Hlinked.
  { apply (builds_well_linked (initial_state c)).
    - apply run_calls_builds.
    - apply well_linked_initial. }
  split; [exact Hlinked|].
  intros name name' queue queue' Hq Hq'.
  destruct Hlinked as [Hqueues _].
  destruct (Hqueues name queue Hq) as (Hc & _).
  destruct (Hqueues name' queue' Hq') as (Hc' & _).
  congruence.
Qed.

Lemma build_step_grows (self self' : SlimtaState) :
  build_step self self' ->
  relays self ⊆ relays self' /\
  queues self ⊆ queues self' /\
  edges self ⊆ edges self' /\
  (forall app, _celery self = Some app -> _celery self' = Some app) /\
  cfg self' = cfg self.
Proof.
  intros Hstep.
  destruct Hstep as [s n relay Hfree|s app Hfree|s n Hfree
                    |s n rn queue Hfree _ _ _|s n qn edge Hfree _ _];
    simpl; repeat split; try done;
    try (apply insert_subseteq; assumption).
  intros app' H. congruence.
Qed.

Lemma builds_grows (self self' : SlimtaState) :
  builds self self' ->
  relays self ⊆ relays self' /\
  queues self ⊆ queues self' /\
  edges self ⊆ edges self' /\
  (forall app, _celery self = Some app -> _celery self' = Some app) /\
  cfg self' = cfg self.
Proof.
  induction 1 as [s|s s1 s2 Hstep _ IH]; [repeat split; done|].
  destruct (build_step_grows s s1 Hstep) as (Hr & Hq & He & Hc & Hcfg).
  destruct IH as (Hr' & Hq' & He' & Hc' & Hcfg').
  repeat split.
  - etrans; eassumption.
  - etrans; eassumption.
  - etrans; eassumption.
  - intros app H. apply Hc', Hc, H.
  - congruence.
Qed.

(** X4. A call of a builder, whether it returns or raises, removes and
    replaces nothing: a relay, queue or edge registered under a name, and
    the celery application, are the same after the call, and the
    configuration is not changed. *)
Theorem registries_only_grow (c : call) (self : SlimtaState) :
  (forall name relay,
     relays self !! name = Some relay ->
     relays (run_call c self) !! name = Some relay) /\
  (forall name queue,
     queues self !! name = Some queue ->
     queues (run_call c self) !! name = Some queue) /\
  (forall name edge,
     edges self !! name = Some edge ->
     edges (run_call c self) !! name = Some edge) /\
  (forall app,
     _celery self = Some app -> _celery (run_call c self) = Some app) /\
  cfg (run_call c self) = cfg self.
Proof.
  destruct (builds_grows self (run_call c self) (run_call_builds c self))
    as (Hr & Hq & He & Hc & Hcfg).
  repeat split; try assumption.
  - intros name relay H. exact (lookup_weaken _ _ _ _ H Hr).
  - intros name queue H. exact (lookup_weaken _ _ _ _ H Hq).
  - intros name edge H. exact (lookup_weaken _ _ _ _ H He).
Qed.

(** *** Relays and queues, case by case *)

(** X5. When [_start_relay] returns a relay for a name, a later call with
    that name, whatever its options, returns the same relay and changes
    nothing. *)
Theorem start_relay_idempotent (self self' : SlimtaState) (name : string)
    (options options' : value) (relay : Relay) :
  _start_relay name options self = (Ok relay, self') ->
  _start_relay name options' self' = (Ok relay, self').
Proof.
  intros Hfirst. apply start_relay_memoized.
  apply (start_relay_returns _ _ _ _ _ Hfirst).
Qed.

(** X6. For a name that is not built yet, a relay section of type [static]
    needs a [host]: without one the call raises [AttributeError] and
    registers nothing; with one the relay is constructed once with the host
    and the port as they are written, [25] when there is no port, and is
    registered under the name. *)
Theorem start_relay_static (self : SlimtaState) (name : string)
    (options : value) (opts : section) :
  relays self !! name = None ->
  options_or_section "relay" name options self = (Ok (VMap opts), self) ->
  opts !! "type" = Some (VStr "static") ->
  (opts !! "host" = None ->
   _start_relay name options self = (Raise (AttributeError "host"), self)) /\
  (forall host,
     opts !! "host" = Some host ->
     let relay :=
       {| relay_id := List.length (constructed self);
          relay_class :=
            StaticSmtpRelay host (get_default opts "port" (VInt 25)) |} in
     _start_relay name options self
     = (Ok relay,
        set_relays <[name := relay]>
          (snd (construct (RelayBuilt name) self)))).
Proof.
  intros Hfree Hopts Htype.
  assert (_start_relay name options self
          = (do new_relay <-
               (do host <- lift (v_getattr (VMap opts) "host");
                do port <- lift (v_get (VMap opts) "port" (VInt 25));
                do id <- construct (RelayBuilt name);
                ret {| relay_id := id;
                       relay_class := StaticSmtpRelay host port |});
             run modify (set_relays <[name := new_relay]>); ret new_relay)
              self) as Hstart.
  { unfold _start_relay.
    rewrite (bind_ok _ _ self self None)
      by (unfold gets; rewrite Hfree; done).
    rewrite (bind_ok _ _ _ _ _ Hopts).
    rewrite (bind_ok _ _ self self (VStr "static"))
      by (unfold lift; simpl; unfold getattr; rewrite Htype; done).
    reflexivity. }
  rewrite Hstart. split.
  - intros Hhost. unfold bind, lift. simpl. unfold getattr.
    rewrite Hhost. reflexivity.
  - intros host Hhost relay. unfold bind, lift. simpl. unfold getattr.
    rewrite Hhost. reflexivity.
Qed.

Lemma celery_keeps_relay_count (self self' : SlimtaState) (app : CeleryApp)
    (name : string) :
  celery self = (Ok app, self') ->
  times_built (RelayBuilt name) self' = times_built (RelayBuilt name) self.
Proof.
  intros Hrun.
  destruct (celery_cases self) as [(memo & _ & H)|(_ & H)];
    cbv zeta in H; rewrite H in Hrun; simplify_eq; [reflexivity|].
  unfold times_built. simpl.
  rewrite List.filter_app, List.length_app. simpl. lia.
Qed.

Lemma start_queue_open (self : SlimtaState) (name : string)
    (options opts : value) :
  queues self !! name = None ->
  options_or_section "queue" name options self = (Ok opts, self) ->
  _start_queue name options self
  = (do is_default <-
       (if negb (truthy opts) then ret true
        else do type <- lift (v_get opts "type" (VStr "default"));
             ret (is_str type "default"));
     do new_queue <-
       (if is_default : bool then ret None
        else
          do type <- lift (v_getattr opts "type");
          if is_str type "celery" then
            do relay_name <- lift (v_get opts "relay" VNone);
            if negb (truthy relay_name) then
              raise (ConfigError "queue sections must be given a relay name")
            else
              do relay_name <- as_name "relay" relay_name;
              do relay <- _start_relay relay_name VNone;
              do app <- celery;
              do id <- construct (QueueBuilt name);
              ret (Some {| queue_id := id; queue_celery := app;
                           queue_relay := relay; queue_name := name |})
          else
            do msg <- lift (str_concat "queue type does not exist: " type);
            raise (ConfigError msg));
     run modify (set_queues <[name := new_queue]>); ret new_queue) self.
Proof.
  intros Hfree Hopts. unfold _start_queue.
  rewrite (bind_ok _ _ self self None) by (unfold gets; rewrite Hfree; done).
  rewrite (bind_ok _ _ _ _ _ Hopts). reflexivity.
Qed.

(** X7. For a name that is not built yet, a queue section that is empty,
    has no type or has the type [default] gives the default queue: [None]
    is returned and registered, and nothing is constructed, neither a relay
    nor the celery application. *)
Theorem start_queue_default (self : SlimtaState) (name : string)
    (options opts : value) :
  queues self !! name = None ->
  options_or_section "queue" name options self = (Ok opts, self) ->
  truthy opts = false \/
  (exists m, opts = VMap m /\ m !! "type" = None) \/
  v_getattr opts "type" = Ok (VStr "default") ->
  _start_queue name options self
  = (Ok None, set_queues <[name := None]> self) /\
  constructed (snd (_start_queue name options self)) = constructed self /\
  relays (snd (_start_queue name options self)) = relays self.
Proof.
  intros Hfree Hopts Hdefault.
  assert (_start_queue name options self
          = (Ok None, set_queues <[name := None]> self)) as Hrun.
  { rewrite (start_queue_open self name options opts Hfree Hopts).
    destruct (truthy opts) eqn:Htruthy; [|reflexivity].
    destruct Hdefault as [H|[(m & -> & Hm)|H]]; [discriminate| |].
    - unfold bind, lift, ret. simpl. unfold get_default. rewrite Hm.
      reflexivity.
    - destruct opts as [| | | | |m]; simpl in H; try discriminate.
      unfold getattr in H. destruct (m !! "type") as [t|] eqn:Hm;
        [|discriminate]. injection H as ->.
      unfold bind, lift, ret. simpl. unfold get_default. rewrite Hm.
      reflexivity. }
  rewrite Hrun. repeat split; reflexivity.
Qed.

(** X8. For a name that is not built yet and a queue section of type
    [celery]: without a relay name the call raises [ConfigError] and
    changes nothing; when the relay cannot be built the call raises what
    [_start_relay] raised and changes nothing; otherwise the queue is
    constructed over the relay [_start_relay] returns for that name and the
    celery application of the state, and is registered. In particular a
    relay that is registered under the name is reused as it is. *)
Theorem start_queue_celery (self : SlimtaState) (name : string)
    (options opts : value) :
  queues self !! name = None ->
  options_or_section "queue" name options self = (Ok opts, self) ->
  v_getattr opts "type" = Ok (VStr "celery") ->
  (forall relay_name,
     v_get opts "relay" VNone = Ok relay_name ->
     truthy relay_name = false ->
     _start_queue name options self
     = (Raise (ConfigError "queue sections must be given a relay name"),
        self)) /\
  (forall relay_name e self1,
     v_get opts "relay" VNone = Ok (VStr relay_name) ->
     relay_name <> "" ->
     _start_relay relay_name VNone self = (Raise e, self1) ->
     _start_queue name options self = (Raise e, self)) /\
  (forall relay_name relay self1 app self2,
     v_get opts "relay" VNone = Ok (VStr relay_name) ->
     relay_name <> "" ->
     _start_relay relay_name VNone self = (Ok relay, self1) ->
     celery self1 = (Ok app, self2) ->
     let queue := {| queue_id := List.length (constructed self2);
                     queue_celery := app; queue_relay := relay;
                     queue_name := name |} in
     _start_queue name options self
     = (Ok (Some queue),
        set_queues <[name := Some queue]>
          (snd (construct (QueueBuilt name) self2)))) /\
  (forall relay_name relay,
     v_get opts "relay" VNone = Ok (VStr relay_name) ->
     relay_name <> "" ->
     relays self !! relay_name = Some relay ->
     exists queue self',
       _start_queue name options self = (Ok (Some queue), self') /\
       queue_relay queue = relay /\
       relays self' = relays self /\
       times_built (RelayBuilt relay_name) self'
       = times_built (RelayBuilt relay_name) self).
Proof.
  intros Hfree Hopts Htype.
  pose proof (v_getattr_truthy _ _ _ Htype) as Htruthy.
  assert (v_get opts "type" (VStr "default") = Ok (VStr "celery")) as Hget.
  { destruct opts; try discriminate. simpl in *. unfold getattr in Htype.
    unfold get_default. destruct (_ !! "type"); simplify_eq. done. }
  assert (_start_queue name options self
          = (do new_queue <-
               (do relay_name <- lift (v_get opts "relay" VNone);
                if negb (truthy relay_name) then
                  raise
                    (ConfigError "queue sections must be given a relay name")
                else
                  do relay_name <- as_name "relay" relay_name;
                  do relay <- _start_relay relay_name VNone;
                  do app <- celery;
                  do id <- construct (QueueBuilt name);
                  ret (Some {| queue_id := id; queue_celery := app;
                               queue_relay := relay; queue_name := name |}));
             run modify (set_queues <[name := new_queue]>); ret new_queue)
              self) as Hstart.
  { rewrite (start_queue_open self name options opts Hfree Hopts).
    rewrite Htruthy. simpl negb. cbv iota.
    rewrite (bind_ok _ _ self self false)
      by (unfold bind, lift, ret; rewrite Hget; done).
    cbv iota. unfold bind at 1.
    rewrite (bind_ok _ _ self self (VStr "celery"))
      by (unfold lift; rewrite Htype; done).
    reflexivity. }
  assert (forall relay_name relay self1 app self2,
     v_get opts "relay" VNone = Ok (VStr relay_name) ->
     relay_name <> "" ->
     _start_relay relay_name VNone self = (Ok relay, self1) ->
     celery self1 = (Ok app, self2) ->
     _start_queue name options self
     = (Ok (Some {| queue_id := List.length (constructed self2);
                    queue_celery := app; queue_relay := relay;
                    queue_name := name |}),
        set_queues
          <[name := Some {| queue_id := List.length (constructed self2);
                            queue_celery := app; queue_relay := relay;
                            queue_name := name |}]>
          (snd (construct (QueueBuilt name) self2)))) as Hbuilt.
  { intros relay_name relay self1 app self2 Hrelay Hne Hstart_relay Happ.
    rewrite Hstart. unfold bind at 1.
    rewrite (bind_ok _ _ self self (VStr relay_name))
      by (unfold lift; rewrite Hrelay; done).
    assert (truthy (VStr relay_name) = true) as ->.
    { simpl. apply negb_true_iff, String.eqb_neq. assumption. }
    cbv beta iota delta [negb].
    rewrite (bind_ok _ _ self self relay_name) by reflexivity.
    rewrite (bind_ok _ _ _ _ _ Hstart_relay).
    rewrite (bind_ok _ _ _ _ _ Happ).
    reflexivity. }
  split; [|split; [|split]].
  - intros relay_name Hrelay Hfalsy. rewrite Hstart.
    unfold bind at 1 2. unfold lift. rewrite Hrelay, Hfalsy. reflexivity.
  - intros relay_name e self1 Hrelay Hne Hraise.
    pose proof (start_relay_raises _ _ _ _ _ Hraise) as ->.
    rewrite Hstart. unfold bind at 1.
    rewrite (bind_ok _ _ self self (VStr relay_name))
      by (unfold lift; rewrite Hrelay; done).
    assert (truthy (VStr relay_name) = true) as ->.
    { simpl. apply negb_true_iff, String.eqb_neq. assumption. }
    cbv beta iota delta [negb].
    rewrite (bind_ok _ _ self self relay_name) by reflexivity.
    rewrite (bind_raise _ _ _ _ _ Hraise). reflexivity.
  - intros relay_name relay self1 app self2 Hrelay Hne Hstart_relay Happ.
    cbv zeta. apply (Hbuilt relay_name relay self1 app self2); assumption.
  - intros relay_name relay Hrelay Hne Hreg.
    pose proof (start_relay_memoized self relay_name VNone relay Hreg)
      as Hmemo.
    destruct (celery self) as [[app|e] self2] eqn:Happ.
    2:{ destruct (celery_cases self) as [(a & _ & H)|(_ & H)];
          cbv zeta in H; rewrite H in Happ; discriminate. }
    eexists _, _. split.
    { apply (Hbuilt relay_name relay self app self2); assumption. }
    pose proof (celery_keeps_relay_count _ _ _ relay_name Happ) as Hcount.
    apply celery_returns in Happ as (_ & Hrelays & _ & _ & _).
    split; [reflexivity|]. split; [simpl; exact Hrelays|].
    rewrite <- Hcount.
    unfold times_built. simpl.
    rewrite List.filter_app, List.length_app. simpl. lia.
Qed.

(** *** Starting all the edges, all the celery queues *)

Lemma start_edges_items_returns (items : list (string * value))
    (self self' : SlimtaState) (u : unit) :
  start_edges_items items self = (Ok u, self') ->
  builds self self' /\
  forall name options,
    In (name, options) items -> is_Some (edges self' !! name).
Proof.
  revert self. induction items as [|[n o] items IH]; intros self Hrun.
  - simpl in Hrun. unfold ret in Hrun. simplify_eq.
    split; [apply builds_refl | intros ? ? []].
  - simpl in Hrun. apply bind_ok_inv in Hrun as (edge & s1 & Hedge & Hrest).
    apply start_edge_returns in Hedge as (Hreg & Hb1).
    destruct (IH s1 Hrest) as (Hb2 & Hall).
    split; [eapply builds_trans; eassumption|].
    intros name options [Heq|Hin].
    + simplify_eq. exists edge.
      destruct (builds_grows _ _ Hb2) as (_ & _ & He & _).
      exact (lookup_weaken _ _ _ _ Hreg He).
    + eapply Hall, Hin.
Qed.

(** X9. When [start_edges] returns, every edge section of the configuration
    has an edge registered under its name, which is started and bound to a
    registered queue; the links between the components and the single
    construction of each are kept. *)
Theorem start_edges_starts_every_edge (self self' : SlimtaState)
    (sections : section) (u : unit) :
  v_getattr (cfg self) "edge" = Ok (VMap sections) ->
  well_linked self ->
  built_once self ->
  start_edges self = (Ok u, self') ->
  well_linked self' /\
  built_once self' /\
  forall name,
    is_Some (sections !! name) ->
    exists edge,
      edges self' !! name = Some edge /\
      edge_started edge = true /\
      exists queue_name, queues self' !! queue_name = Some (edge_queue edge).
Proof.
  intros Hcfg Hlinked Honce Hrun.
  unfold start_edges in Hrun.
  rewrite (bind_ok _ _ self self (cfg self)) in Hrun by reflexivity.
  rewrite (bind_ok _ _ self self (map_to_list sections)) in Hrun
    by (unfold lift; rewrite Hcfg; reflexivity).
  apply start_edges_items_returns in Hrun as (Hbuilds & Hall).
  pose proof (builds_well_linked _ _ Hbuilds Hlinked) as Hlinked'.
  split; [exact Hlinked'|].
  split; [exact (builds_built_once _ _ Hbuilds Honce)|].
  intros name [options Hsection].
  destruct (Hall name options) as [edge Hedge].
  { apply list_elem_of_In, elem_of_map_to_list, Hsection. }
  exists edge. split; [exact Hedge|].
  exact (proj2 Hlinked' name edge Hedge).
Qed.

Lemma start_edges_items_app (before after : list (string * value))
    (self : SlimtaState) :
  start_edges_items (before ++ after) self
  = (do u <- start_edges_items before; start_edges_items after) self.
Proof.
  revert self. induction before as [|[n o] before IH]; intros self.
  - reflexivity.
  - simpl. unfold bind.
    destruct (_start_edge n o self) as [[edge|e] s1]; [|reflexivity].
    rewrite IH. reflexivity.
Qed.

(** X10. The loop of [start_edges] stops at the first section whose edge
    cannot be built, in whatever order the sections come: the exception of
    that section is raised, the sections after it are not looked at, and
    the edges of the sections before it stay registered. *)
Theorem start_edges_stops_at_first_failure
    (before after : list (string * value)) (name : string) (options : value)
    (self self1 self1' : SlimtaState) (u : unit) (e : exn) :
  start_edges_items before self = (Ok u, self1) ->
  _start_edge name options self1 = (Raise e, self1') ->
  start_edges_items (before ++ (name, options) :: after) self
  = (Raise e, self1) /\
  forall name' options',
    In (name', options') before -> is_Some (edges self1 !! name').
Proof.
  intros Hbefore Hraise.
  pose proof (start_edge_raises _ _ _ _ _ Hraise) as ->.
  split.
  - rewrite start_edges_items_app. rewrite (bind_ok _ _ _ _ _ Hbefore).
    simpl. rewrite (bind_raise _ _ _ _ _ Hraise). reflexivity.
  - apply (start_edges_items_returns _ _ _ _ Hbefore).
Qed.

Lemma options_or_section_given (kind name : string) (options : value)
    (self : SlimtaState) :
  truthy options = true ->
  options_or_section kind name options self = (Ok options, self).
Proof. intros H. unfold options_or_section. rewrite H. reflexivity. Qed.

(** A queue built from options of type [celery] is not the default
    queue. *)
Lemma start_queue_celery_some (self self' : SlimtaState) (name : string)
    (options : value) (queue : option Queue) :
  queues self !! name = None ->
  v_getattr options "type" = Ok (VStr "celery") ->
  _start_queue name options self = (Ok queue, self') ->
  is_Some queue.
Proof.
  intros Hfree Htype Hrun.
  pose proof (v_getattr_truthy _ _ _ Htype) as Htruthy.
  assert (v_get options "type" (VStr "default") = Ok (VStr "celery")) as Hget.
  { destruct options; try discriminate. simpl in *. unfold getattr in Htype.
    unfold get_default. destruct (_ !! "type"); simplify_eq. done. }
  rewrite (start_queue_open self name options options Hfree
             (options_or_section_given _ _ _ _ Htruthy)) in Hrun.
  rewrite Htruthy in Hrun. simpl negb in Hrun. cbv iota in Hrun.
  rewrite (bind_ok _ _ self self false) in Hrun
    by (unfold bind, lift, ret; rewrite Hget; done).
  cbv iota in Hrun.
  apply bind_ok_inv in Hrun as (new_queue & s3 & Hnew & Hrun).
  unfold bind, modify, ret in Hrun. simplify_eq.
  rewrite (bind_ok _ _ self self (VStr "celery")) in Hnew
    by (unfold lift; rewrite Htype; done).
  simpl is_str in Hnew. cbv iota in Hnew.
  apply bind_ok_inv in Hnew as (relay_name & s4 & _ & Hnew).
  destruct (negb (truthy relay_name)); [discriminate|].
  apply bind_ok_inv in Hnew as (rn & s5 & _ & Hnew).
  apply bind_ok_inv in Hnew as (relay & s6 & _ & Hnew).
  apply bind_ok_inv in Hnew as (app & s7 & _ & Hnew).
  apply bind_ok_inv in Hnew as (id & s8 & _ & Hnew).
  unfold ret in Hnew. simplify_eq. eauto.
Qed.

Lemma start_queue_registry (name : string) (options : value)
    (self self' : SlimtaState) (queue : option Queue) :
  _start_queue name options self = (Ok queue, self') ->
  queues self' = <[name := queue]> (queues self).
Proof.
  intros Hrun.
  destruct (start_queue_cases name options self)
    as [(memo & Hreg & H)|[(_ & e' & H)|[(Hfree & H)|(Hfree & H)]]].
  - rewrite H in Hrun. simplify_eq. symmetry. apply insert_id, Hreg.
  - rewrite H in Hrun. simplify_eq.
  - rewrite H in Hrun. simplify_eq. reflexivity.
  - destruct H as (rn & relay & s1 & app & s2 & Hrelay & Happ & H).
    cbv zeta in H. rewrite H in Hrun. simplify_eq.
    apply start_relay_returns in Hrelay as (_ & Hq1 & _).
    apply celery_returns in Happ as (_ & _ & Hq2 & _).
    simpl. congruence.
Qed.

Lemma start_celery_queues_items_returns (items : list (string * value))
    (self self' : SlimtaState) (u : unit) :
  start_celery_queues_items items self = (Ok u, self') ->
  (forall name options,
     In (name, options) items -> exists t, v_getattr options "type" = Ok t) /\
  (forall name,
     queues self' !! name = queues self !! name \/
     (queues self !! name = None /\
      (exists options,
         In (name, options) items /\
         v_getattr options "type" = Ok (VStr "celery")) /\
      exists queue, queues self' !! name = Some (Some queue))) /\
  (forall name options,
     In (name, options) items ->
     v_getattr options "type" = Ok (VStr "celery") ->
     is_Some (queues self' !! name)).
Proof.
  revert self. induction items as [|[n o] items IH]; intros self Hrun.
  - simpl in Hrun. unfold ret in Hrun. simplify_eq.
    repeat split; [intros ? ? [] | auto | intros ? ? []].
  - simpl in Hrun.
    apply bind_ok_inv in Hrun as (type & s0 & Htype & Hrun).
    unfold lift in Htype.
    destruct (v_getattr o "type") as [t|] eqn:Hgetattr; simplify_eq.
    apply bind_ok_inv in Hrun as ([] & s1 & Hstart & Hrest).
    destruct (IH s1 Hrest) as (Htypes & Hqueues & Hcelery).
    assert (queues s1 = queues s0 /\ is_str type "celery" = false \/
            is_str type "celery" = true /\
            exists queue,
              _start_queue n o s0 = (Ok queue, s1) /\
              queues s1 = <[n := queue]> (queues s0)) as Hstep.
    { destruct (is_str type "celery") eqn:Hstr.
      - right. split; [reflexivity|].
        apply bind_ok_inv in Hstart as (queue & s2 & Hq & Hret).
        unfold ret in Hret. simplify_eq. exists queue.
        split; [exact Hq | apply (start_queue_registry _ _ _ _ _ Hq)].
      - left. unfold ret in Hstart. simplify_eq. auto. }
    split; [|split].
    + intros name options [Heq|Hin]; [simplify_eq; eauto|].
      eapply Htypes, Hin.
    + intros name.
      destruct Hstep as [(Hsame & _)|(Hstr & queue & Hq & Hins)].
      * rewrite <- Hsame.
        destruct (Hqueues name) as [H|(Hnone & (o' & Hin & Ht) & Hsome)];
          [left; exact H|].
        right. split; [exact Hnone|]. split; [|exact Hsome].
        exists o'. split; [right; exact Hin | exact Ht].
      * apply is_str_true in Hstr as ->.
        destruct (decide (n = name)) as [->|Hne].
        -- destruct (queues s0 !! name) as [memo|] eqn:Hmemo.
           ++ left.
              pose proof (start_queue_memoized s0 name o memo Hmemo) as Hm.
              rewrite Hm in Hq. injection Hq as Hqueue _.
              destruct (Hqueues name) as [H|(Hnone & _)].
              ** rewrite H, Hins, lookup_insert_eq. congruence.
              ** rewrite Hins, lookup_insert_eq in Hnone. discriminate.
           ++ right. split; [reflexivity|].
              split; [exists o; split; [left; reflexivity | exact Hgetattr]|].
              destruct (start_queue_celery_some _ _ _ _ _ Hmemo Hgetattr Hq)
                as [q ->].
              exists q.
              destruct (Hqueues name) as [H|(Hnone & _)].
              ** rewrite H, Hins. apply lookup_insert_eq.
              ** rewrite Hins, lookup_insert_eq in Hnone. discriminate.
        -- destruct (Hqueues name)
             as [H|(Hnone & (o' & Hin & Ht) & Hsome)].
           ++ left. rewrite H, Hins. apply lookup_insert_ne, Hne.
           ++ right. rewrite Hins, lookup_insert_ne in Hnone by exact Hne.
              split; [exact Hnone|]. split; [|exact Hsome].
              exists o'. split; [right; exact Hin | exact Ht].
    + intros name options [Heq|Hin] Ht; [|eapply Hcelery; eassumption].
      simplify_eq.
      destruct Hstep as [(_ & Hstr)|(_ & queue & Hq & Hins)].
      * rewrite Hgetattr in Ht. simplify_eq; discriminate.
      * destruct (Hqueues name) as [H|(_ & _ & q & Hsome)].
        -- rewrite H, Hins, lookup_insert_eq. eauto.
        -- rewrite Hsome. eauto.
Qed.

(** X11. When [start_celery_queues] returns: every queue section has a type
    (a section without one, which [_start_queue] would take for the default
    queue, makes it raise); every section of type [celery] is registered;
    a name that was not registered and has no section of that type is
    still not registered; and no default queue has been registered. *)
Theorem start_celery_queues_spec (self self' : SlimtaState)
    (sections : section) (u : unit) :
  v_getattr (cfg self) "queue" = Ok (VMap sections) ->
  start_celery_queues self = (Ok u, self') ->
  (forall name options,
     sections !! name = Some options ->
     exists t, v_getattr options "type" = Ok t) /\
  (forall name options,
     sections !! name = Some options ->
     v_getattr options "type" = Ok (VStr "celery") ->
     is_Some (queues self' !! name)) /\
  (forall name,
     queues self !! name = None ->
     (forall options,
        sections !! name = Some options ->
        v_getattr options "type" <> Ok (VStr "celery")) ->
     queues self' !! name = None) /\
  (forall name,
     queues self !! name = None -> queues self' !! name <> Some None).
Proof.
  intros Hcfg Hrun.
  unfold start_celery_queues in Hrun.
  rewrite (bind_ok _ _ self self (cfg self)) in Hrun by reflexivity.
  rewrite (bind_ok _ _ self self (map_to_list sections)) in Hrun
    by (unfold lift; rewrite Hcfg; reflexivity).
  apply start_celery_queues_items_returns in Hrun
    as (Htypes & Hqueues & Hcelery).
  assert (forall name options,
            In (name, options) (map_to_list sections)
            <-> sections !! name = Some options) as Hitems.
  { intros name options. rewrite <- list_elem_of_In.
    apply elem_of_map_to_list. }
  split; [|split; [|split]].
  - intros name options Hsection. apply (Htypes name), Hitems, Hsection.
  - intros name options Hsection. apply Hcelery, Hitems, Hsection.
  - intros name Hfree Hnone.
    destruct (Hqueues name) as [H|(_ & (options & Hin & Ht) & _)].
    + congruence.
    + apply Hitems in Hin. destruct (Hnone options Hin Ht).
  - intros name Hfree.
    destruct (Hqueues name) as [H|(_ & _ & queue & Hsome)]; congruence.
Qed.

(** *** Configuration files *)

Section ConfigFilesProperties.

Variable expanduser : string -> string.
Variable file_content : Type.
Variable open_file : string -> option file_content.
Variable Config : file_content -> result value.

(** X12. [_check_configs] gives the configuration of the first file of the
    list that can be opened, or raises when that file cannot be parsed; the
    files after it play no part. When no file can be opened it gives
    [None]. *)
Theorem check_configs_first_readable (before after : list string)
    (path : string) :
  (forall p, In p before -> open_file (expanduser p) = None) ->
  (forall f,
     open_file (expanduser path) = Some f ->
     _check_configs expanduser file_content open_file Config
       (before ++ path :: after)
     = Config f) /\
  _check_configs expanduser file_content open_file Config before = Ok VNone.
Proof.
  intros Hclosed.
  induction before as [|p before IH]; simpl.
  - split; [|reflexivity]. intros f ->. reflexivity.
  - rewrite (Hclosed p) by (left; reflexivity).
    apply IH. intros q Hq. apply Hclosed. right. exact Hq.
Qed.

(** X13. [load_config] returns whether the object has a configuration that
    is not empty, and changes nothing but the configuration. Once it has
    returned [True], a later call, whatever its argument, reads no file
    and returns [True] with the same configuration. *)
Theorem load_config_loads_once (config_file : option string)
    (self self' : SlimtaState) (loaded : bool) :
  load_config expanduser file_content open_file Config config_file self
  = (Ok loaded, self') ->
  loaded = truthy (cfg self') /\
  edges self' = edges self /\
  queues self' = queues self /\
  relays self' = relays self /\
  _celery self' = _celery self /\
  constructed self' = constructed self /\
  (loaded = true ->
   forall config_file',
     load_config expanduser file_content open_file Config config_file' self'
     = (Ok true, self')).
Proof.
  intros Hrun.
  assert (forall s config_file',
            truthy (cfg s) = true ->
            load_config expanduser file_content open_file Config
              config_file' s = (Ok true, s)) as Hloaded.
  { intros s config_file' Htruthy. unfold load_config, bind, gets.
    rewrite Htruthy. reflexivity. }
  unfold load_config in Hrun.
  rewrite (bind_ok _ _ self self (cfg self)) in Hrun by reflexivity.
  destruct (truthy (cfg self)) eqn:Htruthy.
  - unfold ret in Hrun. simplify_eq.
    repeat split; try done. intros _ config_file'. apply Hloaded, Htruthy.
  - apply bind_ok_inv in Hrun as (c & s1 & Hcheck & Hrun).
    unfold lift in Hcheck.
    unfold bind, modify, ret in Hrun. simplify_eq.
    repeat split; try done.
    intros Htrue config_file'. apply Hloaded. simpl. exact Htrue.
Qed.

(** X14. With a path given, [load_config] reads that file only: when it
    cannot be opened the call returns [False] and leaves no configuration,
    whatever the user's and the system's configuration files hold. *)
Theorem load_config_no_fallback (path : string) (self : SlimtaState) :
  truthy (cfg self) = false ->
  path <> "" ->
  open_file (expanduser path) = None ->
  load_config expanduser file_content open_file Config (Some path) self
  = (Ok false, set_cfg VNone self).
Proof.
  intros Hunloaded Hpath Hclosed.
  unfold load_config, bind, gets, lift, modify, ret.
  rewrite Hunloaded.
  rewrite (proj2 (String.eqb_neq path "") Hpath). simpl.
  rewrite Hclosed. reflexivity.
Qed.

End ConfigFilesProperties.

(** *** Process lifecycle *)

(** X15. [daemonize] and [redirect_streams] read the [daemon] flag of the
    [process] section, so both raise [AttributeError] when the
    configuration has no such section, attached or not. With the section,
    an attached process makes no call at all, and a process that is not
    attached daemonizes exactly when it redirects its streams. A process
    that is not the superuser only warns, without reading the
    configuration. *)
Theorem lifecycle_calls (attached : bool) (self : SlimtaState) (uid : Z) :
  ((forall process, (cfg self) <> VMap process) \/
   (exists process, cfg self = VMap process /\ process !! "process" = None) ->
   daemonize attached self = Raise (AttributeError "process") /\
   redirect_streams attached self = Raise (AttributeError "process")) /\
  (forall process,
     v_getattr (cfg self) "process" = Ok (VMap process) ->
     (attached = true ->
      daemonize attached self = Ok [] /\
      redirect_streams attached self = Ok []) /\
     (daemonize attached self = Ok [Daemonize] <->
      redirect_streams attached self
      = Ok [RedirectStdio (get_default process "stdout" VNone)
              (get_default process "stderr" VNone)
              (get_default process "stdin" VNone)]) /\
     (daemonize attached self = Ok [] <->
      redirect_streams attached self = Ok [])) /\
  (uid <> 0 ->
   drop_privileges uid self
   = Ok [Warn "Only superuser can drop privileges."]).
Proof.
  split; [|split].
  - intros Hmissing.
    assert (v_getattr (cfg self) "process" = Raise (AttributeError "process"))
      as Hraise.
    { destruct Hmissing as [H|(process & H & Hnone)].
      - destruct (cfg self); try reflexivity. destruct (H m eq_refl).
      - rewrite H. simpl. unfold getattr. rewrite Hnone. reflexivity. }
    unfold daemonize, redirect_streams, process_get. rewrite Hraise.
    split; reflexivity.
  - intros process Hprocess.
    unfold daemonize, redirect_streams, process_get. rewrite Hprocess.
    simpl.
    destruct (truthy (get_default process "daemon" (VBool false)));
      destruct attached; simpl; repeat split; try done.
  - intros Huid. unfold drop_privileges.
    rewrite (proj2 (Z.eqb_neq uid 0) Huid). reflexivity.
Qed.

(** ** Rule helpers, continued *)

Lemma append_empty_r (s : string) : s ++ "" = s.
Proof.
  induction s as [|a s IH]; [reflexivity|].
  change (String a (s ++ "") = String a s). rewrite IH. reflexivity.
Qed.

(** The key of the template [{address}] is the address. *)
Lemma format_key_address_id (address : string) :
  format_key "{address}" address = address.
Proof.
  unfold format_key.
  change (format_address (S (String.length "{address}")) "{address}" address)
    with (address ++ "").
  apply append_empty_r.
Qed.

Lemma iter_strings_strings (l : list string) :
  iter_strings (VStr <$> l) = Ok l.
Proof.
  induction l as [|s l IH]; [reflexivity|].
  change (iter_strings (VStr <$> s :: l))
    with (let? k := iter_strings (VStr <$> l) in Ok (s :: k)).
  rewrite IH. reflexivity.
Qed.

Lemma fromkeys_lookup (keys : list string) (key : string) :
  is_Some ((list_to_map ((fun k => (k, ∅)) <$> keys) : gmap string attrs)
             !! key)
  <-> In key keys.
Proof.
  rewrite <- list_elem_of_In.
  induction keys as [|k keys IH]; simpl.
  - rewrite lookup_empty. split; [intros [? ?]; discriminate|].
    intros H. inversion H.
  - destruct (decide (k = key)) as [->|Hne].
    + rewrite lookup_insert_eq. split; [left | eauto].
    + rewrite lookup_insert_ne by exact Hne. rewrite IH.
      split; [right; assumption|]. intros H. inversion H; congruence.
Qed.

(** X16. A rules section with a list of addresses and no lookup section
    gives a lookup that has an entry exactly for the listed addresses, so
    that a recipient checked against it is accepted if and only if it is
    in the list (and likewise a sender, whatever the session). *)
Theorem address_list_allows_exactly_listed (rules : section)
    (lookup_section list_section regex_section : string)
    (addresses : list string) :
  rules !! lookup_section = None ->
  rules !! list_section = Some (VList (VStr <$> addresses)) ->
  exists lookup,
    _get_lookup rules lookup_section list_section regex_section
    = Ok (Some lookup) /\
    (forall address authzid,
       is_Some (lookup_address lookup address authzid)
       <-> In address addresses) /\
    (forall self recipient,
       lookup_rcpts self = Some lookup ->
       (is_recipient_ok self recipient = true <-> In recipient addresses)) /\
    (forall self validators sender,
       lookup_senders self = Some lookup ->
       (is_sender_ok self validators sender = true <-> In sender addresses)).
Proof.
  intros Hlookup Hlist.
  eexists. split.
  { unfold _get_lookup. rewrite Hlookup, Hlist. simpl.
    rewrite iter_strings_strings. reflexivity. }
  assert (forall address authzid,
            is_Some
              (lookup_address
                 (DictLookup (list_to_map ((fun k => (k, ∅)) <$> addresses))
                    "{address}") address authzid)
            <-> In address addresses) as Hallowed.
  { intros address authzid. simpl. rewrite format_key_address_id.
    apply fromkeys_lookup. }
  split; [exact Hallowed|]. split.
  - intros self recipient Hself. unfold is_recipient_ok. rewrite Hself.
    rewrite bool_decide_eq_true. apply Hallowed.
  - intros self validators sender Hself. unfold is_sender_ok. rewrite Hself.
    rewrite bool_decide_eq_true. apply Hallowed.
Qed.

Lemma add_regexes_valid (patterns : list string)
    (regexes : list (string * attrs)) :
  (forall p, In p patterns -> re_valid p = true) ->
  add_regexes (VStr <$> patterns) regexes
  = Ok (regexes ++ ((fun p => (p, ∅)) <$> patterns))%list.
Proof.
  revert regexes. induction patterns as [|p patterns IH];
    intros regexes Hvalid; simpl.
  - rewrite app_nil_r. reflexivity.
  - rewrite (Hvalid p) by (left; reflexivity).
    change (add_regexes (VStr <$> patterns) (regexes ++ [(p, ∅)])%list
            = Ok (regexes ++ (p, ∅) :: ((fun p => (p, ∅)) <$> patterns))%list).
    rewrite IH by (intros q Hq; apply Hvalid; right; exact Hq).
    rewrite <- app_assoc. reflexivity.
Qed.

Lemma add_regexes_invalid (before after : list string) (p : string)
    (regexes : list (string * attrs)) :
  (forall q, In q before -> re_valid q = true) ->
  re_valid p = false ->
  add_regexes (VStr <$> (before ++ p :: after)%list) regexes
  = Raise (ReError p).
Proof.
  revert regexes. induction before as [|q before IH];
    intros regexes Hvalid Hp; simpl.
  - rewrite Hp. reflexivity.
  - rewrite (Hvalid q) by (left; reflexivity).
    apply IH; [|exact Hp]. intros r Hr. apply Hvalid. right. exact Hr.
Qed.

(** X17. A rules section with a list of patterns and neither a lookup section
    nor a list of addresses gives, when every pattern compiles, a lookup
    that has an entry exactly for the addresses that one of the patterns
    matches, so that a recipient is accepted if and only if a pattern
    matches it. When a pattern does not compile, building the lookup raises
    the error of the first such pattern. *)
Theorem pattern_list_allows_exactly_matched (rules : section)
    (lookup_section list_section regex_section : string)
    (patterns : list string) :
  rules !! lookup_section = None ->
  rules !! list_section = None ->
  rules !! regex_section = Some (VList (VStr <$> patterns)) ->
  ((forall p, In p patterns -> re_valid p = true) ->
   exists lookup,
     _get_lookup rules lookup_section list_section regex_section
     = Ok (Some lookup) /\
     (forall address authzid,
        is_Some (lookup_address lookup address authzid)
        <-> exists p, In p patterns /\ re_match p address = true) /\
     (forall self recipient,
        lookup_rcpts self = Some lookup ->
        (is_recipient_ok self recipient = true
         <-> exists p, In p patterns /\ re_match p recipient = true))) /\
  (forall before after p,
     patterns = (before ++ p :: after)%list ->
     (forall q, In q before -> re_valid q = true) ->
     re_valid p = false ->
     _get_lookup rules lookup_section list_section regex_section
     = Raise (ReError p)).
Proof.
  intros Hlookup Hlist Hregex. split.
  - intros Hvalid. eexists. split.
    { unfold _get_lookup. rewrite Hlookup, Hlist, Hregex. simpl.
      rewrite (add_regexes_valid patterns [] Hvalid). reflexivity. }
    assert (forall address authzid,
              is_Some
                (lookup_address
                   (RegexLookup "{address}"
                      ([] ++ ((fun p => (p, ∅)) <$> patterns))%list)
                   address authzid)
              <-> exists p, In p patterns /\ re_match p address = true)
      as Hallowed.
    { intros address authzid. simpl. rewrite format_key_address_id.
      clear. induction patterns as [|q patterns IH]; simpl.
      - split; [intros [? ?]; discriminate | intros (p & [] & _)].
      - destruct (re_match q address) eqn:Hq; simpl.
        + split; [eauto | eauto].
        + change (is_Some
                    (snd <$> List.find
                               (fun '(p, _) => re_match p address)
                               ((fun p => (p, (∅ : attrs))) <$> patterns))
                  <-> exists p, (q = p \/ In p patterns)
                                /\ re_match p address = true).
          rewrite IH. split.
          * intros (p & Hin & Hp). eauto.
          * intros (p & [->|Hin] & Hp); [congruence | eauto]. }
    split; [exact Hallowed|].
    intros self recipient Hself. unfold is_recipient_ok. rewrite Hself.
    rewrite bool_decide_eq_true. apply Hallowed.
  - intros before after p -> Hvalid Hp.
    unfold _get_lookup. rewrite Hlookup, Hlist, Hregex. simpl.
    rewrite (add_regexes_invalid before after p [] Hvalid Hp). reflexivity.
Qed.

(** X18. Without a [reject_spam] section there is no scanner. With one, even
    an empty one, whose type is absent or [spamassassin], a scanner is
    built for the host and port of the section, [localhost] and [783] when
    absent, unless the port does not convert to an integer, in which case
    building it raises; a rule set with that scanner rejects exactly the
    messages the scanner reports as spam. *)
Theorem get_scanner_defaults (options : section) :
  options !! "type" = None \/ options !! "type" = Some (VStr "spamassassin") ->
  _get_scanner None = Ok None /\
  (forall e,
     py_int (get_default options "port" (VInt 783)) = Raise e ->
     _get_scanner (Some options) = Raise e) /\
  (forall port,
     py_int (get_default options "port" (VInt 783)) = Ok port ->
     let sa := {| sa_host := get_default options "host" (VStr "localhost");
                  sa_port := port |} in
     _get_scanner (Some options) = Ok (Some sa) /\
     forall self data,
       scanner self = Some sa ->
       reject_spam self data = fst (scan sa data)) /\
  (options !! "host" = None -> options !! "port" = None ->
   _get_scanner (Some options)
   = Ok (Some {| sa_host := VStr "localhost"; sa_port := 783 |})).
Proof.
  intros Htype.
  assert (is_str (get_default options "type" (VStr "spamassassin"))
            "spamassassin" = true) as Hstr.
  { unfold get_default. destruct Htype as [-> | ->]; reflexivity. }
  split; [reflexivity|]. split; [|split].
  - intros e Hport. unfold _get_scanner, _get_spamassassin_object.
    rewrite Hstr, Hport. reflexivity.
  - intros port Hport sa. split.
    + unfold _get_scanner, _get_spamassassin_object.
      rewrite Hstr, Hport. reflexivity.
    + intros self data Hself. unfold reject_spam. rewrite Hself.
      destruct (scan sa data). reflexivity.
  - intros Hhost Hport. unfold _get_scanner, _get_spamassassin_object.
    rewrite Hstr. unfold get_default. rewrite Hhost, Hport. reflexivity.
Qed.

(** ** Queue policies, continued *)

(** X19. [add_queue_policies] only appends to the queue, at most one policy
    for each entry and in the order of the entries: the queue it leaves for
    a list of entries extends the queue it leaves for any first part of the
    list, and so the queue it was given, whether it returns or raises. *)
Theorem add_queue_policies_appends (queue : list Policy)
    (first rest : list section) :
  exists added : list Policy,
    fst (add_queue_policies queue (first ++ rest))
    = (fst (add_queue_policies queue first) ++ added)%list /\
    (List.length added <= List.length rest)%nat.
Proof.
  assert (forall l q,
            exists added : list Policy,
              fst (add_queue_policies q l) = (q ++ added)%list /\
              (List.length added <= List.length l)%nat) as Hprefix.
  { induction l as [|policy l IH]; intros q; simpl.
    - exists []. rewrite app_nil_r. split; [reflexivity | simpl; lia].
    - destruct (policy_of_entry policy) as [[p|]|e].
      + destruct (IH (q ++ [p])%list) as (added & Heq & Hlen).
        exists (p :: added). rewrite Heq, <- app_assoc.
        split; [reflexivity | simpl; lia].
      + destruct (IH q) as (added & Heq & Hlen).
        exists added. split; [exact Heq | lia].
      + exists []. rewrite app_nil_r. split; [reflexivity | simpl; lia]. }
  rewrite add_queue_policies_app.
  destruct (add_queue_policies queue first) as [queue' [u|e]]; simpl.
  - apply Hprefix.
  - exists []. rewrite app_nil_r. split; [reflexivity | simpl; lia].
Qed.

(** What a list of entries adds does not depend on the queue. *)
Lemma add_queue_policies_from_empty (queue : list Policy)
    (l : list section) :
  add_queue_policies queue l
  = ((queue ++ fst (add_queue_policies [] l))%list,
     snd (add_queue_policies [] l)).
Proof.
  revert queue.
  induction l as [|policy l IH]; intros queue; simpl.
  - rewrite app_nil_r. reflexivity.
  - destruct (policy_of_entry policy) as [[p|]|e].
    + rewrite (IH (queue ++ [p])%list), (IH [p]).
      simpl. rewrite <- app_assoc. reflexivity.
    + apply IH.
    + simpl. rewrite app_nil_r. reflexivity.
Qed.

(** X20. The policy of an [add_dkim_header] entry stands in the queue where
    the entry stands in the list: it comes right after the policies of the
    entries before it, and the policies of the entries after it are added
    behind it, so the signature policy is last only when no later entry
    adds a policy. *)
Theorem dkim_policy_keeps_its_place (queue queue1 : list Policy)
    (before after : list section) (policy : section) :
  policy !! "type" = Some (VStr "add_dkim_header") ->
  add_queue_policies queue before = (queue1, Ok tt) ->
  add_queue_policies queue (before ++ policy :: after)
  = ((queue1
      ++ AddDKIMHeader (get_default policy "dkim" (VMap ∅))
         :: fst (add_queue_policies [] after))%list,
     snd (add_queue_policies [] after)).
Proof.
  intros Htype Hbefore.
  rewrite add_queue_policies_app, Hbefore. simpl.
  assert (policy_of_entry policy
          = Ok (Some (AddDKIMHeader (get_default policy "dkim" (VMap ∅)))))
    as ->.
  { unfold policy_of_entry, getattr. rewrite Htype. reflexivity. }
  rewrite add_queue_policies_from_empty, <- app_assoc. reflexivity.
Qed.

(** ** Backoff function, continued *)

(** X21. A retry section whose [maximum] does not convert to an integer,
    whose [delay] is not a string, or whose delay expression cannot be
    evaluated makes [build_backoff_function] raise: the error shows when
    the function is built, not when a delivery is retried. *)
Theorem build_backoff_function_raises_early (retry : section) :
  no_retry (Some retry) = false ->
  (forall e,
     py_int (get_default retry "maximum" (VInt 0)) = Raise e ->
     build_backoff_function (Some retry) = Raise e) /\
  (forall maximum,
     py_int (get_default retry "maximum" (VInt 0)) = Ok maximum ->
     (forall delay, get_default retry "delay" (VStr "300") <> VStr delay) ->
     build_backoff_function (Some retry) = Raise TypeError) /\
  (forall maximum delay e,
     py_int (get_default retry "maximum" (VInt 0)) = Ok maximum ->
     get_default retry "delay" (VStr "300") = VStr delay ->
     py_eval_lambda ("lambda x: " ++ delay) = Raise e ->
     build_backoff_function (Some retry) = Raise e).
Proof.
  intros Hno. change (negb (truthy (VMap retry)) = false) in Hno.
  unfold build_backoff_function. rewrite Hno.
  split; [|split].
  - intros e ->. reflexivity.
  - intros maximum -> Hdelay. simpl.
    destruct (get_default retry "delay" (VStr "300")); try reflexivity.
    destruct (Hdelay s eq_refl).
  - intros maximum delay e -> -> Heval. simpl. rewrite Heval. reflexivity.
Qed.

(** X22. Every backoff function that [build_backoff_function] returns stops
    retrying from some number of attempts on, and does not look at the
    envelope. *)
Theorem backoff_is_bounded (retry : option section)
    (backoff : Envelope -> Z -> result pyobj) :
  build_backoff_function retry = Ok backoff ->
  (exists maximum,
     forall envelope attempts,
       maximum < attempts -> backoff envelope attempts = Ok py_None) /\
  (forall envelope envelope' attempts,
     backoff envelope attempts = backoff envelope' attempts).
Proof.
  unfold build_backoff_function. intros Hbuild.
  destruct retry as [retry|].
  - destruct (negb (truthy (VMap retry))).
    + injection Hbuild as <-.
      split; [exists 0; reflexivity | reflexivity].
    + destruct (py_int (get_default retry "maximum" (VInt 0)))
        as [maximum|e]; simpl in Hbuild; [|discriminate].
      destruct (get_default retry "delay" (VStr "300"));
        try discriminate.
      destruct (py_eval_lambda _) as [delay_func|e]; simpl in Hbuild;
        [|discriminate].
      injection Hbuild as <-.
      split; [|reflexivity].
      exists maximum. intros envelope attempts Hlt.
      rewrite (proj2 (Z.gtb_lt attempts maximum) Hlt). reflexivity.
  - injection Hbuild as <-.
    split; [exists 0; reflexivity | reflexivity].
Qed.


Lemma prefix_app (s t : string) : String.prefix s (s ++ t) = true.
Proof.
  induction s as [|a s IH]; [destruct t; reflexivity|].
  change (String a s ++ t) with (String a (s ++ t)). simpl.
  destruct (ascii_dec a a); [exact IH | congruence].
Qed.

Lemma is_infix_mid (before s after : string) :
  is_infix s (before ++ s ++ after) = true.
Proof.
  induction before as [|a before IH].
  - change ("" ++ s ++ after) with (s ++ after).
    destruct (s ++ after) eqn:Happ; cbn [is_infix];
      rewrite <- Happ, prefix_app; reflexivity.
  - change (String a before ++ s ++ after)
      with (String a (before ++ s ++ after)).
    cbn [is_infix]. rewrite IH. apply orb_true_r.
Qed.

(** ** Validators of the edges *)

(** X23. The SMTP and the WSGI validators decide on a sender and on a
    recipient alike: the WSGI validator raises its [403 Forbidden] response
    exactly when the SMTP handler, under the decorator that does nothing,
    changes the reply, and the [X-Smtp-Reply] header of the response is
    made of the code and the message the SMTP reply gets; when the WSGI
    validator returns, the SMTP handler leaves the reply as it is. *)
Theorem smtp_and_wsgi_validators_agree (rules : RuleHelpers)
    (validators : Validators) (address : string) (params : value)
    (reply : Reply) :
  match validate_sender rules validators address with
  | None =>
      handle_mail rules _noop_decorator (validators, address, params) reply
      = reply
  | Some response =>
      exists code message,
        handle_mail rules _noop_decorator (validators, address, params) reply
        = {| reply_code := VStr code; reply_message := VStr message |} /\
        code = "550" /\
        wsgi_status response = "403 Forbidden" /\
        wsgi_headers response
        = [("X-Smtp-Reply", smtp_reply_header code message)]
  end /\
  match validate_recipient rules address with
  | None => handle_rcpt rules address reply = reply
  | Some response =>
      exists code message,
        handle_rcpt rules address reply
        = {| reply_code := VStr code; reply_message := VStr message |} /\
        code = "550" /\
        wsgi_status response = "403 Forbidden" /\
        wsgi_headers response
        = [("X-Smtp-Reply", smtp_reply_header code message)]
  end.
Proof.
  unfold validate_sender, validate_recipient, handle_mail, handle_rcpt,
    _noop_decorator.
  split.
  - destruct (is_sender_ok rules validators address); simpl;
      [reflexivity|].
    eexists _, _. repeat split; reflexivity.
  - destruct (is_recipient_ok rules address); simpl; [reflexivity|].
    eexists _, _. repeat split; reflexivity.
Qed.

(** X24. An edge whose rule set has no lookup and no scanner accepts every
    sender, every recipient and every message, authenticated or not: its
    handlers leave the reply as it is. It accepts no credentials: every
    authentication attempt is answered with the code 535, whatever the
    credentials would verify. *)
Theorem rules_without_lookups_accept_all_mail (rules : RuleHelpers)
    (validators : Validators) (creds : Credentials) (address data : string)
    (params : value) (reply : Reply) :
  (lookup_senders rules = None -> lookup_creds rules = None ->
   handle_mail rules _noop_decorator (validators, address, params) reply
   = reply /\
   validate_sender rules validators address = None) /\
  (lookup_rcpts rules = None ->
   handle_rcpt rules address reply = reply /\
   validate_recipient rules address = None) /\
  (scanner rules = None -> handle_have_data rules data reply = reply) /\
  (lookup_creds rules = None ->
   handle_auth rules creds reply
   = {| reply_code := VStr "535";
        reply_message := VStr "5.7.8 Authentication credentials invalid" |}).
Proof.
  split; [|split; [|split]].
  - intros Hsenders Hcreds. split.
    + unfold handle_mail, _noop_decorator, is_sender_ok.
      rewrite Hsenders, Hcreds. reflexivity.
    + unfold validate_sender, is_sender_ok.
      rewrite Hsenders, Hcreds. reflexivity.
  - intros Hrcpts. split.
    + unfold handle_rcpt, is_recipient_ok. rewrite Hrcpts. reflexivity.
    + unfold validate_recipient, is_recipient_ok. rewrite Hrcpts.
      reflexivity.
  - intros Hscanner. unfold handle_have_data, reject_spam.
    rewrite Hscanner. reflexivity.
  - intros Hcreds. unfold handle_auth, check_credentials.
    rewrite Hcreds. reflexivity.
Qed.

(** X25. With a credential lookup and no sender lookup, the sender of an
    unauthenticated session is refused with the code 550 and a message
    that names it, and any sender of an authenticated session is
    accepted. *)
Theorem credentials_required_to_send (rules : RuleHelpers)
    (validators : Validators) (sender : string) (params : value)
    (reply : Reply) (lookup : Lookup) :
  lookup_senders rules = None ->
  lookup_creds rules = Some lookup ->
  (truthy (session_auth validators) = true ->
   handle_mail rules _noop_decorator (validators, sender, params) reply
   = reply) /\
  (truthy (session_auth validators) = false ->
   handle_mail rules _noop_decorator (validators, sender, params) reply
   = {| reply_code := VStr "550";
        reply_message :=
          VStr ("5.7.1 Sender <" ++ sender ++ "> Not allowed") |} /\
   is_infix sender ("5.7.1 Sender <" ++ sender ++ "> Not allowed") = true).
Proof.
  intros Hsenders Hcreds.
  unfold handle_mail, _noop_decorator, is_sender_ok.
  rewrite Hsenders, Hcreds. simpl.
  split; intros ->; simpl; [reflexivity|].
  split; [reflexivity|].
  apply (is_infix_mid "5.7.1 Sender <" sender "> Not allowed").
Qed.

End Slimta.

(** * The statements on concrete configurations *)

Example py_int_of_padded_string : py_int (VStr " 25 ") = Ok 25.
Proof. reflexivity. Qed.

Example py_int_of_grouped_digits : py_int (VStr "-1_000") = Ok (-1000).
Proof. reflexivity. Qed.

Example py_int_of_malformed : py_int (VStr "2x") = Raise ValueError.
Proof. reflexivity. Qed.

Example format_key_address :
  format_key "{address}" "sales@example.com" = "sales@example.com".
Proof. reflexivity. Qed.

Example parse_arith_product : parse_arith "x*2" = Some (AMul AVar (ANum 2)).
Proof. reflexivity. Qed.

Example parse_arith_power_outside_fragment : parse_arith "x**2" = None.
Proof. reflexivity. Qed.

(** The rule set of a section that gives only a list of senders: a listed
    sender is accepted without authentication, another one is not, even
    with it. *)
Example is_sender_ok_only_senders :
  let rules : section := {[ "only_senders" := VList [VStr "sales@example.com"] ]} in
  exists lookup,
    _get_lookup sample_load_lookup sample_re_valid rules
      "lookup_senders" "only_senders" "regex_senders" = Ok (Some lookup) /\
    let self :=
      {| banner := VNone; dnsbl := VNone; lookup_senders := Some lookup;
         lookup_rcpts := None; lookup_creds := None;
         password_hash := {| passlib_config := VNone |};
         reject_spf := VNone; scanner := None |} in
    is_sender_ok sample_re_match self {| session_auth := VNone |}
      "sales@example.com" = true /\
    is_sender_ok sample_re_match self {| session_auth := VBool true |}
      "info@example.com" = false.
Proof. eexists. split; [reflexivity|]. split; reflexivity. Qed.

(** A stored entry without [password] fails the check whatever the
    credentials verify to. *)
Example check_credentials_no_password :
  let self :=
    {| banner := VNone; dnsbl := VNone; lookup_senders := None;
       lookup_rcpts := None;
       lookup_creds :=
         Some (DictLookup {[ "user" := {[ "uid" := VInt 1 ]} ]} "{address}");
       password_hash := {| passlib_config := VNone |};
       reject_spf := VNone; scanner := None |} in
  check_credentials sample_re_match self
    {| authcid := "user"; authzid := None; verify := fun _ => true |}
  = false.
Proof. reflexivity. Qed.

Lemma get_lookup_first_present_key_witness :
  _get_lookup sample_load_lookup sample_re_valid sample_rules
    "lookup_senders" "only_senders" "regex_senders"
  = Ok (Some (DictLookup {[ "postmaster@example.com" := ∅ ]} "{address}")) /\
  _get_lookup sample_load_lookup sample_re_valid
    (delete "lookup_senders" sample_rules)
    "lookup_senders" "only_senders" "regex_senders"
  = Ok (Some (DictLookup {[ "sales@example.com" := ∅ ]} "{address}")).
Proof.
  pose proof (get_lookup_first_present_key sample_load_lookup sample_re_valid)
    as H.
  split.
  - destruct (H sample_rules "lookup_senders" "only_senders" "regex_senders")
      as (Hfirst & _).
    rewrite (Hfirst _ eq_refl). reflexivity.
  - destruct (H (delete "lookup_senders" sample_rules)
                "lookup_senders" "only_senders" "regex_senders")
      as (_ & Hsecond & _).
    rewrite (Hsecond _ eq_refl eq_refl). reflexivity.
Defined.

Lemma unknown_scanner_type_witness :
  _get_scanner (Some {[ "type" := VStr "clamav" ]}) = Ok None /\
  reject_spam sample_scan
    {| banner := VNone; dnsbl := VNone; lookup_senders := None;
       lookup_rcpts := None; lookup_creds := None;
       password_hash := {| passlib_config := VNone |};
       reject_spf := VNone; scanner := None |}
    "SPAM buy now" = false.
Proof.
  destruct (unknown_scanner_type_disables_spam_rejection sample_scan
              {[ "type" := VStr "clamav" ]} (VStr "clamav")
              {| banner := VNone; dnsbl := VNone; lookup_senders := None;
                 lookup_rcpts := None; lookup_creds := None;
                 password_hash := {| passlib_config := VNone |};
                 reject_spf := VNone; scanner := None |}
              "SPAM buy now")
    as (Hscanner & _ & Hreject).
  - reflexivity.
  - discriminate.
  - reflexivity.
  - split; assumption.
Defined.

(** C6 as stated fails: a policy list with an entry of the unknown type
    [bogus] is processed to its end without an exception, and the queue
    gets the policies of the other entries. *)
Lemma unknown_policy_type_not_rejected :
  ~ In "bogus" known_policy_types /\
  add_queue_policies sample_load_lookup []
    [ {[ "type" := VStr "add_date_header" ]};
      {[ "type" := VStr "bogus" ]};
      {[ "type" := VStr "add_received_header" ]} ]
  = ([AddDateHeader; AddReceivedHeader], Ok tt).
Proof.
  split.
  - simpl. intuition discriminate.
  - reflexivity.
Qed.

Lemma unknown_policy_type_is_skipped_witness :
  add_queue_policies sample_load_lookup []
    ([ {[ "type" := VStr "add_date_header" ]} ]
     ++ {[ "type" := VStr "bogus" ]}
     :: [ {[ "type" := VStr "add_received_header" ]} ])
  = add_queue_policies sample_load_lookup []
      ([ {[ "type" := VStr "add_date_header" ]} ]
       ++ [ {[ "type" := VStr "add_received_header" ]} ]).
Proof.
  apply (unknown_policy_type_is_skipped sample_load_lookup []
           [ {[ "type" := VStr "add_date_header" ]} ]
           [ {[ "type" := VStr "add_received_header" ]} ]
           {[ "type" := VStr "bogus" ]} (VStr "bogus")).
  - reflexivity.
  - simpl. intros t H. intuition (subst; discriminate).
Defined.

Lemma incomplete_lookup_policy_raises_witness :
  add_queue_policies sample_load_lookup []
    ([ {[ "type" := VStr "add_date_header" ]} ]
     ++ {[ "type" := VStr "lookup"; "lookup" := VMap ∅ ]}
     :: [ {[ "type" := VStr "add_received_header" ]} ])
  = ([AddDateHeader],
     Raise (ConfigValidationError "Incomplete lookup policy section")).
Proof.
  apply (incomplete_lookup_policy_raises sample_load_lookup []
           [ {[ "type" := VStr "add_date_header" ]} ]
           [ {[ "type" := VStr "add_received_header" ]} ]
           {[ "type" := VStr "lookup"; "lookup" := VMap ∅ ]}).
  - reflexivity.
  - reflexivity.
  - reflexivity.
Defined.

Lemma arith_eval_lambda_arith (src : string) (e : arith) :
  parse_arith src = Some e ->
  arith_eval_lambda ("lambda x: " ++ src)
  = Ok (fun x => Ok (VInt (arith_eval e x))).
Proof.
  intros Hparse. unfold arith_eval_lambda.
  change (strip_prefix "lambda x: " ("lambda x: " ++ src)) with (Some src).
  cbv beta iota. rewrite Hparse. reflexivity.
Defined.

Lemma build_backoff_function_witness :
  (exists backoff,
     build_backoff_function value VNone arith_eval_lambda unit None
     = Ok backoff /\
     forall attempts, 0 <= attempts -> backoff tt attempts = Ok VNone) /\
  (exists backoff,
     build_backoff_function value VNone arith_eval_lambda unit
       (Some {[ "maximum" := VStr "5" ]}) = Ok backoff /\
     forall attempts,
       backoff tt attempts
       = if attempts >? 5 then Ok VNone else Ok (VInt 300)) /\
  (exists backoff,
     build_backoff_function value VNone arith_eval_lambda unit
       (Some {[ "maximum" := VInt 3; "delay" := VStr "x*2" ]}) = Ok backoff /\
     backoff tt 2 = Ok (VInt 4) /\
     backoff tt 4 = Ok VNone).
Proof.
  destruct (build_backoff_function_spec value VNone VInt arith_eval_lambda
              unit arith_eval_lambda_arith)
    as (Hnone & Hretry & (b3 & Hb3 & Hcall3)).
  split; [|split].
  - destruct (Hnone None eq_refl) as (b & Hb & Hstop).
    exists b. split; [exact Hb|]. intros attempts Hpos.
    apply Hstop, Hpos.
  - destruct (Hretry {[ "maximum" := VStr "5" ]} 5 "300"
                (fun x => Ok (VInt 300)))
      as (b & Hb & Hcall); [reflexivity..|].
    exists b. split; [exact Hb|]. intros attempts. apply Hcall.
  - exists b3. split; [exact Hb3|]. apply Hcall3.
Defined.

(** C8 as stated fails: for the relay section [outbound] with the unknown
    type [bogus], the message of the error has the type and not the name
    of the section. *)
Lemma unknown_relay_type_message_omits_section :
  let self :=
    initial_state
      (VMap {[ "relay" :=
                 VMap {[ "outbound" := VMap {[ "type" := VStr "bogus" ]} ]} ]})
  in
  _start_relay "outbound" VNone self
  = (Raise (ConfigError "relay type does not exist: bogus"), self) /\
  is_infix "bogus" "relay type does not exist: bogus" = true /\
  is_infix "outbound" "relay type does not exist: bogus" = false.
Proof. repeat split; reflexivity. Qed.

Lemma unknown_type_raises_config_error_witness :
  let self :=
    initial_state
      (VMap {[ "relay" :=
                 VMap {[ "outbound" := VMap {[ "type" := VStr "bogus" ]} ]} ]})
  in
  _start_relay "outbound" VNone self
  = (Raise (ConfigError "relay type does not exist: bogus"), self) /\
  _start_queue "inbound" (VMap {[ "type" := VStr "redis" ]}) self
  = (Raise (ConfigError "queue type does not exist: redis"), self) /\
  _start_edge "web" (VMap {[ "type" := VStr "http" ]}) self
  = (Raise (ConfigError "edge type does not exist: http"), self).
Proof.
  intros self.
  split; [|split].
  - apply (unknown_type_raises_config_error self "outbound" VNone
             (VMap {[ "type" := VStr "bogus" ]}) "bogus");
      [reflexivity | reflexivity | reflexivity |].
    simpl. intuition discriminate.
  - apply (unknown_type_raises_config_error self "inbound"
             (VMap {[ "type" := VStr "redis" ]})
             (VMap {[ "type" := VStr "redis" ]}) "redis");
      [reflexivity | reflexivity | reflexivity |].
    simpl. intuition discriminate.
  - apply (unknown_type_raises_config_error self "web"
             (VMap {[ "type" := VStr "http" ]})
             (VMap {[ "type" := VStr "http" ]}) "http");
      [reflexivity | reflexivity | reflexivity |].
    discriminate.
Defined.

Lemma start_edge_spec_witness :
  let self := initial_state sample_cfg in
  let edge :=
    {| edge_id := 0; edge_ip := VStr "127.0.0.1"; edge_port := 25;
       edge_queue := None; edge_started := true |} in
  exists self2,
    _start_edge "inbound" VNone self = (Ok edge, self2) /\
    edges self2 !! "inbound" = Some edge /\
    queues self2 !! "inbound" = Some None /\
    constructed self2 = [EdgeBuilt "inbound"] /\
    _start_edge "inbound" (VMap {[ "type" := VStr "http" ]}) self2
    = (Ok edge, self2).
Proof.
  intros self edge.
  destruct (start_edge_spec self "inbound" VNone
              (VMap {[ "type" := VStr "smtp"; "queue" := VStr "inbound";
                       "listeners" := VList [VMap ∅] ]}))
    as (_ & Hsmtp); [reflexivity | reflexivity |].
  destruct (Hsmtp ∅ [] 25) as (_ & Hbuild & _);
    [reflexivity | reflexivity | reflexivity |].
  destruct (Hbuild "inbound" None
              (set_queues <["inbound" := None]> self))
    as (Hfirst & Hedge & Hagain);
    [reflexivity | discriminate | reflexivity |].
  eexists. split; [exact Hfirst|].
  split; [exact Hedge|].
  split; [reflexivity|].
  split; [reflexivity|].
  apply Hagain.
Defined.

Lemma start_queue_idempotent_witness :
  let first := _start_queue "outbound" VNone (initial_state sample_cfg) in
  (exists queue, fst first = Ok (Some queue)) /\
  _start_queue "outbound" (VMap {[ "type" := VStr "redis" ]}) (snd first)
  = first /\
  constructed (snd first)
  = [RelayBuilt "outbound"; CeleryBuilt; QueueBuilt "outbound"] /\
  (relay_constructions "outbound"
     (run_calls [StartQueue "outbound" VNone; StartRelay "outbound" VNone;
                 StartQueue "outbound" VNone]
        (initial_state sample_cfg)) <= 1)%nat.
Proof.
  intros first.
  split; [eexists; reflexivity|].
  split; [|split; [reflexivity|]].
  - destruct first as [result self'] eqn:Hfirst.
    assert (exists queue, result = Ok queue) as [queue ->].
    { eexists. apply (f_equal fst) in Hfirst. simpl in Hfirst.
      rewrite <- Hfirst. reflexivity. }
    simpl.
    exact (proj1 start_queue_idempotent _ _ _ _ _ _ Hfirst).
  - apply (proj2 start_queue_idempotent).
Defined.

(** * Further statements on concrete configurations *)

(** A configuration whose celery queue names a relay of an unknown type. *)
Definition sample_broken_cfg : value :=
  VMap {[
    "relay" := VMap {[ "outbound" := VMap {[ "type" := VStr "bogus" ]} ]};
    "queue" := VMap {[
      "outbound" := VMap {[ "type" := VStr "celery";
                            "relay" := VStr "outbound" ]} ]}
  ]}.

(** A configuration whose queue sections all have a type. *)
Definition sample_typed_cfg : value :=
  VMap {[
    "relay" := VMap {[ "outbound" := VMap {[ "type" := VStr "mx" ]} ]};
    "queue" := VMap {[
      "inbound" := VMap {[ "type" := VStr "default" ]};
      "outbound" := VMap {[ "type" := VStr "celery";
                            "relay" := VStr "outbound" ]} ]}
  ]}.

(** A rule set with no lookup and no scanner. *)
Definition sample_open_rules : RuleHelpers :=
  {| banner := VNone; dnsbl := VNone; lookup_senders := None;
     lookup_rcpts := None; lookup_creds := None;
     password_hash := {| passlib_config := VNone |};
     reject_spf := VNone; scanner := None |}.

(** A file system with the system configuration file only, whose content
    is read as [sample_cfg]. *)
Definition sample_expanduser (path : string) : string :=
  match path with
  | String "~" rest => "/home/user" ++ rest
  | _ => path
  end.

Definition sample_open_file (path : string) : option string :=
  if String.eqb path "/etc/slimta.conf" then Some "relay: ..." else None.

Definition sample_Config (content : string) : result value :=
  if String.eqb content "" then Ok (VMap ∅) else Ok sample_cfg.

Lemma failed_builder_changes_nothing_witness :
  let self := initial_state sample_broken_cfg in
  _start_queue "outbound" VNone self
  = (Raise (ConfigError "relay type does not exist: bogus"), self).
Proof.
  intros self.
  assert (exists self',
            _start_queue "outbound" VNone self
            = (Raise (ConfigError "relay type does not exist: bogus"), self'))
    as [self' Hrun] by (eexists; reflexivity).
  rewrite Hrun. f_equal.
  exact (proj1 (proj2 (failed_builder_changes_nothing _ _ _ _ _)) Hrun).
Defined.

Lemma start_relay_idempotent_witness :
  let first := _start_relay "outbound" VNone (initial_state sample_cfg) in
  (exists relay, fst first = Ok relay) /\
  _start_relay "outbound" (VMap {[ "type" := VStr "static" ]}) (snd first)
  = first.
Proof.
  intros first. split; [eexists; reflexivity|].
  destruct first as [result self'] eqn:Hfirst.
  assert (exists relay, result = Ok relay) as [relay ->].
  { eexists. apply (f_equal fst) in Hfirst. simpl in Hfirst.
    rewrite <- Hfirst. reflexivity. }
  simpl. exact (start_relay_idempotent _ _ _ _ _ _ Hfirst).
Defined.

Lemma start_relay_static_witness :
  let self := initial_state VNone in
  _start_relay "smarthost"
    (VMap {[ "type" := VStr "static"; "host" := VStr "mail.example.com" ]})
    self
  = (Ok {| relay_id := 0;
           relay_class := StaticSmtpRelay (VStr "mail.example.com")
                            (VInt 25) |},
     set_relays
       <["smarthost" :=
           {| relay_id := 0;
              relay_class := StaticSmtpRelay (VStr "mail.example.com")
                               (VInt 25) |}]>
       (snd (construct (RelayBuilt "smarthost") self))) /\
  _start_relay "smarthost" (VMap {[ "type" := VStr "static" ]}) self
  = (Raise (AttributeError "host"), self).
Proof.
  intros self.
  destruct (start_relay_static self "smarthost"
              (VMap {[ "type" := VStr "static";
                       "host" := VStr "mail.example.com" ]})
              {[ "type" := VStr "static";
                 "host" := VStr "mail.example.com" ]})
    as (_ & Hhost); [reflexivity..|].
  destruct (start_relay_static self "smarthost"
              (VMap {[ "type" := VStr "static" ]})
              {[ "type" := VStr "static" ]})
    as (Hnohost & _); [reflexivity..|].
  split.
  - apply (Hhost (VStr "mail.example.com")). reflexivity.
  - apply Hnohost. reflexivity.
Defined.

Lemma start_queue_default_witness :
  let self := initial_state sample_cfg in
  _start_queue "inbound" VNone self
  = (Ok None, set_queues <["inbound" := None]> self).
Proof.
  intros self.
  apply (start_queue_default self "inbound" VNone (VMap ∅)).
  - reflexivity.
  - reflexivity.
  - left. reflexivity.
Defined.

Lemma start_queue_celery_witness :
  exists queue self',
    _start_queue "outbound" VNone (initial_state sample_cfg)
    = (Ok (Some queue), self') /\
    queue_relay queue = {| relay_id := 0; relay_class := MxSmtpRelay |} /\
    queue_celery queue = {| celery_id := 1 |} /\
    queue_id queue = 2%nat /\
    _start_queue "outbound" VNone (initial_state sample_broken_cfg)
    = (Raise (ConfigError "relay type does not exist: bogus"),
       initial_state sample_broken_cfg).
Proof.
  destruct (start_queue_celery (initial_state sample_cfg) "outbound" VNone
              (VMap {[ "type" := VStr "celery";
                       "relay" := VStr "outbound" ]}))
    as (_ & _ & Hbuilt & _); [reflexivity..|].
  destruct (start_queue_celery (initial_state sample_broken_cfg) "outbound"
              VNone
              (VMap {[ "type" := VStr "celery";
                       "relay" := VStr "outbound" ]}))
    as (_ & Hraise & _); [reflexivity..|].
  eexists _, _. split.
  { apply (Hbuilt "outbound" {| relay_id := 0; relay_class := MxSmtpRelay |}
             (snd (_start_relay "outbound" VNone (initial_state sample_cfg)))
             {| celery_id := 1 |}
             (snd (celery
                     (snd (_start_relay "outbound" VNone
                             (initial_state sample_cfg))))));
      [reflexivity | discriminate | reflexivity | reflexivity]. }
  split; [reflexivity|]. split; [reflexivity|]. split; [reflexivity|].
  apply (Hraise "outbound"
           (ConfigError "relay type does not exist: bogus")
           (initial_state sample_broken_cfg));
    [reflexivity | discriminate | reflexivity].
Defined.

Lemma start_edges_starts_every_edge_witness :
  exists self' edge,
    start_edges (initial_state sample_cfg) = (Ok tt, self') /\
    edges self' !! "inbound" = Some edge /\
    edge_started edge = true.
Proof.
  assert (exists self',
            start_edges (initial_state sample_cfg) = (Ok tt, self'))
    as [self' Hrun].
  { exists (snd (start_edges (initial_state sample_cfg))).
    vm_compute. reflexivity. }
  destruct (start_edges_starts_every_edge (initial_state sample_cfg) self'
              {[ "inbound" := VMap {[ "type" := VStr "smtp";
                                      "queue" := VStr "inbound";
                                      "listeners" := VList [VMap ∅] ]} ]}
              tt)
    as (_ & _ & Hall).
  - reflexivity.
  - apply well_linked_initial.
  - apply built_once_initial.
  - exact Hrun.
  - destruct (Hall "inbound") as (edge & Hedge & Hstarted & _).
    { eexists. reflexivity. }
    exists self', edge. repeat split; assumption.
Defined.

Lemma start_edges_stops_at_first_failure_witness :
  exists self1,
    start_edges_items
      ([("inbound", VNone)]
       ++ ("web", VMap {[ "type" := VStr "http" ]}) :: [("later", VNone)])
      (initial_state sample_cfg)
    = (Raise (ConfigError "edge type does not exist: http"), self1) /\
    is_Some (edges self1 !! "inbound").
Proof.
  eexists.
  destruct (start_edges_stops_at_first_failure
              [("inbound", VNone)] [("later", VNone)] "web"
              (VMap {[ "type" := VStr "http" ]})
              (initial_state sample_cfg)
              (snd (start_edges_items [("inbound", VNone)]
                      (initial_state sample_cfg)))
              (snd (start_edges_items [("inbound", VNone)]
                      (initial_state sample_cfg)))
              tt (ConfigError "edge type does not exist: http"))
    as (Hraise & Hbefore); [reflexivity | reflexivity |].
  split; [exact Hraise|].
  apply (Hbefore "inbound" VNone). left. reflexivity.
Defined.

Lemma start_celery_queues_spec_witness :
  exists self',
    start_celery_queues (initial_state sample_typed_cfg) = (Ok tt, self') /\
    is_Some (queues self' !! "outbound") /\
    queues self' !! "inbound" = None.
Proof.
  assert (exists self',
            start_celery_queues (initial_state sample_typed_cfg)
            = (Ok tt, self'))
    as [self' Hrun].
  { exists (snd (start_celery_queues (initial_state sample_typed_cfg))).
    vm_compute. reflexivity. }
  destruct (start_celery_queues_spec (initial_state sample_typed_cfg) self'
              {[ "inbound" := VMap {[ "type" := VStr "default" ]};
                 "outbound" := VMap {[ "type" := VStr "celery";
                                       "relay" := VStr "outbound" ]} ]}
              tt)
    as (_ & Hcelery & Hother & _); [reflexivity | exact Hrun |].
  exists self'. split; [exact Hrun|]. split.
  - apply (Hcelery "outbound"
             (VMap {[ "type" := VStr "celery";
                      "relay" := VStr "outbound" ]})); reflexivity.
  - apply Hother; [reflexivity|].
    intros options Hsection. vm_compute in Hsection.
    injection Hsection as <-. vm_compute. discriminate.
Defined.

(** The configuration of this section has a queue section with no type:
    [_start_queue] takes it for the default queue, [start_celery_queues]
    raises on it. *)
Example start_celery_queues_untyped_section :
  fst (start_celery_queues (initial_state sample_cfg))
  = Raise (AttributeError "type").
Proof. vm_compute. reflexivity. Qed.

Lemma check_configs_first_readable_witness :
  _check_configs sample_expanduser string sample_open_file sample_Config
    (["~/.slimta.conf"] ++ "/etc/slimta.conf" :: ["/usr/local/slimta.conf"])
  = Ok sample_cfg /\
  _check_configs sample_expanduser string sample_open_file sample_Config
    ["~/.slimta.conf"]
  = Ok VNone.
Proof.
  destruct (check_configs_first_readable sample_expanduser string
              sample_open_file sample_Config
              ["~/.slimta.conf"] ["/usr/local/slimta.conf"]
              "/etc/slimta.conf")
    as (Hfirst & Hnone).
  - intros p [<-|[]]. reflexivity.
  - split; [|exact Hnone]. apply (Hfirst "relay: ..."). reflexivity.
Defined.

Lemma load_config_loads_once_witness :
  let first :=
    load_config sample_expanduser string sample_open_file sample_Config
      None (initial_state VNone) in
  fst first = Ok true /\
  cfg (snd first) = sample_cfg /\
  load_config sample_expanduser string sample_open_file sample_Config
    (Some "/missing.conf") (snd first)
  = (Ok true, snd first).
Proof.
  intros first. split; [reflexivity|]. split; [reflexivity|].
  destruct (load_config_loads_once sample_expanduser string sample_open_file
              sample_Config None (initial_state VNone) (snd first) true)
    as (_ & _ & _ & _ & _ & _ & Hagain); [reflexivity|].
  apply Hagain. reflexivity.
Defined.

Lemma load_config_no_fallback_witness :
  load_config sample_expanduser string sample_open_file sample_Config
    (Some "/missing.conf") (initial_state VNone)
  = (Ok false, set_cfg VNone (initial_state VNone)) /\
  fst (load_config sample_expanduser string sample_open_file sample_Config
         None (initial_state VNone))
  = Ok true.
Proof.
  split; [|reflexivity].
  apply load_config_no_fallback; [reflexivity | discriminate | reflexivity].
Defined.

Lemma lifecycle_calls_witness :
  let self :=
    initial_state
      (VMap {[ "process" := VMap {[ "daemon" := VBool true;
                                    "stdout" := VStr "/var/log/out" ]} ]}) in
  daemonize true self = Ok [] /\
  redirect_streams true self = Ok [] /\
  redirect_streams false self
  = Ok [RedirectStdio (VStr "/var/log/out") VNone VNone] /\
  daemonize false (initial_state (VMap ∅))
  = Raise (AttributeError "process") /\
  drop_privileges 1000 (initial_state VNone)
  = Ok [Warn "Only superuser can drop privileges."].
Proof.
  intros self.
  destruct (lifecycle_calls true self 1000) as (_ & Hattached & _).
  destruct (Hattached {[ "daemon" := VBool true;
                         "stdout" := VStr "/var/log/out" ]} eq_refl)
    as (Hnone & _).
  destruct (Hnone eq_refl) as (Hdaemonize & Hredirect).
  destruct (lifecycle_calls false self 1000) as (_ & Hdetached & _).
  destruct (Hdetached {[ "daemon" := VBool true;
                         "stdout" := VStr "/var/log/out" ]} eq_refl)
    as (_ & Hboth & _).
  destruct (lifecycle_calls false (initial_state (VMap ∅)) 1000)
    as (Hmissing & _ & _).
  destruct (lifecycle_calls false (initial_state VNone) 1000)
    as (_ & _ & Hwarn).
  split; [exact Hdaemonize|]. split; [exact Hredirect|].
  split; [apply Hboth; reflexivity|].
  split; [|apply Hwarn; discriminate].
  apply Hmissing. right. exists ∅. split; reflexivity.
Defined.

Lemma address_list_allows_exactly_listed_witness :
  exists lookup,
    _get_lookup sample_load_lookup sample_re_valid
      {[ "only_recipients" := VList [VStr "sales@example.com"] ]}
      "lookup_recipients" "only_recipients" "regex_recipients"
    = Ok (Some lookup) /\
    forall address,
      is_Some (lookup_address sample_re_match lookup address None)
      <-> In address ["sales@example.com"].
Proof.
  destruct (address_list_allows_exactly_listed sample_load_lookup
              sample_re_valid sample_re_match
              {[ "only_recipients" := VList [VStr "sales@example.com"] ]}
              "lookup_recipients" "only_recipients" "regex_recipients"
              ["sales@example.com"])
    as (lookup & Hlookup & Hallowed & _); [reflexivity..|].
  exists lookup. split; [exact Hlookup|].
  intros address. apply Hallowed.
Defined.

Lemma pattern_list_allows_exactly_matched_witness :
  (exists lookup,
     _get_lookup sample_load_lookup sample_re_valid
       {[ "regex_recipients" := VList [VStr "sales@"] ]}
       "lookup_recipients" "only_recipients" "regex_recipients"
     = Ok (Some lookup) /\
     forall address,
       is_Some (lookup_address sample_re_match lookup address None)
       <-> exists p, In p ["sales@"] /\ sample_re_match p address = true) /\
  _get_lookup sample_load_lookup (fun p => negb (String.eqb p "("))
    {[ "regex_recipients" := VList [VStr "sales@"; VStr "("; VStr "info@"] ]}
    "lookup_recipients" "only_recipients" "regex_recipients"
  = Raise (ReError "(").
Proof.
  split.
  - destruct (pattern_list_allows_exactly_matched sample_load_lookup
                sample_re_valid sample_re_match
                {[ "regex_recipients" := VList [VStr "sales@"] ]}
                "lookup_recipients" "only_recipients" "regex_recipients"
                ["sales@"])
      as (Hvalid & _); [reflexivity..|].
    destruct Hvalid as (lookup & Hlookup & Hallowed & _);
      [reflexivity|].
    exists lookup. split; [exact Hlookup|].
    intros address. apply Hallowed.
  - destruct (pattern_list_allows_exactly_matched sample_load_lookup
                (fun p => negb (String.eqb p "(")) sample_re_match
                {[ "regex_recipients" :=
                     VList [VStr "sales@"; VStr "("; VStr "info@"] ]}
                "lookup_recipients" "only_recipients" "regex_recipients"
                ["sales@"; "("; "info@"])
      as (_ & Hinvalid); [reflexivity..|].
    apply (Hinvalid ["sales@"] ["info@"] "("); [reflexivity | |reflexivity].
    intros q [<-|[]]. reflexivity.
Defined.

Lemma get_scanner_defaults_witness :
  _get_scanner (Some ∅)
  = Ok (Some {| sa_host := VStr "localhost"; sa_port := 783 |}) /\
  _get_scanner (Some {[ "port" := VStr "spamd" ]}) = Raise ValueError.
Proof.
  destruct (get_scanner_defaults sample_scan ∅) as (_ & _ & _ & Hempty);
    [left; reflexivity|].
  destruct (get_scanner_defaults sample_scan {[ "port" := VStr "spamd" ]})
    as (_ & Hraise & _); [left; reflexivity|].
  split; [apply Hempty; reflexivity | apply Hraise; reflexivity].
Defined.

Lemma dkim_policy_keeps_its_place_witness :
  add_queue_policies sample_load_lookup []
    ([ {[ "type" := VStr "add_date_header" ]} ]
     ++ {[ "type" := VStr "add_dkim_header" ]}
     :: [ {[ "type" := VStr "add_received_header" ]} ])
  = ([AddDateHeader; AddDKIMHeader (VMap ∅); AddReceivedHeader], Ok tt).
Proof.
  rewrite (dkim_policy_keeps_its_place sample_load_lookup [] [AddDateHeader]
             [ {[ "type" := VStr "add_date_header" ]} ]
             [ {[ "type" := VStr "add_received_header" ]} ]
             {[ "type" := VStr "add_dkim_header" ]});
    reflexivity.
Defined.

Lemma build_backoff_function_raises_early_witness :
  build_backoff_function value VNone arith_eval_lambda unit
    (Some {[ "maximum" := VStr "many" ]}) = Raise ValueError /\
  build_backoff_function value VNone arith_eval_lambda unit
    (Some {[ "delay" := VInt 300 ]}) = Raise TypeError /\
  build_backoff_function value VNone arith_eval_lambda unit
    (Some {[ "delay" := VStr "x*" ]}) = Raise SyntaxError.
Proof.
  destruct (build_backoff_function_raises_early value VNone
              arith_eval_lambda unit {[ "maximum" := VStr "many" ]})
    as (Hmaximum & _ & _); [reflexivity|].
  destruct (build_backoff_function_raises_early value VNone
              arith_eval_lambda unit {[ "delay" := VInt 300 ]})
    as (_ & Hdelay & _); [reflexivity|].
  destruct (build_backoff_function_raises_early value VNone
              arith_eval_lambda unit {[ "delay" := VStr "x*" ]})
    as (_ & _ & Heval); [reflexivity|].
  split; [apply Hmaximum; reflexivity|].
  split; [apply (Hdelay 0); [reflexivity | discriminate]|].
  apply (Heval 0 "x*"); reflexivity.
Defined.

Lemma backoff_is_bounded_witness :
  exists backoff maximum,
    build_backoff_function value VNone arith_eval_lambda unit
      (Some {[ "maximum" := VInt 3; "delay" := VStr "x*2" ]})
    = Ok backoff /\
    forall attempts, maximum < attempts -> backoff tt attempts = Ok VNone.
Proof.
  assert (exists backoff,
            build_backoff_function value VNone arith_eval_lambda unit
              (Some {[ "maximum" := VInt 3; "delay" := VStr "x*2" ]})
            = Ok backoff) as [backoff Hbuild] by (eexists; reflexivity).
  destruct (backoff_is_bounded value VNone arith_eval_lambda unit _ backoff
              Hbuild) as ((maximum & Hstop) & _).
  exists backoff, maximum. split; [exact Hbuild|].
  intros attempts. apply Hstop.
Defined.

Lemma rules_without_lookups_accept_all_mail_witness :
  handle_mail sample_re_match sample_open_rules _noop_decorator
    ({| session_auth := VNone |}, "anyone@example.org", VNone)
    {| reply_code := VStr "250"; reply_message := VStr "Ok" |}
  = {| reply_code := VStr "250"; reply_message := VStr "Ok" |} /\
  handle_auth sample_re_match sample_open_rules
    {| authcid := "user"; authzid := None; verify := fun _ => true |}
    {| reply_code := VStr "235"; reply_message := VStr "Ok" |}
  = {| reply_code := VStr "535";
       reply_message := VStr "5.7.8 Authentication credentials invalid" |}.
Proof.
  destruct (rules_without_lookups_accept_all_mail sample_re_match sample_scan
              sample_open_rules {| session_auth := VNone |}
              {| authcid := "user"; authzid := None;
                 verify := fun _ => true |}
              "anyone@example.org" "" VNone
              {| reply_code := VStr "250"; reply_message := VStr "Ok" |})
    as (Hmail & _ & _ & _).
  destruct (rules_without_lookups_accept_all_mail sample_re_match sample_scan
              sample_open_rules {| session_auth := VNone |}
              {| authcid := "user"; authzid := None;
                 verify := fun _ => true |}
              "anyone@example.org" "" VNone
              {| reply_code := VStr "235"; reply_message := VStr "Ok" |})
    as (_ & _ & _ & Hauth).
  split; [apply Hmail; reflexivity | apply Hauth; reflexivity].
Defined.

Lemma credentials_required_to_send_witness :
  let rules :=
    {| banner := VNone; dnsbl := VNone; lookup_senders := None;
       lookup_rcpts := None;
       lookup_creds := Some (DictLookup ∅ "{address}");
       password_hash := {| passlib_config := VNone |};
       reject_spf := VNone; scanner := None |} in
  handle_mail sample_re_match rules _noop_decorator
    ({| session_auth := VNone |}, "user@example.com", VNone)
    {| reply_code := VStr "250"; reply_message := VStr "Ok" |}
  = {| reply_code := VStr "550";
       reply_message := VStr "5.7.1 Sender <user@example.com> Not allowed" |}.
Proof.
  intros rules.
  destruct (credentials_required_to_send sample_re_match rules
              {| session_auth := VNone |} "user@example.com" VNone
              {| reply_code := VStr "250"; reply_message := VStr "Ok" |}
              (DictLookup ∅ "{address}") eq_refl eq_refl)
    as (_ & Hrefused).
  apply Hrefused. reflexivity.
Defined.
